(** * xacct.py: a shallow embedding and its verified properties

    The program wraps the [sacct] accounting query of a Slurm cluster:
    it parses the delimited output into records, folds every [.batch]
    sub-record into its job record, sorts, simplifies timestamps and
    prints an aligned or tab-separated table.

    Conventions of the embedding.
    - A Python [str] is a [list ascii]; every [ascii] stands for the code
      point of the same number, so the strings covered are those of the
      Latin-1 range.
    - A Python exception is a value of [exn]; code that may raise returns
      a [result].
    - A Python [float] is a binary64 number: a finite one is kept as the
      rational it stands for, and every operation rounds its exact result
      to the nearest binary64 number, a tie going to the even significand,
      and to infinity from 2^1024 on.
    - A record (an [OrderedDict]) is an association list in insertion order.
    - [datetime.date.today()] is an explicit parameter.
    - [strptime] follows the regular expression that CPython's [_strptime]
      module builds for ['%Y-%m-%dT%H:%M:%S'] and the checks of the [date]
      and [datetime] constructors; [strftime('%a')] is that of the C locale.
    - [str.lower] is modelled on the ASCII letters, which is all that a
      comparison with an ASCII word needs.
    - A line that [csv.DictReader] yields is a record with a value for
      each of its fields.
    - The loop [while 'FMT' in args.format] runs on fuel; it is shown to
      end within the length of the list.
    - The standard output is the list of what [print] was given, the
      error stream the list of the texts written to it. *)

From Stdlib Require Import List Ascii String ZArith QArith Qpower Qfield.
From Stdlib Require Import Qabs Qreduction.
From Stdlib Require Import Lia Bool Arith.
From Stdlib Require Import Permutation Sorted.
Import ListNotations.

Open Scope string_scope.
Open Scope list_scope.
Open Scope Z_scope.

Abbreviation text := (list ascii).

Coercion list_ascii_of_string : string >-> list.

(** ** Exceptions and results *)

Inductive exn : Type :=
| ValueError
| OverflowError
| TypeError
| AttributeError
| AssertionError
| IndexError
| KeyError (key : text)
| Exception (msg : text).

Inductive result (A : Type) : Type :=
| Ok (a : A)
| Raise (e : exn).

Arguments Ok {A} a.
Arguments Raise {A} e.

Definition bind {A B : Type} (m : result A) (k : A -> result B) : result B :=
  match m with
  | Ok a => k a
  | Raise e => Raise e
  end.

Notation "x <- m ;; k" := (bind m (fun x => k))
  (at level 61, m at next level, right associativity).

(** ** The part of the Python runtime the program uses *)

Module Py.

(** *** Characters and strings *)

Definition code (c : ascii) : Z := Z.of_N (N_of_ascii c).

Definition char_eqb (a b : ascii) : bool := Ascii.eqb a b.

Fixpoint text_eqb (a b : text) : bool :=
  match a, b with
  | [], [] => true
  | x :: a', y :: b' => char_eqb x y && text_eqb a' b'
  | _, _ => false
  end.

(** [a < b] on strings: lexicographic on code points. *)
Fixpoint text_ltb (a b : text) : bool :=
  match a, b with
  | [], [] => false
  | [], _ :: _ => true
  | _ :: _, [] => false
  | x :: a', y :: b' =>
      if code x <? code y then true
      else if code y <? code x then false
      else text_ltb a' b'
  end.

Definition mem_char (c : ascii) (chars : text) : bool :=
  existsb (char_eqb c) chars.

(** [str.isspace] on one character of the Latin-1 range. *)
Definition isspace (c : ascii) : bool :=
  let n := code c in
  ((9 <=? n) && (n <=? 13)) || ((28 <=? n) && (n <=? 32))
  || (n =? 133) || (n =? 160).

(** The white space skipped by [int()] and [float()]: the C white space,
    after the non-ASCII spaces have been turned into blanks. *)
Definition isspace_num (c : ascii) : bool :=
  let n := code c in
  ((9 <=? n) && (n <=? 13)) || (n =? 32) || (n =? 133) || (n =? 160).

Definition isdigit (c : ascii) : bool :=
  let n := code c in (48 <=? n) && (n <=? 57).

Fixpoint lstrip_by (p : ascii -> bool) (s : text) : text :=
  match s with
  | [] => []
  | c :: s' => if p c then lstrip_by p s' else s
  end.

Definition rstrip_by (p : ascii -> bool) (s : text) : text :=
  rev (lstrip_by p (rev s)).

Definition strip_by (p : ascii -> bool) (s : text) : text :=
  rstrip_by p (lstrip_by p s).

(** [x.strip()] *)
Definition strip (s : text) : text := strip_by isspace s.

(** [x.strip(chars)] *)
Definition strip_chars (chars s : text) : text :=
  strip_by (fun c => mem_char c chars) s.

Fixpoint startswith (s pre : text) {struct pre} : bool :=
  match pre, s with
  | [], _ => true
  | p :: pre', c :: s' => char_eqb c p && startswith s' pre'
  | _ :: _, [] => false
  end.

(** [x.endswith(suf)] *)
Definition endswith (s suf : text) : bool := startswith (rev s) (rev suf).

(** [pat in s], for a non-empty [pat]. *)
Fixpoint contains (s pat : text) : bool :=
  startswith s pat ||
  match s with
  | [] => false
  | _ :: s' => contains s' pat
  end.

(** [s.replace(pat, rep)] for a non-empty [pat]; also [re.sub(pat, rep, s)]
    when [pat] is a literal.  [skip] counts the characters of a match still
    to be dropped. *)
Fixpoint replace_from (skip : nat) (pat rep s : text) : text :=
  match s with
  | [] => []
  | c :: s' =>
      match skip with
      | S k => replace_from k pat rep s'
      | O =>
          if startswith s pat
          then rep ++ replace_from (Nat.pred (List.length pat)) pat rep s'
          else c :: replace_from O pat rep s'
      end
  end.

Definition replace (s pat rep : text) : text := replace_from O pat rep s.

(** [sep.join(parts)] *)
Fixpoint join (sep : text) (parts : list text) : text :=
  match parts with
  | [] => []
  | [p] => p
  | p :: ps => p ++ sep ++ join sep ps
  end.

(** [s.split(sep)] for a one-character separator. *)
Fixpoint split (sep : ascii) (s : text) : list text :=
  match s with
  | [] => [[]]
  | c :: s' =>
      if char_eqb c sep then [] :: split sep s'
      else match split sep s' with
           | [] => [[c]]
           | p :: ps => (c :: p) :: ps
           end
  end.

(** *** Decimal numerals *)

Definition digit_val (c : ascii) : Z := code c - 48.

(** The value of a run of decimal digits, most significant first. *)
Definition digits_val (ds : text) : Z :=
  fold_left (fun acc c => 10 * acc + digit_val c) ds 0.

(** Underscores of a numeric literal: each must stand between two digits;
    they are then dropped.  [prev] is the character before [s]. *)
Fixpoint drop_underscores (prev : option ascii) (s : text) : option text :=
  match s with
  | [] => Some []
  | c :: s' =>
      if char_eqb c "_"%char then
        match prev, s' with
        | Some p, n :: _ =>
            if isdigit p && isdigit n then drop_underscores (Some c) s'
            else None
        | _, _ => None
        end
      else option_map (cons c) (drop_underscores (Some c) s')
  end.

(** An optional sign: [(negative, rest)]. *)
Definition read_sign (s : text) : bool * text :=
  match s with
  | c :: s' =>
      if char_eqb c "-"%char then (true, s')
      else if char_eqb c "+"%char then (false, s')
      else (false, s)
  | [] => (false, [])
  end.

(** The longest prefix of digits, and what follows it. *)
Fixpoint span_digits (s : text) : text * text :=
  match s with
  | c :: s' =>
      if isdigit c then let (ds, r) := span_digits s' in (c :: ds, r)
      else ([], s)
  | [] => ([], [])
  end.

(** [int(s)] in base ten. *)
Definition int (s : text) : result Z :=
  match drop_underscores None (strip_by isspace_num s) with
  | None => Raise ValueError
  | Some s1 =>
      let (neg, s2) := read_sign s1 in
      match span_digits s2 with
      | ((_ :: _) as ds, []) =>
          Ok (if neg then - digits_val ds else digits_val ds)
      | _ => Raise ValueError
      end
  end.

(** [str(z)] for an integer. *)
Fixpoint pos_digits (fuel : nat) (n : Z) (acc : text) : text :=
  match fuel with
  | O => acc
  | S fuel' =>
      let acc' := ascii_of_N (Z.to_N (48 + n mod 10)) :: acc in
      if n <? 10 then acc' else pos_digits fuel' (n / 10) acc'
  end.

Definition str_of_int (z : Z) : text :=
  let n := Z.abs z in
  let ds := pos_digits (S (Z.to_nat (Z.log2 n))) n [] in
  if z <? 0 then "-"%char :: ds else ds.

(** *** Floats *)

(** The integer nearest to [n / d] for [0 < d], a tie going to the even one. *)
Definition round_div (n d : Z) : Z :=
  let f := n / d in
  let r := n mod d in
  if 2 * r <? d then f
  else if d <? 2 * r then f + 1
  else if Z.even f then f else f + 1.

(** A binary64 number: a finite one is the rational it stands for. *)
Inductive float : Type :=
| Fin (q : Q)
| Inf (neg : bool)
| NaN.

Definition pow2 (k : Z) : Q := Qpower 2 k.

(** [floor(log2(q))] for a positive rational: the logarithms of the
    numerator and of the denominator give it up to one. *)
Definition ilog2 (q : Q) : Z :=
  let k := Z.log2 (Qnum q) - Z.log2 (Zpos (Qden q)) in
  if Qle_bool (pow2 k) q then k else k - 1.

(** The binary64 number nearest to a rational: a significand of 53 bits,
    the exponent of the last bit from -1074 on, a tie going to the even
    significand, and infinity when the rounded value reaches 2^1024. *)
Definition binary64 (q : Q) : float :=
  if Qeq_bool q 0 then Fin 0
  else
    let a := Qabs q in
    let e := Z.max (ilog2 a - 52) (-1074) in
    let x := (a / pow2 e)%Q in
    let m := round_div (Qnum x) (Zpos (Qden x)) in
    let r := (inject_Z m * pow2 e)%Q in
    let neg := negb (Qle_bool 0 q) in
    if Qle_bool (pow2 1024) r then Inf neg
    else Fin (Qred (if neg then - r else r)).

Definition lower (c : ascii) : ascii :=
  let n := code c in
  if (65 <=? n) && (n <=? 90) then ascii_of_N (Z.to_N (n + 32)) else c.

(** The optional exponent of a float literal: [None] when malformed. *)
Definition read_exponent (s : text) : option Z :=
  match s with
  | [] => Some 0
  | c :: s' =>
      if char_eqb (lower c) "e"%char then
        let (neg, s2) := read_sign s' in
        match span_digits s2 with
        | ((_ :: _) as ds, []) =>
            Some (if neg then - digits_val ds else digits_val ds)
        | _ => None
        end
      else None
  end.

(** [float(s)]: the decimal literal, correctly rounded. *)
Definition float_of (s : text) : result float :=
  match drop_underscores None s with
  | None => Raise ValueError
  | Some s0 =>
      let (neg, s1) := read_sign (strip_by isspace_num s0) in
      let word := map lower s1 in
      if text_eqb word "inf" || text_eqb word "infinity" then Ok (Inf neg)
      else if text_eqb word "nan" then Ok NaN
      else
        let (ip, r1) := span_digits s1 in
        let (fp, r2) :=
          match r1 with
          | c :: r1' => if char_eqb c "."%char then span_digits r1' else ([], r1)
          | [] => ([], [])
          end in
        match ip ++ fp, read_exponent r2 with
        | _ :: _, Some e =>
            let m := digits_val (ip ++ fp) in
            let q := (inject_Z m * Qpower (10 # 1) (e - Z.of_nat (List.length fp)))%Q in
            Ok (binary64 (if neg then - q else q)%Q)
        | _, _ => Raise ValueError
        end
  end.

(** [f * k] and [f / k] for a positive integer [k] that a float holds
    exactly (the program's are powers of two): the integer is converted,
    the exact product or quotient is rounded. *)
Definition fmul (f : float) (k : Z) : float :=
  match f with
  | Fin q => binary64 (q * inject_Z k)%Q
  | _ => f
  end.

Definition fdiv (f : float) (k : Z) : float :=
  match f with
  | Fin q => binary64 (q / inject_Z k)%Q
  | _ => f
  end.

(** [round(f)] *)
Definition round (f : float) : result Z :=
  match f with
  | Fin q => Ok (round_div (Qnum q) (Zpos (Qden q)))
  | Inf _ => Raise OverflowError
  | NaN => Raise ValueError
  end.

End Py.

(** ** Values and records *)

(** A field of a record holds a string or, after [normalizeMem], an integer. *)
Inductive value : Type :=
| Str (s : text)
| Int (z : Z).

(** [str(v)] *)
Definition str (v : value) : text :=
  match v with
  | Str s => s
  | Int z => Py.str_of_int z
  end.

(** ** [normalizeMem] *)

Definition normalizeMem (x : text) : result value :=
  if Py.text_eqb (Py.strip x) "" then Ok (Str "")
  else
    let x := Py.strip_chars "c" (Py.strip_chars "n" x) in
    mem <- (if Py.endswith x "K" then
              f <- Py.float_of (Py.strip_chars "K" x);; Ok (Py.fmul f (2 ^ 10))
            else if Py.endswith x "M" then
              f <- Py.float_of (Py.strip_chars "M" x);; Ok (Py.fmul f (2 ^ 20))
            else if Py.endswith x "G" then
              f <- Py.float_of (Py.strip_chars "G" x);; Ok (Py.fmul f (2 ^ 30))
            else Py.float_of x);;
    z <- Py.round (Py.fdiv mem (2 ^ 20));;
    Ok (Int z).

(** ** Records *)

Definition record : Type := list (text * value).

Definition value_eqb (a b : value) : bool :=
  match a, b with
  | Str x, Str y => Py.text_eqb x y
  | Int x, Int y => x =? y
  | _, _ => false
  end.

Fixpoint lookup (k : text) (r : record) : option value :=
  match r with
  | [] => None
  | (k', v) :: r' => if Py.text_eqb k' k then Some v else lookup k r'
  end.

(** [k in r] *)
Definition has_key (k : text) (r : record) : bool :=
  match lookup k r with
  | Some _ => true
  | None => false
  end.

(** [r[k]] *)
Definition getitem (r : record) (k : text) : result value :=
  match lookup k r with
  | Some v => Ok v
  | None => Raise (KeyError k)
  end.

(** [r[k] = v]: an existing key keeps its position, a new one goes last. *)
Fixpoint setitem (r : record) (k : text) (v : value) : record :=
  match r with
  | [] => [(k, v)]
  | (k', v') :: r' =>
      if Py.text_eqb k' k then (k', v) :: r' else (k', v') :: setitem r' k v
  end.

(** [list(r.values())] *)
Definition values (r : record) : list value := map snd r.

Definition newline : text := ["010"%char].

(** [re.sub(pat + '$', '', s)] for a literal [pat] without a line feed:
    [$] matches at the end of [s] and before a line feed that ends [s]. *)
Definition sub_at_end (pat s : text) : text :=
  if Py.endswith s pat then
    firstn (List.length s - List.length pat) s
  else if Py.endswith s (pat ++ newline) then
    firstn (List.length s - List.length pat - 1) s ++ newline
  else s.

(** ** The merger *)

Definition fillInJob (jobid batchid : record) : result record :=
  if has_key "MaxRSS" jobid then
    v <- getitem batchid "MaxRSS";;
    Ok (setitem jobid "MaxRSS" v)
  else Ok jobid.

(** The two variables of the merge loop. *)
Record merge_state : Type := MergeState {
  idjob : option record;
  sacct_mrg : list record
}.

(** What [sacct_mrg.append(idjob)] leaves when guarded by
    [idjob is not None]. *)
Definition flush (st : merge_state) : list record :=
  match idjob st with
  | Some j => sacct_mrg st ++ [j]
  | None => sacct_mrg st
  end.

(** The test of the [fromId] filter:
    [args.fromId is not None and args.fromId >= int(...)]. *)
Definition below_fromId (fromId : option Z) (line : record) : result bool :=
  match fromId with
  | None => Ok false
  | Some n =>
      v <- getitem line "JobID";;
      match v with
      | Str s => i <- Py.int (Py.replace s ".batch" "");; Ok (i <=? n)
      | Int _ => Raise AttributeError
      end
  end.

(** One iteration of the merge loop.  The first component is what the
    iteration prints on the standard output: the records handed to [print]. *)
Definition merge_line (fromId : option Z) (st : merge_state) (line : record)
  : list record * result merge_state :=
  match below_fromId fromId line with
  | Raise e => ([], Raise e)
  | Ok true => ([], Ok st)
  | Ok false =>
      match getitem line "JobID" with
      | Raise e => ([], Raise e)
      | Ok (Int _) => ([], Raise TypeError)
      | Ok (Str id) =>
          if negb (Py.contains id ".batch") then
            ([], Ok (MergeState (Some line) (flush st)))
          else
            match idjob st with
            | None => ([], Raise TypeError)
            | Some job =>
                match getitem job "JobID" with
                | Raise e => ([], Raise e)
                | Ok jid =>
                    if value_eqb jid (Str (Py.replace id ".batch" "")) then
                      match fillInJob job line with
                      | Raise e => ([], Raise e)
                      | Ok filled =>
                          ([], Ok (MergeState None (sacct_mrg st ++ [filled])))
                      end
                    else
                      ([job; line], Raise (Exception "Cannot find job id"))
                end
            end
      end
  end.

Fixpoint merge_loop (fromId : option Z) (st : merge_state)
  (lines : list record) : list record * result merge_state :=
  match lines with
  | [] => ([], Ok st)
  | line :: rest =>
      match merge_line fromId st line with
      | (out, Ok st') =>
          let (out', r) := merge_loop fromId st' rest in (out ++ out', r)
      | (out, Raise e) => (out, Raise e)
      end
  end.

(** The whole merge: what was printed, and [sacct_mrg] or the exception. *)
Definition merge (fromId : option Z) (sacct_out : list record)
  : list record * result (list record) :=
  match merge_loop fromId (MergeState None []) sacct_out with
  | (out, Ok st) => (out, Ok (flush st))
  | (out, Raise e) => (out, Raise e)
  end.

(** ** The sorter *)

(** [a < b] on two values of one type. *)
Definition value_ltb (a b : value) : bool :=
  match a, b with
  | Str x, Str y => Py.text_ltb x y
  | Int x, Int y => x <? y
  | _, _ => false
  end.

Definition is_str (v : value) : bool :=
  match v with Str _ => true | Int _ => false end.

(** Whether [<] is defined between all the keys: a string and an integer
    do not compare. *)
Definition comparable (keys : list value) : bool :=
  forallb is_str keys || forallb (fun v => negb (is_str v)) keys.

Section StableSort.

Context {K A : Type}.
Variable ltb : K -> K -> bool.

(** [x] stood before every element of [l]: it goes before the first
    element that is not smaller than it. *)
Fixpoint insert (x : K * A) (l : list (K * A)) : list (K * A) :=
  match l with
  | [] => [x]
  | y :: l' => if ltb (fst y) (fst x) then y :: insert x l' else x :: l
  end.

Definition stable_sort (l : list (K * A)) : list (K * A) :=
  fold_right insert [] l.

(** A descending sort is the ascending sort of the reversed list, reversed. *)
Definition stable_sort_dir (reverse : bool) (l : list (K * A)) : list (K * A) :=
  if reverse then rev (stable_sort (rev l)) else stable_sort l.

End StableSort.

Fixpoint mapM {A B : Type} (f : A -> result B) (l : list A) : result (list B) :=
  match l with
  | [] => Ok []
  | x :: l' => y <- f x;; ys <- mapM f l';; Ok (y :: ys)
  end.

(** [sorted(recs, key=lambda k: k[s], reverse=rev)]: the keys are all
    computed first, then compared. *)
Definition sorted (recs : list record) (s : text) (reverse : bool)
  : result (list record) :=
  keys <- mapM (fun k => getitem k s) recs;;
  if comparable keys then
    Ok (map snd (stable_sort_dir value_ltb reverse (combine keys recs)))
  else Raise TypeError.

(** The records and what was written to the error stream. *)
Definition sort_state : Type := (list record * list text)%type.

Definition sort_warning (s : text) : text :=
  newline ++ "Sort key " ++ s ++ " not found" ++ newline ++ newline.

(** The direction and the column a sort key names. *)
Definition sort_key (s : text) : bool * text :=
  if Py.endswith s "-" then (true, sub_at_end "-" s) else (false, s).

(** The body of [for s in args.sort]. *)
Definition sort_step (st : sort_state) (s : text) : result sort_state :=
  let (reverse, s) := sort_key s in
  match sorted (fst st) s reverse with
  | Ok l => Ok (l, snd st)
  | Raise (KeyError _) => Ok (fst st, snd st ++ [sort_warning s])
  | Raise e => Raise e
  end.

Fixpoint sort_loop (st : sort_state) (keys : list text) : result sort_state :=
  match keys with
  | [] => Ok st
  | s :: keys' => st' <- sort_step st s;; sort_loop st' keys'
  end.

(** [args.sort.reverse()] and the loop. *)
Definition sorter (sort : list text) (recs : list record) : result sort_state :=
  sort_loop (recs, []) (rev sort).

(** ** Timestamps *)

(** [re.sub] with an empty replacement, for a pattern given by the length
    of its match at the head of a string ([None]: no match there). *)
Fixpoint sub_delete_from (skip : nat) (match_len : text -> option nat)
  (s : text) : text :=
  match s with
  | [] => []
  | c :: s' =>
      match skip with
      | S k => sub_delete_from k match_len s'
      | O =>
          match match_len s with
          | Some n => sub_delete_from (Nat.pred n) match_len s'
          | None => c :: sub_delete_from O match_len s'
          end
      end
  end.

Definition sub_delete (match_len : text -> option nat) (s : text) : text :=
  sub_delete_from O match_len s.

Module Strptime.

(** The regular expression that [strptime] builds from
    ['%Y-%m-%dT%H:%M:%S']: a sequence of literals, matched without regard
    to case, and of fields; a field is an ordered choice between
    fixed-length alternatives, each a sequence of character ranges. *)
Inductive item : Type :=
| Lit (c : ascii)
| Field (alts : list (list (ascii * ascii))).

Definition in_range (c : ascii) (r : ascii * ascii) : bool :=
  (Py.code (fst r) <=? Py.code c) && (Py.code c <=? Py.code (snd r)).

(** One alternative at the head of [s]: the text matched and the rest. *)
Fixpoint match_alt (alt : list (ascii * ascii)) (s : text) : option (text * text) :=
  match alt, s with
  | [], _ => Some ([], s)
  | r :: alt', c :: s' =>
      if in_range c r then
        match match_alt alt' s' with
        | Some (m, rest) => Some (c :: m, rest)
        | None => None
        end
      else None
  | _ :: _, [] => None
  end.

Section FirstSome.
Context {A B : Type}.
Variable f : A -> option B.
Fixpoint first_some (l : list A) : option B :=
  match l with
  | [] => None
  | x :: l' => match f x with Some y => Some y | None => first_some l' end
  end.
End FirstSome.

(** A backtracking match of the items at the head of [s]: the captured
    fields and what is left of [s]. *)
Fixpoint match_items (items : list item) (s : text) : option (list text * text) :=
  match items with
  | [] => Some ([], s)
  | Lit l :: items' =>
      match s with
      | c :: s' =>
          if Py.char_eqb (Py.lower c) (Py.lower l) then match_items items' s'
          else None
      | [] => None
      end
  | Field alts :: items' =>
      first_some
        (fun alt =>
           match match_alt alt s with
           | Some (m, s') =>
               match match_items items' s' with
               | Some (caps, rest) => Some (m :: caps, rest)
               | None => None
               end
           | None => None
           end)
        alts
  end.

Definition d09 : ascii * ascii := ("0"%char, "9"%char).
Definition one (c : ascii) : ascii * ascii := (c, c).
Definition rng (a b : ascii) : ascii * ascii := (a, b).

Definition fmt_Y : item := Field [[d09; d09; d09; d09]].
Definition fmt_m : item :=
  Field [[one "1"; rng "0" "2"]; [one "0"; rng "1" "9"]; [rng "1" "9"]].
Definition fmt_d : item :=
  Field [[one "3"; rng "0" "1"]; [rng "1" "2"; d09]; [one "0"; rng "1" "9"];
         [rng "1" "9"]; [one " "; rng "1" "9"]].
Definition fmt_H : item :=
  Field [[one "2"; rng "0" "3"]; [rng "0" "1"; d09]; [d09]].
Definition fmt_M : item := Field [[rng "0" "5"; d09]; [d09]].
Definition fmt_S : item :=
  Field [[one "6"; rng "0" "1"]; [rng "0" "5"; d09]; [d09]].

Definition format : list item :=
  [fmt_Y; Lit "-"; fmt_m; Lit "-"; fmt_d; Lit "T";
   fmt_H; Lit ":"; fmt_M; Lit ":"; fmt_S].

Record datetime : Type := DateTime {
  year : Z; month : Z; day : Z;
  hour : Z; minute : Z; second : Z
}.

Definition is_leap (y : Z) : bool :=
  (y mod 4 =? 0) && (negb (y mod 100 =? 0) || (y mod 400 =? 0)).

Definition days_in_month (y m : Z) : Z :=
  if m =? 2 then (if is_leap y then 29 else 28)
  else if (m =? 4) || (m =? 6) || (m =? 9) || (m =? 11) then 30
  else 31.

(** The checks of the [date] and [datetime] constructors. *)
Definition valid (d : datetime) : bool :=
  (1 <=? year d) && (year d <=? 9999)
  && (1 <=? month d) && (month d <=? 12)
  && (1 <=? day d) && (day d <=? days_in_month (year d) (month d))
  && (0 <=? hour d) && (hour d <=? 23)
  && (0 <=? minute d) && (minute d <=? 59)
  && (0 <=? second d) && (second d <=? 59).

Definition field_val (cap : text) : Z :=
  match Py.int cap with
  | Ok z => z
  | Raise _ => 0
  end.

(** [datetime.datetime.strptime(s, '%Y-%m-%dT%H:%M:%S')]; [None] stands
    for the [ValueError] it raises. *)
Definition strptime (s : text) : option datetime :=
  match match_items format s with
  | Some ([cY; cm; cd; cH; cM; cS], []) =>
      let d := DateTime (field_val cY) (field_val cm) (field_val cd)
                        (field_val cH) (field_val cM) (field_val cS) in
      if valid d then Some d else None
  | _ => None
  end.

(** [date.toordinal()]: day 1 is 0001-01-01. *)
Definition days_before_year (y : Z) : Z :=
  let y1 := y - 1 in y1 * 365 + y1 / 4 - y1 / 100 + y1 / 400.

Fixpoint days_before_month (y : Z) (m : nat) : Z :=
  match m with
  | O => 0
  | S m' => days_before_month y m' + days_in_month y (Z.of_nat m)
  end.

Definition toordinal (d : datetime) : Z :=
  days_before_year (year d)
  + days_before_month (year d) (Z.to_nat (month d - 1)) + day d.

(** [date.weekday()]: Monday is 0. *)
Definition weekday (d : datetime) : Z := (toordinal d + 6) mod 7.

(** [strftime('%a')] in the C locale. *)
Definition weekday_name (d : datetime) : text :=
  nth (Z.to_nat (weekday d))
      ["Mon" : text; "Tue" : text; "Wed" : text; "Thu" : text;
       "Fri" : text; "Sat" : text; "Sun" : text] [].

End Strptime.

(** The date of the run, [datetime.date.today()]. *)
Record date : Type := Date { today_year : Z; today_month : Z; today_day : Z }.

(** [re.sub('.*T', '', s)]: in every line that holds a [T], all up to the
    last one goes. *)
Fixpoint after_last_T (line : text) : option text :=
  match line with
  | [] => None
  | c :: line' =>
      match after_last_T line' with
      | Some r => Some r
      | None => if Py.char_eqb c "T"%char then Some line' else None
      end
  end.

Definition sub_upto_T (s : text) : text :=
  Py.join newline
    (map (fun l => match after_last_T l with Some r => r | None => l end)
         (Py.split "010"%char s)).

(** [re.sub('\d\d\d\d-\d\d-', '', s)] *)
Definition year_month_len (s : text) : option nat :=
  match s with
  | a :: b :: c :: d :: h1 :: e :: f :: h2 :: _ =>
      if Py.isdigit a && Py.isdigit b && Py.isdigit c && Py.isdigit d
         && Py.char_eqb h1 "-"%char && Py.isdigit e && Py.isdigit f
         && Py.char_eqb h2 "-"%char
      then Some 8%nat else None
  | _ => None
  end.

Definition sub_year_month (s : text) : text := sub_delete year_month_len s.

(** ** [simplify_datetime] *)

(** The first loop: the parsed date of each value, [None] when it does not
    parse ([is_date] false). *)
Definition scan_date (datetime_column : text) (x : record)
  : result (option Strptime.datetime) :=
  v <- getitem x datetime_column;;
  match v with
  | Str s => Ok (Strptime.strptime s)
  | Int _ => Ok None
  end.

(** The second loop, for one of the three flags. *)
Definition all_same (proj : Strptime.datetime -> Z) (today : Z)
  (dt : list (option Strptime.datetime)) : bool :=
  forallb (fun x => match x with
                    | Some d => proj d =? today
                    | None => true
                    end) dt.

(** The third loop, on one line. *)
Definition simplify_line (same_year same_month same_day : bool)
  (datetime_column : text) (line : record) (xdt : option Strptime.datetime)
  : result record :=
  v <- getitem line datetime_column;;
  match v with
  | Int _ => Raise TypeError
  | Str s =>
      match xdt with
      | Some d =>
          if same_year && same_month && same_day then
            Ok (setitem line datetime_column (Str (sub_upto_T s)))
          else if same_year && same_month then
            let weekday_name := Strptime.weekday_name d in
            let s1 := sub_year_month s in
            Ok (setitem line datetime_column
                  (Str (weekday_name ++ " " ++ Py.replace s1 "T" " ")))
          else
            Ok (setitem line datetime_column (Str (Py.replace s "T" " ")))
      | None =>
          Ok (setitem line datetime_column (Str (Py.replace s "Unknown" "")))
      end
  end.

Fixpoint simplify_lines (sy sm sd : bool) (datetime_column : text)
  (data : list record) (dt : list (option Strptime.datetime))
  : result (list record) :=
  match data, dt with
  | line :: data', x :: dt' =>
      l <- simplify_line sy sm sd datetime_column line x;;
      ls <- simplify_lines sy sm sd datetime_column data' dt';;
      Ok (l :: ls)
  | _, _ => Ok []
  end.

Definition simplify_datetime (today : date) (data : list record)
  (datetime_column : text) : result (list record) :=
  dt <- mapM (scan_date datetime_column) data;;
  let same_year := all_same Strptime.year (today_year today) dt in
  let same_month := all_same Strptime.month (today_month today) dt in
  let same_day := all_same Strptime.day (today_day today) dt in
  simplify_lines same_year same_month same_day datetime_column data dt.

(** ** [get_state_time] *)

(** [max(dt)] on a non-empty list of strings. *)
Definition max_text (first : text) (rest : list text) : text :=
  fold_left (fun m x => if Py.text_ltb m x then x else m) rest first.

Definition parses (x : text) : bool :=
  match Strptime.strptime x with
  | Some _ => true
  | None => false
  end.

Definition get_state_time (timepoints : list text) : text :=
  match filter parses timepoints with
  | [] => ""
  | x :: dt => max_text x dt
  end.

(** ** The presenter *)

Definition esc : ascii := "027"%char.

Definition colorize_one (x : value) : value :=
  if value_eqb x (Str "FAILED") then
    Str (esc :: "[31mFAILED" ++ esc :: "[0m")
  else if value_eqb x (Str "COMPLETED") then
    Str (esc :: "[32mCOMPLETED" ++ esc :: "[0m")
  else if value_eqb x (Str "RUNNING") then
    Str (esc :: "[94mRUNNING" ++ esc :: "[0m")
  else x.

Definition colorize (lst : list value) : list value := map colorize_one lst.

(** The length of a match of ['\033\[[;\d]*m'] at the head of a string. *)
Fixpoint params_len (s : text) : nat * text :=
  match s with
  | c :: s' =>
      if Py.char_eqb c ";"%char || Py.isdigit c
      then let (n, r) := params_len s' in (S n, r)
      else (O, s)
  | [] => (O, [])
  end.

Definition ansi_len (s : text) : option nat :=
  match s with
  | e :: b :: r =>
      if Py.char_eqb e esc && Py.char_eqb b "["%char then
        match params_len r with
        | (n, m :: _) => if Py.char_eqb m "m"%char then Some (3 + n)%nat else None
        | (_, []) => None
        end
      else None
  | _ => None
  end.

(** [re.sub('\033\[[;\d]*m', '', s)] *)
Definition strip_ansi (s : text) : text := sub_delete ansi_len s.

(** The header as the record [hdr] of [getColumnWidths]. *)
Definition header_record (header : list text) : record :=
  fold_left (fun hdr x => setitem hdr x (Str x)) header [].

(** The printable text of a cell whose column is named [h]. *)
Definition printable (h : text) (v : value) : text :=
  let v := strip_ansi (str v) in
  if Py.text_eqb (map Py.lower h) "jobid" then sub_at_end ".batch" v else v.

(** The loop over the cells of one line: [header[i]], [values[i]] and
    [widths[i]] advance together. *)
Fixpoint measure_line (header : list text) (values : list value)
  (widths : list nat) : result (list nat) :=
  match values, widths with
  | v :: values', w :: widths' =>
      match header with
      | [] => Raise IndexError
      | h :: header' =>
          ws <- measure_line header' values' widths';;
          let n := List.length (printable h v) in
          Ok ((if (w <? n)%nat then n else w) :: ws)
      end
  | _, _ => Ok widths
  end.

Fixpoint measure_lines (header : list text) (no_color : bool)
  (data : list record) (widths : list nat) : result (list nat) :=
  match data with
  | [] => Ok widths
  | line :: data' =>
      let widths :=
        if (List.length widths =? 0)%nat then repeat O (List.length line)
        else widths in
      if negb (List.length widths =? List.length line)%nat
      then Raise AssertionError
      else
        let values := values line in
        let values := if negb no_color then colorize values else values in
        ws <- measure_line header values widths;;
        measure_lines header no_color data' ws
  end.

Definition getColumnWidths (sacct_out : list record) (header : list text)
  (space : nat) (no_color : bool) : result (list nat) :=
  let data := header_record header :: sacct_out in
  widths <- measure_lines header no_color data [];;
  Ok (map (fun x => (x + space)%nat) widths).

Definition tab : text := ["009"%char].

(** ['{:<w}'.format(x)] *)
Definition ljust (w : nat) (x : value) : text :=
  let s := str x in s ++ repeat " "%char (w - List.length s).

(** The cells of an aligned row: [line[i]] for [i] in
    [range(len(col_widths))]. *)
Fixpoint pad_cells (line : list value) (col_widths : list nat) : result text :=
  match col_widths with
  | [] => Ok []
  | w :: col_widths' =>
      match line with
      | [] => Raise IndexError
      | x :: line' =>
          let offset :=
            (List.length (str x) - List.length (strip_ansi (str x)))%nat in
          r <- pad_cells line' col_widths';;
          Ok (ljust (w + offset) x ++ r)
      end
  end.

Definition tabulate (line : list value) (col_widths : list nat)
  (asTsv no_color : bool) : result text :=
  if asTsv then Ok (Py.join tab (map str line))
  else
    let line := if negb no_color then colorize line else line in
    pad_cells line col_widths.

(** ** The columns asked for *)

Definition xdef : list text :=
  ["JobID" : text; "JobName%50" : text; "NodeList" : text; "MaxRSS" : text;
   "ReqMem" : text; "AllocCPUS" : text; "State" : text; "StateSince" : text;
   "Elapsed" : text].

(** [x in l] *)
Definition elem (x : text) (l : list text) : bool :=
  existsb (fun y => Py.text_eqb y x) l.

(** [l.index(x)] *)
Fixpoint list_index (l : list text) (x : text) : result nat :=
  match l with
  | [] => Raise ValueError
  | y :: l' =>
      if Py.text_eqb y x then Ok O else i <- list_index l' x;; Ok (S i)
  end.

(** [l.remove(x)] *)
Fixpoint list_remove (l : list text) (x : text) : result (list text) :=
  match l with
  | [] => Raise ValueError
  | y :: l' =>
      if Py.text_eqb y x then Ok l' else r <- list_remove l' x;; Ok (y :: r)
  end.

(** [while x in l: l.remove(x)], with [fuel] turns of the loop at most:
    [None] when they do not suffice. *)
Fixpoint remove_while (fuel : nat) (l : list text) (x : text)
  : option (result (list text)) :=
  if elem x l then
    match fuel with
    | O => None
    | S fuel' =>
        match list_remove l x with
        | Ok l' => remove_while fuel' l' x
        | Raise e => Some (Raise e)
        end
    end
  else Some (Ok l).

(** [x.lower()] *)
Definition lower (x : text) : text := map Py.lower x.

(** [re.sub('%.*', '', x)]: from a percent sign all goes up to the end of
    the line. *)
Fixpoint sub_percent_from (dropping : bool) (x : text) : text :=
  match x with
  | [] => []
  | c :: x' =>
      if Py.char_eqb c "010"%char then c :: sub_percent_from false x'
      else if dropping then sub_percent_from true x'
      else if Py.char_eqb c "%"%char then sub_percent_from true x'
      else c :: sub_percent_from false x'
  end.

Definition sub_percent (x : text) : text := sub_percent_from false x.

(** [args.format] after the marker [FMT] has been replaced and [JobID]
    added. *)
Definition expand_format (fuel : nat) (format : list text)
  : option (result (list text)) :=
  let sacctfmt := format in
  match (if elem "FMT" format then
           i <- list_index sacctfmt "FMT";;
           Ok (firstn i format ++ xdef ++ skipn (i + 1) sacctfmt)
         else Ok format) with
  | Raise e => Some (Raise e)
  | Ok format =>
      match remove_while fuel format "FMT" with
      | None => None
      | Some (Raise e) => Some (Raise e)
      | Some (Ok format) =>
          Some (Ok (if negb (elem "jobid" (map lower format))
                    then format ++ ["JobID" : text] else format))
      end
  end.

Definition printablefmt_of (format : list text) : list text :=
  map sub_percent format.

(** The fields asked of [sacct]. *)
Definition sacct_fields (format : list text) : result (list text) :=
  let sacctfmt := format in
  if elem "statesince" (map lower sacctfmt) then
    sacctfmt <- list_remove sacctfmt "StateSince";;
    let sacctfmt :=
      if negb (elem "start" (map lower sacctfmt))
      then sacctfmt ++ ["Start" : text] else sacctfmt in
    let sacctfmt :=
      if negb (elem "end" (map lower sacctfmt))
      then sacctfmt ++ ["End" : text] else sacctfmt in
    let sacctfmt :=
      if negb (elem "Submit" (map lower sacctfmt))
      then sacctfmt ++ ["Submit" : text] else sacctfmt in
    Ok sacctfmt
  else Ok sacctfmt.

(** ** The reader *)

(** [if col in line: line[col]= normalizeMem(line[col])] *)
Definition normalize_column (col : text) (line : record) : result record :=
  if has_key col line then
    v <- getitem line col;;
    m <- match v with
         | Str x => normalizeMem x
         | Int _ => Raise AttributeError
         end;;
    Ok (setitem line col m)
  else Ok line.

(** The strings among some values: [get_state_time] passes over whatever
    [strptime] does not take, an integer as well. *)
Definition strings (l : list value) : list text :=
  flat_map (fun v => match v with Str s => [s] | Int _ => [] end) l.

(** ['.' if str(v).strip() == '' else v] *)
Definition placeholder (v : value) : value :=
  if Py.text_eqb (Py.strip (str v)) "" then Str "." else v.

(** [for key in printablefmt: outline[key]= ...] *)
Fixpoint outline_of (printablefmt : list text) (line outline : record)
  : result record :=
  match printablefmt with
  | [] => Ok outline
  | key :: rest =>
      v <- getitem line key;;
      outline_of rest line (setitem outline key (placeholder v))
  end.

(** The body of [for line in reader]. *)
Definition read_line (printablefmt : list text) (line : record)
  : result record :=
  line <- normalize_column "MaxRSS" line;;
  line <- normalize_column "ReqMem" line;;
  line <- (if elem "StateSince" printablefmt then
             submit <- getitem line "Submit";;
             start <- getitem line "Start";;
             end_ <- getitem line "End";;
             Ok (setitem line "StateSince"
                   (Str (get_state_time (strings [submit; start; end_]))))
           else Ok line);;
  outline_of printablefmt line [].

Definition reader (printablefmt : list text) (lines : list record)
  : result (list record) :=
  mapM (read_line printablefmt) lines.

(** ** The date columns of the table *)

(** [try: sacct_mrg= simplify_datetime(sacct_mrg, col)] with
    [except KeyError: pass].  The function raises [KeyError] in its first
    loop only, before it has changed a record. *)
Definition try_simplify (today : date) (sacct_mrg : list record)
  (col : text) : result (list record) :=
  match simplify_datetime today sacct_mrg col with
  | Raise (KeyError _) => Ok sacct_mrg
  | r => r
  end.

(** What the program does with the dates once the records are sorted: the
    records to print and the [no_color] it goes on with. *)
Definition simplify_dates (today : date) (tsv iso_date no_color : bool)
  (sacct_mrg : list record) : result (list record * bool) :=
  if tsv then Ok (sacct_mrg, true)
  else
    sacct_mrg <-
      (if negb iso_date then
         sacct_mrg <- try_simplify today sacct_mrg "StateSince";;
         sacct_mrg <- try_simplify today sacct_mrg "Submit";;
         sacct_mrg <- try_simplify today sacct_mrg "Start";;
         try_simplify today sacct_mrg "End"
       else Ok sacct_mrg);;
    Ok (sacct_mrg, no_color).

(** ** Printing the table *)

(** The loop that prints the rows: the lines printed, and whether it came
    to its end. *)
Fixpoint print_rows (col_widths : list nat) (tsv no_color : bool)
  (rows : list record) : list text * result unit :=
  match rows with
  | [] => ([], Ok tt)
  | line :: rest =>
      match tabulate (values line) col_widths tsv no_color with
      | Raise e => ([], Raise e)
      | Ok t =>
          let (ts, r) := print_rows col_widths tsv no_color rest in
          (t :: ts, r)
      end
  end.

(** The end of the program: the widths, the header line, the rows and the
    header line once more.  The first component is what has been printed
    when the program ends or stops on an exception. *)
Definition print_table (printablefmt : list text) (sacct_mrg : list record)
  (tsv no_color : bool) : list text * result unit :=
  match getColumnWidths sacct_mrg printablefmt 2 no_color with
  | Raise e => ([], Raise e)
  | Ok col_widths =>
      match tabulate (map Str printablefmt) col_widths tsv no_color with
      | Raise e => ([], Raise e)
      | Ok top =>
          match print_rows col_widths tsv no_color sacct_mrg with
          | (ts, Raise e) => (top :: ts, Raise e)
          | (ts, Ok _) =>
              match tabulate (map Str printablefmt) col_widths tsv no_color with
              | Raise e => (top :: ts, Raise e)
              | Ok bottom => (top :: ts ++ [bottom], Ok tt)
              end
          end
      end
  end.

(** ** The program *)

(** What the program prints: a record, as [print] shows a dictionary, or
    a line of text. *)
Inductive printed : Type :=
| Repr (r : record)
| Line (t : text).

(** The program from the lines that [csv.DictReader] yields to its end:
    what it has printed, and the exception that stopped it or, when it
    came to its end, what it wrote to the error stream. *)
Definition main (today : date) (fromId : option Z) (sort : list text)
  (tsv no_color iso_date : bool) (printablefmt : list text)
  (lines : list record) : list printed * result (list text) :=
  match reader printablefmt lines with
  | Raise e => ([], Raise e)
  | Ok sacct_out =>
      match merge fromId sacct_out with
      | (out, Raise e) => (map Repr out, Raise e)
      | (out, Ok sacct_mrg) =>
          match sorter sort sacct_mrg with
          | Raise e => (map Repr out, Raise e)
          | Ok (sacct_mrg, err) =>
              match simplify_dates today tsv iso_date no_color sacct_mrg with
              | Raise e => (map Repr out, Raise e)
              | Ok (sacct_mrg, no_color) =>
                  match print_table printablefmt sacct_mrg tsv no_color with
                  | (ts, Raise e) => (map Repr out ++ map Line ts, Raise e)
                  | (ts, Ok _) => (map Repr out ++ map Line ts, Ok err)
                  end
              end
          end
      end
  end.

(** ** Definitions used to state the properties *)

(** The unit suffixes of a memory string and the bytes each stands for. *)
Inductive mem_unit : Type := UnitNone | UnitK | UnitM | UnitG.

Definition unit_suffix (u : mem_unit) : text :=
  match u with
  | UnitNone => ""
  | UnitK => "K"
  | UnitM => "M"
  | UnitG => "G"
  end.

Definition unit_bytes (u : mem_unit) : Z :=
  match u with
  | UnitNone => 1
  | UnitK => 1024
  | UnitM => 1024 * 1024
  | UnitG => 1024 * 1024 * 1024
  end.

(** The marker that [ReqMem] appends: per node, per core, or none. *)
Inductive mem_marker : Type := MarkNone | MarkN | MarkC.

Definition marker_suffix (m : mem_marker) : text :=
  match m with
  | MarkNone => ""
  | MarkN => "n"
  | MarkC => "c"
  end.

(** A decimal numeral: integer digits and, when [fp] is not empty, a point
    and fraction digits. *)
Definition decimal (ip fp : text) : text :=
  match fp with
  | [] => ip
  | _ :: _ => ip ++ "."%char :: fp
  end.

Definition all_digits (s : text) : bool := forallb Py.isdigit s.

Definition mebibyte : Z := 1024 * 1024.

(** The identifier of a record, when it holds one as a string. *)
Definition jobid (r : record) : option text :=
  match lookup "JobID" r with
  | Some (Str id) => Some id
  | _ => None
  end.

(** Whether the identifier carries the batch marker. *)
Definition batch_marked (r : record) : bool :=
  match jobid r with
  | Some id => Py.contains id ".batch"
  | None => false
  end.

Definition unmarked (r : record) : bool := negb (batch_marked r).

(** The column names of a record, in order. *)
Definition columns (r : record) : list text := map fst r.

(** Every record has an identifier, and every batch-marked record comes
    right after an unmarked record whose identifier is its own without the
    marker.  [prev] is the record just before [recs] when that one is
    unmarked. *)
Fixpoint well_batched (prev : option record) (recs : list record) : bool :=
  match recs with
  | [] => true
  | r :: rest =>
      match jobid r with
      | None => false
      | Some id =>
          if Py.contains id ".batch" then
            match prev with
            | Some job =>
                match jobid job with
                | Some jid => Py.text_eqb jid (Py.replace id ".batch" "")
                | None => false
                end && well_batched None rest
            | None => false
            end
          else well_batched (Some r) rest
      end
  end.

(** [o] is [r] but for the value of [MaxRSS]. *)
Definition same_but_rss (o r : record) : Prop :=
  columns o = columns r
  /\ forall k : text, k <> "MaxRSS" -> lookup k o = lookup k r.

Definition option_list {A : Type} (o : option A) : list A :=
  match o with
  | Some a => [a]
  | None => []
  end.

(** The job record after it has taken the memory usage of [b]. *)
Definition absorb (job b : record) : record :=
  match fillInJob job b with
  | Ok r => r
  | Raise _ => job
  end.

(** What the merge appends to its output from a pending job and the
    records that follow. *)
Fixpoint merged_jobs (prev : option record) (recs : list record) : list record :=
  match recs with
  | [] => option_list prev
  | r :: rest =>
      if batch_marked r then
        match prev with
        | Some job => absorb job r :: merged_jobs None rest
        | None => merged_jobs None rest
        end
      else option_list prev ++ merged_jobs (Some r) rest
  end.

(** A record of three columns, for the examples. *)
Definition job_record (id name : text) (rss : value) : record :=
  [("JobID" : text, Str id); ("JobName" : text, Str name);
   ("MaxRSS" : text, rss)].

(** Whether the column [s] of [r] holds [v]. *)
Definition key_is (s : text) (v : value) (r : record) : bool :=
  match lookup s r with
  | Some k => value_eqb k v
  | None => false
  end.

(** [a] may stand before [b] in a list sorted on column [s]: ascending,
    [b] is not smaller than [a]; descending, [a] is not smaller than [b]. *)
Definition in_order (s : text) (reverse : bool) (a b : record) : Prop :=
  match lookup s a, lookup s b with
  | Some x, Some y =>
      (if reverse then value_ltb x y else value_ltb y x) = false
  | _, _ => False
  end.

(** Every record has the column [s], with a value that satisfies [p]. *)
Definition column_is (p : value -> bool) (s : text) (recs : list record) : bool :=
  forallb (fun r => match lookup s r with
                    | Some v => p v
                    | None => false
                    end) recs.

Definition is_int (v : value) : bool := negb (is_str v).

(** The column [s] can be sorted on: all strings or all integers. *)
Definition sortable (s : text) (recs : list record) : bool :=
  column_is is_str s recs || column_is is_int s recs.

(** Some record lacks the column [s]. *)
Definition column_missing (s : text) (recs : list record) : bool :=
  existsb (fun r => negb (has_key s r)) recs.

(** A sort on the string value of column [s], as the specification words
    it: the values are compared as the strings [str] gives. *)
Definition sorted_on_str (recs : list record) (s : text) (reverse : bool)
  : list record :=
  map snd
    (stable_sort_dir Py.text_ltb reverse
       (combine (map (fun r => match lookup s r with
                               | Some v => str v
                               | None => []
                               end) recs) recs)).

Definition id_record (id : text) : record := [("id" : text, Str id)].

(** The printable length of cell [i] of a line, in the column named [h]. *)
Definition cell (i : nat) (h : text) (line : list value) : nat :=
  match nth_error line i with
  | Some v => List.length (printable h v)
  | None => O
  end.

(** The text that a cell shows in the column named [h]: its text, without
    the batch marker at its end in the identifier column. *)
Definition shown (h : text) (v : value) : text :=
  if Py.text_eqb (map Py.lower h) "jobid" then sub_at_end ".batch" (str v)
  else str v.

(** The length of what cell [i] of a line shows. *)
Definition shown_length (i : nat) (h : text) (line : list value) : nat :=
  match nth_error line i with
  | Some v => List.length (shown h v)
  | None => O
  end.

(** The widths after one more line has been measured. *)
Fixpoint widen (header : list text) (values : list value)
  (widths : list nat) : list nat :=
  match header, values, widths with
  | h :: header', v :: values', w :: widths' =>
      Nat.max w (List.length (printable h v)) :: widen header' values' widths'
  | _, _, _ => []
  end.

(** A timestamp in the form [YYYY-MM-DDTHH:MM:SS], every field of full
    width and made of digits. *)
Definition zero_padded (s : text) : bool :=
  match s with
  | [y1; y2; y3; y4; h1; m1; m2; h2; d1; d2; t; H1; H2; c1; M1; M2; c2;
     S1; S2] =>
      all_digits [y1; y2; y3; y4; m1; m2; d1; d2; H1; H2; M1; M2; S1; S2]
      && Py.text_eqb [h1; h2; t; c1; c2] "--T::"
  | _ => false
  end.

(** The lexicographic order on lists of integers. *)
Fixpoint lex_ltb (a b : list Z) : bool :=
  match a, b with
  | x :: a', y :: b' => (x <? y) || ((x =? y) && lex_ltb a' b')
  | _, _ => false
  end.

Definition fields (d : Strptime.datetime) : list Z :=
  [Strptime.year d; Strptime.month d; Strptime.day d;
   Strptime.hour d; Strptime.minute d; Strptime.second d].

(** [a] is earlier than [b]. *)
Definition chrono_ltb (a b : Strptime.datetime) : bool :=
  lex_ltb (fields a) (fields b).

(** The timestamp in column [col] of a record and the date it parses to. *)
Definition stamp (col : text) (r : record) : option (text * Strptime.datetime) :=
  match lookup col r with
  | Some (Str s) =>
      match Strptime.strptime s with
      | Some d => Some (s, d)
      | None => None
      end
  | _ => None
  end.

(** Every value of the column parses, in the year and month of [today]. *)
Definition this_month (today : date) (col : text) (data : list record) : bool :=
  forallb (fun r => match stamp col r with
                    | Some (_, d) =>
                        (Strptime.year d =? today_year today)
                        && (Strptime.month d =? today_month today)
                    | None => false
                    end) data.

(** Some value of the column parses to another day of the month than
    that of [today]. *)
Definition other_day (today : date) (col : text) (data : list record) : bool :=
  existsb (fun r => match stamp col r with
                    | Some (_, d) => negb (Strptime.day d =? today_day today)
                    | None => false
                    end) data.

(** What the second branch of [simplify_datetime] leaves of a timestamp. *)
Definition weekday_form (s : text) (d : Strptime.datetime) : text :=
  Strptime.weekday_name d ++ " " ++ Py.replace (sub_year_month s) "T" " ".

(** The weekday and the time of day alone, as the specification words it. *)
Definition weekday_time_only (s : text) (d : Strptime.datetime) : text :=
  Strptime.weekday_name d ++ " " ++ sub_upto_T s.

Definition start_record (id s : text) : record :=
  [("JobID" : text, Str id); ("Start" : text, Str s)].

(** A numeral: it starts and ends with a digit and holds only digits
    and points. *)
Definition numeral_like (s : text) : Prop :=
  (exists c r, s = c :: r /\ Py.isdigit c = true)
  /\ (exists r d, s = r ++ [d] /\ Py.isdigit d = true)
  /\ Forall (fun c => Py.isdigit c = true \/ c = "."%char) s.

(** The rational a decimal numeral stands for. *)
Definition decimal_value (ip fp : text) : Q :=
  inject_Z (Py.digits_val (ip ++ fp))
  * Qpower (10 # 1) (0 - Z.of_nat (List.length fp)).

(** [round] on a rational. *)
Definition round_q (q : Q) : Z := Py.round_div (Qnum q) (Zpos (Qden q)).

(** The float that the branches of [normalizeMem] hand to the division,
    from the float read. *)
Definition scaled (f : Py.float) (u : mem_unit) : Py.float :=
  match u with
  | UnitNone => f
  | _ => Py.fmul f (unit_bytes u)
  end.

(** A rational that a binary64 number holds exactly, whatever its size: a
    significand below 2^53 and an exponent from -1074 on. *)
Definition binary64_number (v : Q) : Prop :=
  exists M E : Z,
    (v == inject_Z M * Py.pow2 E)%Q /\ Z.abs M < 2 ^ 53 /\ -1074 <= E.

(** Two values of one type, strings or integers. *)
Definition same_type (str_type : bool) (v : value) : Prop :=
  is_str v = str_type.

(** The keys that [sorted] computes go with their records. *)
Definition keyed (s : text) (p : value * record) : Prop :=
  lookup s (snd p) = Some (fst p).

Definition tab_char : ascii := "009"%char.

(** No cell of the line holds a tab. *)
Definition tab_free (line : list value) : bool :=
  forallb (fun v => negb (Py.mem_char tab_char (str v))) line.

(** The number that two digits, or four, stand for. *)
Definition two (c1 c2 : ascii) : Z := 10 * Py.digit_val c1 + Py.digit_val c2.

Definition four (c1 c2 c3 c4 : ascii) : Z :=
  1000 * Py.digit_val c1 + 100 * Py.digit_val c2
  + 10 * Py.digit_val c3 + Py.digit_val c4.

(** The relation between a record and what the second branch makes of it. *)
Definition weekday_simplified (col : text) (o r : record) : Prop :=
  exists s d,
    stamp col r = Some (s, d)
    /\ o = setitem r col (Str (weekday_form s d))
    /\ lookup col o = Some (Str (weekday_form s d))
    /\ (zero_padded s = true ->
        weekday_form s d
        = Strptime.weekday_name d ++ " " ++ firstn 2 (skipn 8 s)
          ++ " " ++ skipn 11 s).

(** [a] before [b] in a list of keyed elements, ascending. *)
Definition asc {K A : Type} (ltb : K -> K -> bool) (a b : K * A) : Prop :=
  ltb (fst b) (fst a) = false.

(** [a] before [b] in a list of keyed elements, descending. *)
Definition desc {K A : Type} (ltb : K -> K -> bool) (a b : K * A) : Prop :=
  ltb (fst a) (fst b) = false.

(** *** For the properties of the rest of the program *)

(** A job record: its identifier is a string without the batch marker. *)
Definition is_job (r : record) : Prop :=
  exists id, jobid r = Some id /\ Py.contains id ".batch" = false.

(** The identifier of a record as the [fromId] filter reads it. *)
Definition numeric_id (r : record) : option Z :=
  match jobid r with
  | Some id =>
      match Py.int (Py.replace id ".batch" "") with
      | Ok i => Some i
      | Raise _ => None
      end
  | None => None
  end.

(** The records that the filter with threshold [n] lets through. *)
Definition above (n : Z) (r : record) : bool :=
  match numeric_id r with
  | Some i => n <? i
  | None => false
  end.

Definition has_numeric_id (r : record) : bool :=
  match numeric_id r with
  | Some _ => true
  | None => false
  end.

(** What the merge loop keeps true of its state once it has read the
    records [seen]. *)
Definition merge_inv (seen : list record) (st : merge_state) : Prop :=
  (forall j, idjob st = Some j -> is_job j /\ In j seen)
  /\ Forall (fun o => is_job o /\ exists r, In r seen /\ same_but_rss o r)
            (sacct_mrg st).

(** A letter that [normalizeMem] does not take as a unit or a marker. *)
Definition unsupported_unit (u : ascii) : bool :=
  let n := Py.code u in
  (((65 <=? n) && (n <=? 90)) || ((97 <=? n) && (n <=? 122)))
  && negb (Py.mem_char u "KMGnc").

(** A text without the escape character. *)
Definition esc_free (s : text) : bool :=
  forallb (fun c => negb (Py.char_eqb c esc)) s.

(** A cell that is printed as it is measured: no escape character in it
    and, in the identifier column, no batch marker at its end. *)
Definition plain_cell (h : text) (v : value) : bool :=
  esc_free (str v) && Py.text_eqb (printable h v) (str v).

Fixpoint plain_cells (header : list text) (line : list value) : bool :=
  match header, line with
  | h :: header', v :: line' => plain_cell h v && plain_cells header' line'
  | _, _ => true
  end.

(** The date that the first loop of [simplify_datetime] finds in a
    record: [None] for a value that does not parse. *)
Definition scanned (col : text) (r : record) : option Strptime.datetime :=
  match lookup col r with
  | Some (Str s) => Strptime.strptime s
  | _ => None
  end.

(** Every record holds a string in column [col]. *)
Definition text_column (col : text) (data : list record) : bool :=
  forallb (fun r => match lookup col r with
                    | Some (Str _) => true
                    | _ => false
                    end) data.

(** The values of the column that parse agree with today on [proj]. *)
Definition same_as_today (proj : Strptime.datetime -> Z) (today : Z)
  (col : text) (data : list record) : bool :=
  forallb (fun r => match scanned col r with
                    | Some d => proj d =? today
                    | None => true
                    end) data.

(** [o] is [r] with the string in column [col] replaced by [f] of it when
    it parses, and with [Unknown] taken out of it when it does not. *)
Definition simplified_by (f : text -> text) (col : text) (o r : record)
  : Prop :=
  exists s,
    lookup col r = Some (Str s)
    /\ o = setitem r col
             (Str (if parses s then f s else Py.replace s "Unknown" "")).

(** [o] has the columns of [r] and differs from it in column [col] at
    most, where it holds a string. *)
Definition same_but_column (col : text) (o r : record) : Prop :=
  columns o = columns r
  /\ (forall k : text, k <> col -> lookup k o = lookup k r)
  /\ exists s, lookup col o = Some (Str s).

Definition date_columns : list text :=
  ["StateSince" : text; "Submit" : text; "Start" : text; "End" : text].

(** No column of [cols] holds an integer in [r]. *)
Definition no_int (cols : list text) (r : record) : bool :=
  forallb (fun c => match lookup c r with
                    | Some (Int _) => false
                    | _ => true
                    end) cols.

(** [o] has the columns of [r] and its values outside the columns
    [cols]. *)
Definition same_but_columns (cols : list text) (o r : record) : Prop :=
  columns o = columns r
  /\ forall k : text, ~ In k cols -> lookup k o = lookup k r.

(** The names other than [x]. *)
Definition without (x : text) (l : list text) : list text :=
  filter (fun y => negb (Py.text_eqb y x)) l.

Definition memory_column (k : text) : bool :=
  Py.text_eqb k "MaxRSS" || Py.text_eqb k "ReqMem".

(** What a record holds in column [k] after the memory columns have been
    normalized: an integer or the empty string in a memory column, a
    string elsewhere. *)
Definition normalized (k : text) (v : value) : Prop :=
  match v with
  | Int _ => memory_column k = true
  | Str s => memory_column k = true -> s = []
  end.

(** A record as the reader makes it for the names [printablefmt]. *)
Definition read_record (printablefmt : list text) (r : record) : Prop :=
  columns r = printablefmt /\ no_int date_columns r = true.

(** An aligned row: each cell, colored or not, is followed by blanks up
    to the width of its column, counted on the text of the cell. *)
Definition aligned_row (no_color : bool) (col_widths : list nat)
  (cells : list value) : text :=
  List.concat
    (map (fun wv : nat * value =>
            str (if no_color then snd wv else colorize_one (snd wv))
            ++ repeat " "%char (fst wv - List.length (str (snd wv))))
         (combine col_widths cells)).

(** * Properties *)

(** ** Characters and strings *)

Lemma char_eqb_eq (a b : ascii) : Py.char_eqb a b = true <-> a = b.
Proof. unfold Py.char_eqb. apply Ascii.eqb_eq. Qed.

Lemma char_eqb_refl (a : ascii) : Py.char_eqb a a = true.
Proof. apply char_eqb_eq. reflexivity. Qed.

Lemma text_eqb_eq (a b : text) : Py.text_eqb a b = true <-> a = b.
Proof.
  revert b. induction a as [|x a IH]; intros [|y b]; simpl; split;
    try congruence; try reflexivity.
  - intros H. apply andb_true_iff in H as [H1 H2].
    apply char_eqb_eq in H1. apply IH in H2. congruence.
  - intros H. injection H as -> ->. apply andb_true_iff. split.
    + apply char_eqb_refl.
    + apply IH. reflexivity.
Qed.

Lemma text_eqb_refl (a : text) : Py.text_eqb a a = true.
Proof. apply text_eqb_eq. reflexivity. Qed.

Lemma text_eqb_neq (a b : text) : Py.text_eqb a b = false <-> a <> b.
Proof.
  split.
  - intros H E. apply text_eqb_eq in E. congruence.
  - intros H. destruct (Py.text_eqb a b) eqn:E; [|reflexivity].
    apply text_eqb_eq in E. contradiction.
Qed.

Section Strip.

Variable p : ascii -> bool.

Lemma lstrip_by_all (s : text) : forallb p s = true -> Py.lstrip_by p s = [].
Proof.
  induction s as [|c s IH]; simpl; [reflexivity|].
  intros H. apply andb_true_iff in H as [-> H]. auto.
Qed.

Lemma lstrip_by_keep (c : ascii) (s : text) :
  p c = false -> Py.lstrip_by p (c :: s) = c :: s.
Proof. intros H. simpl. rewrite H. reflexivity. Qed.

Lemma rstrip_by_keep (s : text) (c : ascii) :
  p c = false -> Py.rstrip_by p (s ++ [c]) = s ++ [c].
Proof.
  intros H. unfold Py.rstrip_by. rewrite rev_app_distr. simpl.
  rewrite H. simpl. rewrite rev_involutive. reflexivity.
Qed.

Lemma rstrip_by_drop (s : text) (c : ascii) :
  p c = true -> Py.rstrip_by p (s ++ [c]) = Py.rstrip_by p s.
Proof.
  intros H. unfold Py.rstrip_by. rewrite rev_app_distr. simpl.
  rewrite H. reflexivity.
Qed.

Lemma rstrip_by_nil : Py.rstrip_by p [] = [].
Proof. reflexivity. Qed.

Lemma strip_by_all (s : text) : forallb p s = true -> Py.strip_by p s = [].
Proof.
  intros H. unfold Py.strip_by. rewrite lstrip_by_all by exact H. reflexivity.
Qed.

Lemma rstrip_by_snoc (s : text) (e : ascii) :
  Py.rstrip_by p (s ++ [e]) = if p e then Py.rstrip_by p s else s ++ [e].
Proof.
  destruct (p e) eqn:E.
  - apply rstrip_by_drop. exact E.
  - apply rstrip_by_keep. exact E.
Qed.

Lemma strip_by_head (c : ascii) (s : text) :
  p c = false -> Py.strip_by p (c :: s) = Py.rstrip_by p (c :: s).
Proof.
  intros H. unfold Py.strip_by. rewrite lstrip_by_keep by exact H. reflexivity.
Qed.

End Strip.

(** ** Decimal digits *)

Lemma isdigit_cases (c : ascii) :
  Py.isdigit c = true ->
  In c (list_ascii_of_string "0123456789").
Proof.
  destruct c as [[] [] [] [] [] [] [] []]; vm_compute; intros H;
    try discriminate H; tauto.
Qed.

Ltac digit_cases H :=
  apply isdigit_cases in H; simpl in H;
  repeat (destruct H as [H | H]; [subst | ]); [ .. | contradiction H].

Lemma all_digits_app (a b : text) :
  all_digits (a ++ b) = all_digits a && all_digits b.
Proof. apply forallb_app. Qed.

Lemma all_digits_last (s : text) :
  s <> [] -> all_digits s = true ->
  exists r d, s = r ++ [d] /\ Py.isdigit d = true.
Proof.
  intros Hne Hd. destruct (exists_last Hne) as [r [d ->]].
  exists r, d. split; [reflexivity|].
  rewrite all_digits_app in Hd. apply andb_true_iff in Hd as [_ Hd].
  simpl in Hd. rewrite andb_true_r in Hd. exact Hd.
Qed.

Lemma all_digits_Forall (s : text) :
  all_digits s = true ->
  Forall (fun c => Py.isdigit c = true \/ c = "."%char) s.
Proof.
  intros H. apply Forall_forall. intros c Hc. left.
  unfold all_digits in H. rewrite forallb_forall in H. auto.
Qed.

Lemma decimal_numeral_like (ip fp : text) :
  ip <> [] -> all_digits ip = true -> all_digits fp = true ->
  numeral_like (decimal ip fp).
Proof.
  intros Hne Hi Hf. repeat split.
  - destruct ip as [|c ip]; [contradiction|]. simpl in Hi.
    apply andb_true_iff in Hi as [Hc _].
    destruct fp; simpl; eauto.
  - destruct fp as [|f fp]; simpl.
    + apply all_digits_last; assumption.
    + destruct (all_digits_last (f :: fp)) as [r [d [E Hd]]];
        [discriminate|exact Hf|].
      exists (ip ++ "."%char :: r), d. split; [|exact Hd].
      rewrite E. rewrite <- app_assoc. reflexivity.
  - destruct fp as [|f fp]; simpl.
    + apply all_digits_Forall. exact Hi.
    + apply Forall_app. split; [apply all_digits_Forall; exact Hi|].
      constructor; [right; reflexivity|].
      apply all_digits_Forall. exact Hf.
Qed.

(** Stripping around a numeral and up to two more characters. *)
Section StripNumeral.

Variable p : ascii -> bool.
Hypothesis p_digit : forall c, Py.isdigit c = true -> p c = false.

Variable num : text.
Hypothesis Hnum : numeral_like num.

Lemma strip_numeral : Py.strip_by p num = num.
Proof.
  destruct Hnum as [[c [r [E Hc]]] [[r' [d [E' Hd]]] _]].
  rewrite E at 1. rewrite strip_by_head by auto. rewrite <- E.
  rewrite E'. apply rstrip_by_keep. auto.
Qed.

Lemma rstrip_numeral : Py.rstrip_by p num = num.
Proof.
  destruct Hnum as [_ [[r' [d [E' Hd]]] _]].
  rewrite E'. apply rstrip_by_keep. auto.
Qed.

Lemma strip_numeral_1 (k : ascii) :
  Py.strip_by p (num ++ [k]) = if p k then num else num ++ [k].
Proof.
  destruct Hnum as [[c [r [E Hc]]] _].
  rewrite E at 1. simpl. rewrite strip_by_head by auto.
  change (c :: r ++ [k]) with ((c :: r) ++ [k]). rewrite <- E.
  rewrite rstrip_by_snoc. rewrite rstrip_numeral. reflexivity.
Qed.

Lemma strip_numeral_2 (k1 k2 : ascii) :
  Py.strip_by p (num ++ [k1; k2]) =
  if p k2 then (if p k1 then num else num ++ [k1]) else num ++ [k1; k2].
Proof.
  destruct Hnum as [[c [r [E Hc]]] _].
  rewrite E at 1. simpl. rewrite strip_by_head by auto.
  change (c :: r ++ [k1; k2]) with ((c :: r) ++ [k1; k2]). rewrite <- E.
  replace (num ++ [k1; k2]) with ((num ++ [k1]) ++ [k2])
    by (rewrite <- app_assoc; reflexivity).
  rewrite rstrip_by_snoc. rewrite rstrip_by_snoc. rewrite rstrip_numeral.
  reflexivity.
Qed.

End StripNumeral.

Lemma endswith_snoc (s : text) (e k : ascii) :
  Py.endswith (s ++ [e]) [k] = Py.char_eqb e k.
Proof.
  unfold Py.endswith. rewrite rev_app_distr. simpl. apply andb_true_r.
Qed.

Lemma digit_not_in (chars : text) :
  forallb (fun k => negb (Py.isdigit k)) chars = true ->
  forall c, Py.isdigit c = true -> Py.mem_char c chars = false.
Proof.
  intros H c Hc. unfold Py.mem_char.
  destruct (existsb (Py.char_eqb c) chars) eqn:E; [|reflexivity].
  apply existsb_exists in E as [k [Hk E]]. apply char_eqb_eq in E. subst k.
  rewrite forallb_forall in H. apply H in Hk. rewrite Hc in Hk. discriminate.
Qed.

Lemma digit_not_space (c : ascii) : Py.isdigit c = true -> Py.isspace c = false.
Proof. intros H. digit_cases H; reflexivity. Qed.

Lemma digit_not_space_num (c : ascii) :
  Py.isdigit c = true -> Py.isspace_num c = false.
Proof. intros H. digit_cases H; reflexivity. Qed.

(** ** Numerals read by [float] *)

Lemma drop_underscores_plain (prev : option ascii) (s : text) :
  Forall (fun c => Py.isdigit c = true \/ c = "."%char) s ->
  Py.drop_underscores prev s = Some s.
Proof.
  intros H. revert prev. induction H as [|c s Hc _ IH]; intros prev; simpl.
  - reflexivity.
  - assert (E : Py.char_eqb c "_"%char = false).
    { destruct Hc as [Hc | ->]; [digit_cases Hc|]; reflexivity. }
    rewrite E. rewrite IH. reflexivity.
Qed.

Lemma span_digits_all (s : text) :
  all_digits s = true -> Py.span_digits s = (s, []).
Proof.
  induction s as [|c s IH]; simpl; [reflexivity|].
  intros H. apply andb_true_iff in H as [-> H]. rewrite IH by exact H.
  reflexivity.
Qed.

Lemma span_digits_point (ip r : text) :
  all_digits ip = true ->
  Py.span_digits (ip ++ "."%char :: r) = (ip, "."%char :: r).
Proof.
  induction ip as [|c ip IH]; simpl; [reflexivity|].
  intros H. apply andb_true_iff in H as [-> H]. rewrite IH by exact H.
  reflexivity.
Qed.

Lemma read_sign_digit (c : ascii) (r : text) :
  Py.isdigit c = true -> Py.read_sign (c :: r) = (false, c :: r).
Proof. intros H. digit_cases H; reflexivity. Qed.

Lemma not_a_word (c : ascii) (r : text) :
  Py.isdigit c = true ->
  let word := map Py.lower (c :: r) in
  Py.text_eqb word "inf" || Py.text_eqb word "infinity" = false
  /\ Py.text_eqb word "nan" = false.
Proof. intros H. digit_cases H; split; reflexivity. Qed.

Lemma float_of_decimal (ip fp : text) :
  ip <> [] -> all_digits ip = true -> all_digits fp = true ->
  Py.float_of (decimal ip fp) = Ok (Py.binary64 (decimal_value ip fp)).
Proof.
  intros Hne Hi Hf.
  pose proof (decimal_numeral_like ip fp Hne Hi Hf) as Hnum.
  unfold Py.float_of.
  rewrite drop_underscores_plain by apply Hnum.
  rewrite (strip_numeral _ digit_not_space_num _ Hnum).
  destruct Hnum as [[c [r [E Hc]]] _].
  rewrite E. rewrite read_sign_digit by exact Hc.
  destruct (not_a_word c r Hc) as [W1 W2]. cbv zeta in W1, W2.
  rewrite W1, W2. rewrite <- E. clear W1 W2 E Hc c r.
  destruct ip as [|i ip]; [contradiction|].
  destruct fp as [|f fp]; unfold decimal.
  - rewrite span_digits_all by exact Hi. unfold decimal_value. simpl.
    rewrite !app_nil_r. reflexivity.
  - rewrite span_digits_point by exact Hi.
    simpl Py.char_eqb. cbv iota.
    rewrite span_digits_all by exact Hf. simpl. reflexivity.
Qed.

(** ** Rounding *)

Lemma round_div_scale (n d k : Z) :
  0 < d -> 0 < k -> Py.round_div (n * k) (d * k) = Py.round_div n d.
Proof.
  intros Hd Hk. unfold Py.round_div.
  rewrite Z.div_mul_cancel_r by lia.
  rewrite Zmult_mod_distr_r.
  replace (2 * (n mod d * k)) with (2 * (n mod d) * k) by ring.
  assert (E1 : (2 * (n mod d) * k <? d * k) = (2 * (n mod d) <? d)).
  { destruct (Z.ltb_spec (2 * (n mod d)) d);
      destruct (Z.ltb_spec (2 * (n mod d) * k) (d * k)); try reflexivity; nia. }
  assert (E2 : (d * k <? 2 * (n mod d) * k) = (d <? 2 * (n mod d))).
  { destruct (Z.ltb_spec d (2 * (n mod d)));
      destruct (Z.ltb_spec (d * k) (2 * (n mod d) * k)); try reflexivity; nia. }
  rewrite E1, E2. reflexivity.
Qed.

Lemma round_q_Qeq (q1 q2 : Q) : (q1 == q2)%Q -> round_q q1 = round_q q2.
Proof.
  unfold Qeq, round_q. intros H.
  rewrite <- (round_div_scale (Qnum q1) (Zpos (Qden q1)) (Zpos (Qden q2)))
    by lia.
  rewrite <- (round_div_scale (Qnum q2) (Zpos (Qden q2)) (Zpos (Qden q1)))
    by lia.
  rewrite H. f_equal. ring.
Qed.

Lemma round_q_frac (q : Q) (n d : Z) :
  0 < d -> (q == inject_Z n / inject_Z d)%Q -> round_q q = Py.round_div n d.
Proof.
  intros Hd H. rewrite (round_q_Qeq q (n # Z.to_pos d)).
  - unfold round_q. simpl. rewrite Z2Pos.id by exact Hd. reflexivity.
  - rewrite H. rewrite Qmake_Qdiv. rewrite Z2Pos.id by exact Hd. reflexivity.
Qed.

(** [round_div] gives a nearest integer, and the even one of two. *)
Lemma round_div_nearest (n d : Z) :
  0 < d ->
  let r := Py.round_div n d in
  Z.abs (2 * (r * d - n)) <= d
  /\ (Z.abs (2 * (r * d - n)) = d -> Z.even r = true).
Proof.
  intros Hd. unfold Py.round_div.
  pose proof (Z.div_mod n d ltac:(lia)) as E.
  pose proof (Z.mod_pos_bound n d Hd) as B.
  destruct (Z.ltb_spec (2 * (n mod d)) d) as [L1|L1].
  - cbv zeta. split; [nia|]. intros A. exfalso. nia.
  - destruct (Z.ltb_spec d (2 * (n mod d))) as [L2|L2].
    + cbv zeta. split; [nia|]. intros A. exfalso. nia.
    + destruct (Z.even (n / d)) eqn:Ev; cbv zeta.
      * split; [nia|]. intros _. exact Ev.
      * split; [nia|]. intros _. rewrite Z.even_add. rewrite Ev. reflexivity.
Qed.

Lemma decimal_value_frac (ip fp : text) (b : Z) :
  (decimal_value ip fp * inject_Z b / inject_Z (2 ^ 20) ==
   inject_Z (Py.digits_val (ip ++ fp) * b)
   / inject_Z (10 ^ Z.of_nat (List.length fp) * mebibyte))%Q.
Proof.
  unfold decimal_value.
  replace (0 - Z.of_nat (List.length fp)) with (- Z.of_nat (List.length fp))
    by lia.
  rewrite Qpower_opp.
  change (10 # 1) with (inject_Z 10).
  rewrite <- Zpower_Qpower by lia.
  rewrite !inject_Z_mult.
  assert (N : ~ (inject_Z (10 ^ Z.of_nat (List.length fp)) == 0)%Q).
  { change 0%Q with (inject_Z 0). rewrite inject_Z_injective.
    apply Z.pow_nonzero; lia. }
  change (inject_Z (2 ^ 20)) with (inject_Z mebibyte).
  assert (M : ~ (inject_Z mebibyte == 0)%Q) by discriminate.
  generalize dependent (inject_Z mebibyte).
  generalize dependent (inject_Z (10 ^ Z.of_nat (List.length fp))).
  generalize (inject_Z (Py.digits_val (ip ++ fp))) (inject_Z b).
  intros m k t N u M. field. split; assumption.
Qed.

(** ** Powers of two *)

Lemma two_not_0 : ~ (2 == 0)%Q.
Proof. discriminate. Qed.

Lemma pow2_pos (k : Z) : (0 < Py.pow2 k)%Q.
Proof. apply Qpower_0_lt. reflexivity. Qed.

Lemma pow2_add (a b : Z) : (Py.pow2 (a + b) == Py.pow2 a * Py.pow2 b)%Q.
Proof. apply Qpower_plus. exact two_not_0. Qed.

Lemma pow2_lt (a b : Z) : a < b -> (Py.pow2 a < Py.pow2 b)%Q.
Proof. intros H. apply Qpower_lt_compat_l; [exact H | reflexivity]. Qed.

Lemma pow2_le (a b : Z) : a <= b -> (Py.pow2 a <= Py.pow2 b)%Q.
Proof. intros H. apply Qpower_le_compat_l; [exact H | discriminate]. Qed.

Lemma pow2_lt_inv (a b : Z) : (Py.pow2 a < Py.pow2 b)%Q -> a < b.
Proof. intros H. apply (Qpower_lt_compat_l_inv 2); [exact H | reflexivity]. Qed.

Lemma pow2_inject (k : Z) : 0 <= k -> (Py.pow2 k == inject_Z (2 ^ k))%Q.
Proof. intros H. unfold Py.pow2. rewrite Zpower_Qpower by exact H. reflexivity. Qed.

Lemma pow2_cancel (a : Z) : (Py.pow2 a * Py.pow2 (- a) == 1)%Q.
Proof. rewrite <- pow2_add. replace (a + - a) with 0 by lia. reflexivity. Qed.

(** Dividing by a power of two is multiplying by the opposite power. *)
Lemma div_pow2 (q : Q) (e : Z) : (q / Py.pow2 e == q * Py.pow2 (- e))%Q.
Proof.
  unfold Qdiv. apply Qmult_comp; [reflexivity|].
  unfold Py.pow2. rewrite Qpower_opp. reflexivity.
Qed.

(** ** The exponent of a positive rational *)

Lemma Qmake_pos (q : Q) : (0 < q)%Q -> 0 < Qnum q.
Proof. unfold Qlt. simpl. lia. Qed.

Lemma ilog2_spec (q : Q) :
  (0 < q)%Q ->
  (Py.pow2 (Py.ilog2 q) <= q)%Q /\ (q < Py.pow2 (Py.ilog2 q + 1))%Q.
Proof.
  intros Hq. pose proof (Qmake_pos q Hq) as Hn.
  destruct q as [n d]. cbn [Qnum Qden] in *.
  set (ln := Z.log2 n). set (ld := Z.log2 (Zpos d)).
  pose proof (Z.log2_spec n Hn) as [Ln Un]. fold ln in Ln, Un.
  pose proof (Z.log2_spec (Zpos d) ltac:(lia)) as [Ld Ud]. fold ld in Ld, Ud.
  pose proof (Z.log2_nonneg n) as Pn. fold ln in Pn.
  pose proof (Z.log2_nonneg (Zpos d)) as Pd. fold ld in Pd.
  assert (Upper : (n # d < Py.pow2 (ln - ld + 1))%Q).
  {     rewrite Qmake_Qdiv. apply Qlt_shift_div_r; [reflexivity|].
    apply Qlt_le_trans with (y := Py.pow2 (ln + 1)).
    - rewrite pow2_inject by lia. rewrite <- Zlt_Qlt.
      replace (ln + 1) with (Z.succ ln) by lia. exact Un.
    - replace (ln + 1) with ((ln - ld + 1) + ld) by lia.
      rewrite pow2_add. apply Qmult_le_l; [apply pow2_pos|].
      rewrite pow2_inject by lia. rewrite <- Zle_Qle. exact Ld. }
  assert (Lower : (Py.pow2 (ln - ld - 1) <= n # d)%Q).
  { rewrite Qmake_Qdiv. apply Qle_shift_div_l; [reflexivity|].
    apply Qle_trans with (y := Py.pow2 ln).
    - replace ln with ((ln - ld - 1) + (ld + 1)) at 2 by lia.
      rewrite pow2_add. apply Qmult_le_l; [apply pow2_pos|].
      rewrite pow2_inject by lia. rewrite <- Zle_Qle.
      replace (ld + 1) with (Z.succ ld) by lia. lia.
    - rewrite pow2_inject by lia. rewrite <- Zle_Qle. exact Ln. }
  unfold Py.ilog2. cbn [Qnum Qden]. fold ln ld.
  destruct (Qle_bool (Py.pow2 (ln - ld)) (n # d)) eqn:T.
  - apply Qle_bool_iff in T. split; assumption.
  - split; [exact Lower|].
    replace (ln - ld - 1 + 1) with (ln - ld) by lia.
    apply Qnot_le_lt. intros C. apply Qle_bool_iff in C. congruence.
Qed.

Lemma ilog2_lt (q : Q) (b : Z) :
  (0 < q)%Q -> (q < Py.pow2 b)%Q -> Py.ilog2 q < b.
Proof.
  intros Hq H. destruct (ilog2_spec q Hq) as [L _].
  apply pow2_lt_inv. apply Qle_lt_trans with (y := q); assumption.
Qed.

Lemma ilog2_ge (q : Q) (a : Z) :
  (0 < q)%Q -> (Py.pow2 a <= q)%Q -> a <= Py.ilog2 q.
Proof.
  intros Hq H. destruct (ilog2_spec q Hq) as [_ U].
  assert (a < Py.ilog2 q + 1); [|lia].
  apply pow2_lt_inv. apply Qle_lt_trans with (y := q); assumption.
Qed.


Lemma round_q_int (q : Q) (t : Z) : (q == inject_Z t)%Q -> round_q q = t.
Proof.
  intros H. rewrite (round_q_Qeq q (inject_Z t) H).
  unfold round_q, Py.round_div. cbn [Qnum Qden inject_Z].
  rewrite Z.div_1_r, Z.mod_1_r. reflexivity.
Qed.

(** The rounded value is within a half of the rational. *)
Lemma round_q_near (q : Q) : (Qabs (inject_Z (round_q q) - q) <= 1 # 2)%Q.
Proof.
  destruct q as [n d]. unfold round_q. cbn [Qnum Qden].
  pose proof (round_div_nearest n (Zpos d) ltac:(lia)) as [H _].
  cbv zeta in H. set (r := Py.round_div n (Zpos d)) in *.
  apply Qabs_Qle_condition. unfold Qle, Qminus, Qplus, Qopp, inject_Z.
  cbn [Qnum Qden]. split; cbn; lia.
Qed.

Lemma round_q_bounds (q : Q) (a b : Z) :
  (inject_Z a <= q)%Q -> (q <= inject_Z b)%Q -> a <= round_q q <= b.
Proof.
  destruct q as [n d]. unfold round_q, Qle. cbn [Qnum Qden inject_Z].
  intros Ha Hb.
  pose proof (round_div_nearest n (Zpos d) ltac:(lia)) as [H _].
  cbv zeta in H. set (r := Py.round_div n (Zpos d)) in *.
  rewrite Z.mul_1_r in Ha, Hb.
  split; nia.
Qed.

(** ** Rounding to binary64 *)

Lemma binary64_pos (q : Q) :
  (0 < q)%Q ->
  Py.binary64 q
  = let e := Z.max (Py.ilog2 q - 52) (-1074) in
    let r := (inject_Z (round_q (q / Py.pow2 e)) * Py.pow2 e)%Q in
    if Qle_bool (Py.pow2 1024) r then Py.Inf false else Py.Fin (Qred r).
Proof.
  intros Hq. destruct q as [[|p|p] d]; try discriminate Hq.
  reflexivity.
Qed.

(** A rational with a significand below 2^53 and an exponent from -1074,
    below 2^1024, is a binary64 number: rounding leaves it as it is. *)
Lemma binary64_exact (q : Q) (M E : Z) :
  (0 < q)%Q -> (q == inject_Z M * Py.pow2 E)%Q ->
  M < 2 ^ 53 -> -1074 <= E -> (q < Py.pow2 1024)%Q ->
  Py.binary64 q = Py.Fin (Qred q).
Proof.
  intros Hq Eq HM HE Hmax. rewrite (binary64_pos q Hq). cbv zeta.
  set (e := Z.max (Py.ilog2 q - 52) (-1074)).
  assert (Hlt : (q < Py.pow2 (53 + E))%Q).
  { rewrite Eq, pow2_add. apply Qmult_lt_r; [apply pow2_pos|].
    rewrite pow2_inject by lia. rewrite <- Zlt_Qlt. exact HM. }
  pose proof (ilog2_lt q _ Hq Hlt) as Hil.
  assert (He : e <= E) by (unfold e; lia).
  assert (Ex : (q / Py.pow2 e == inject_Z (M * 2 ^ (E - e)))%Q).
  { rewrite div_pow2, Eq, <- Qmult_assoc, <- pow2_add.
    replace (E + - e) with (E - e) by lia.
    rewrite pow2_inject by lia. rewrite inject_Z_mult. reflexivity. }
  rewrite (round_q_int _ _ Ex).
  assert (Er : (inject_Z (M * 2 ^ (E - e)) * Py.pow2 e == q)%Q).
  { rewrite inject_Z_mult, <- (pow2_inject (E - e)) by lia.
    rewrite <- Qmult_assoc, <- pow2_add.
    replace (E - e + e) with E by lia. symmetry. exact Eq. }
  destruct (Qle_bool _ _) eqn:T.
  - apply Qle_bool_iff in T. rewrite Er in T.
    exfalso. exact (Qlt_not_le _ _ Hmax T).
  - f_equal. apply Qred_complete. exact Er.
Qed.

(** The binary64 number nearest to a rational of the normal range: its
    significand, its exponent and how far it is from the rational. *)
Lemma binary64_normal (q : Q) :
  (Py.pow2 (-1022) <= q)%Q -> (q < Py.pow2 1023)%Q ->
  exists (w : Q) (M E : Z),
    Py.binary64 q = Py.Fin w
    /\ (w == inject_Z M * Py.pow2 E)%Q
    /\ 0 < M < 2 ^ 53
    /\ Py.ilog2 q - 52 <= E <= Py.ilog2 q - 51
    /\ (Qabs (w - q) * Py.pow2 53 <= q)%Q.
Proof.
  intros Hmin Hmax.
  assert (Hq : (0 < q)%Q)
    by (apply Qlt_le_trans with (y := Py.pow2 (-1022)); [apply pow2_pos|assumption]).
  rewrite (binary64_pos q Hq). cbv zeta.
  pose proof (ilog2_ge q _ Hq Hmin) as Il1.
  pose proof (ilog2_lt q _ Hq Hmax) as Il2.
  destruct (ilog2_spec q Hq) as [L U].
  set (il := Py.ilog2 q) in *.
  replace (Z.max (il - 52) (-1074)) with (il - 52) by lia.
  set (e := il - 52). set (x := (q / Py.pow2 e)%Q).
  assert (X1 : (inject_Z (2 ^ 52) <= x)%Q).
  { unfold x. apply Qle_shift_div_l; [apply pow2_pos|].
    rewrite <- pow2_inject by lia. rewrite <- pow2_add.
    replace (52 + e) with il by (unfold e; lia). exact L. }
  assert (X2 : (x <= inject_Z (2 ^ 53))%Q).
  { unfold x. apply Qle_shift_div_r; [apply pow2_pos|].
    rewrite <- pow2_inject by lia. rewrite <- pow2_add.
    replace (53 + e) with (il + 1) by (unfold e; lia).
    apply Qlt_le_weak. exact U. }
  pose proof (round_q_bounds x _ _ X1 X2) as [M1 M2].
  pose proof (round_q_near x) as Near.
  set (m := round_q x) in *.
  set (r := (inject_Z m * Py.pow2 e)%Q).
  assert (Rle : (r <= Py.pow2 (il + 1))%Q).
  { unfold r. replace (il + 1) with (53 + e) by (unfold e; lia).
    rewrite pow2_add. apply Qmult_le_compat_r; [|apply Qlt_le_weak, pow2_pos].
    rewrite pow2_inject by lia. rewrite <- Zle_Qle. exact M2. }
  assert (NoInf : Qle_bool (Py.pow2 1024) r = false).
  { destruct (Qle_bool _ _) eqn:T; [|reflexivity].
    apply Qle_bool_iff in T. exfalso.
    assert (C : (Py.pow2 1024 <= Py.pow2 (il + 1))%Q)
      by (apply Qle_trans with (y := r); assumption).
    assert (D : (Py.pow2 (il + 1) < Py.pow2 1024)%Q) by (apply pow2_lt; lia).
    exact (Qlt_not_le _ _ D C). }
  rewrite NoInf.
  assert (Err : (Qabs (Qred r - q) * Py.pow2 53 <= q)%Q).
  { rewrite Qred_correct.
    assert (Eq : (r - q == (inject_Z m - x) * Py.pow2 e)%Q).
    { unfold r, x. field. apply Qnot_eq_sym, Qlt_not_eq, pow2_pos. }
    rewrite Eq, Qabs_Qmult.
    rewrite (Qabs_pos (Py.pow2 e)) by (apply Qlt_le_weak, pow2_pos).
    apply Qle_trans with (y := ((1 # 2) * Py.pow2 e * Py.pow2 53)%Q).
    - apply Qmult_le_compat_r; [|apply Qlt_le_weak, pow2_pos].
      apply Qmult_le_compat_r; [exact Near|apply Qlt_le_weak, pow2_pos].
    - apply Qle_trans with (y := Py.pow2 il); [|exact L].
      rewrite <- Qmult_assoc, <- pow2_add.
      replace (e + 53) with (il + 1) by (unfold e; lia).
      rewrite pow2_add. change (Py.pow2 1) with 2%Q.
      apply Qle_lteq. right. field. }
  destruct (Z.eq_dec m (2 ^ 53)) as [Em | Nm].
  - exists (Qred r), (2 ^ 52), (e + 1). split; [reflexivity|].
    split; [|split; [|split]].
    + rewrite Qred_correct. unfold r. rewrite Em, pow2_add.
      change (Py.pow2 1) with 2%Q.
      change (inject_Z (2 ^ 53)) with (inject_Z (2 ^ 52) * 2)%Q. ring.
    + split; [reflexivity | reflexivity].
    + unfold e. lia.
    + exact Err.
  - exists (Qred r), m, e. split; [reflexivity|].
    split; [apply Qred_correct|]. split; [|split].
    + split; [|lia]. apply Z.lt_le_trans with (m := 2 ^ 52); [reflexivity|exact M1].
    + unfold e. lia.
    + exact Err.
Qed.

(** ** [normalizeMem] *)

Lemma endswith_numeral (num : text) (k : ascii) :
  numeral_like num -> Py.isdigit k = false -> Py.endswith num [k] = false.
Proof.
  intros [_ [[r [d [E Hd]]] _]] Hk. rewrite E, endswith_snoc.
  destruct (Py.char_eqb d k) eqn:C; [|reflexivity].
  apply char_eqb_eq in C. congruence.
Qed.

Lemma numeral_not_blank (num rest : text) :
  numeral_like num -> Py.text_eqb (num ++ rest) "" = false.
Proof. intros [[c [r [E _]]] _]. rewrite E. reflexivity. Qed.

Ltac eval_tests :=
  repeat match goal with
    | |- context [Py.isspace (Ascii ?a ?b ?c ?d ?e ?f ?g ?h)] =>
        let v := eval vm_compute in (Py.isspace (Ascii a b c d e f g h)) in
        change (Py.isspace (Ascii a b c d e f g h)) with v
    | |- context [Py.mem_char (Ascii ?a ?b ?c ?d ?e ?f ?g ?h) ?s] =>
        let v := eval vm_compute in (Py.mem_char (Ascii a b c d e f g h) s) in
        change (Py.mem_char (Ascii a b c d e f g h) s) with v
    | |- context [Py.char_eqb (Ascii ?a ?b ?c ?d ?e ?f ?g ?h)
                              (Ascii ?a' ?b' ?c' ?d' ?e' ?f' ?g' ?h')] =>
        let v := eval vm_compute in
          (Py.char_eqb (Ascii a b c d e f g h)
                       (Ascii a' b' c' d' e' f' g' h')) in
        change (Py.char_eqb (Ascii a b c d e f g h)
                            (Ascii a' b' c' d' e' f' g' h')) with v
    end;
  cbv iota.

Lemma normalizeMem_numeral (num : text) (f : Py.float) (u : mem_unit)
  (mk : mem_marker) :
  numeral_like num -> Py.float_of num = Ok f ->
  normalizeMem (num ++ unit_suffix u ++ marker_suffix mk) =
  (z <- Py.round (Py.fdiv (scaled f u) (2 ^ 20));; Ok (Int z)).
Proof.
  intros Hnum Hv.
  pose proof (fun chars H => strip_numeral_2 _ (digit_not_in chars H) _ Hnum)
    as S2.
  pose proof (fun chars H => strip_numeral_1 _ (digit_not_in chars H) _ Hnum)
    as S1.
  pose proof (fun chars H => strip_numeral _ (digit_not_in chars H) _ Hnum)
    as S0.
  pose proof (strip_numeral_2 _ digit_not_space _ Hnum) as B2.
  pose proof (strip_numeral_1 _ digit_not_space _ Hnum) as B1.
  pose proof (strip_numeral _ digit_not_space _ Hnum) as B0.
  pose proof (endswith_numeral num "K" Hnum eq_refl) as EK.
  pose proof (endswith_numeral num "M" Hnum eq_refl) as EM.
  pose proof (endswith_numeral num "G" Hnum eq_refl) as EG.
  pose proof (numeral_not_blank num [] Hnum) as NB0.
  rewrite app_nil_r in NB0.
  unfold normalizeMem, Py.strip, Py.strip_chars.
  destruct u, mk; simpl unit_suffix; simpl marker_suffix; simpl app;
    rewrite ?app_nil_r;
    rewrite ?B2, ?B1, ?B0; eval_tests;
    rewrite ?(numeral_not_blank num) by exact Hnum; rewrite ?NB0;
    simpl list_ascii_of_string;
    rewrite ?(S2 ["n"%char] eq_refl), ?(S1 ["n"%char] eq_refl),
      ?(S0 ["n"%char] eq_refl); cbv beta; eval_tests;
    rewrite ?(S2 ["c"%char] eq_refl), ?(S1 ["c"%char] eq_refl),
      ?(S0 ["c"%char] eq_refl); cbv beta; eval_tests;
    rewrite ?endswith_snoc, ?EK, ?EM, ?EG; eval_tests;
    rewrite ?(S1 ["K"%char] eq_refl), ?(S1 ["M"%char] eq_refl),
      ?(S1 ["G"%char] eq_refl); cbv beta; eval_tests;
    rewrite Hv; reflexivity.
Qed.

(** ** The size of a numeral *)

Lemma digits_val_from (ds : text) :
  forall acc,
  fold_left (fun a c => 10 * a + Py.digit_val c) ds acc
  = acc * 10 ^ Z.of_nat (List.length ds) + Py.digits_val ds.
Proof.
  unfold Py.digits_val. induction ds as [|c ds IH]; intros acc.
  - cbn. ring.
  - cbn [fold_left List.length]. rewrite IH, (IH (10 * 0 + Py.digit_val c)).
    rewrite Nat2Z.inj_succ, Z.pow_succ_r by lia. ring.
Qed.

Lemma digits_val_bound (ds : text) :
  all_digits ds = true ->
  0 <= Py.digits_val ds < 10 ^ Z.of_nat (List.length ds).
Proof.
  induction ds as [|c ds IH]; intros H; [cbn; lia|].
  unfold all_digits in H. cbn [forallb] in H.
  apply andb_true_iff in H as [Hc H]. specialize (IH H).
  unfold Py.digits_val. cbn [fold_left List.length].
  rewrite digits_val_from. rewrite Nat2Z.inj_succ, Z.pow_succ_r by lia.
  assert (D : 0 <= Py.digit_val c <= 9).
  { unfold Py.isdigit in Hc. apply andb_true_iff in Hc as [H1 H2].
    apply Z.leb_le in H1, H2. unfold Py.digit_val. lia. }
  nia.
Qed.

Lemma decimal_value_Qdiv (ip fp : text) :
  (decimal_value ip fp
   == inject_Z (Py.digits_val (ip ++ fp))
      / inject_Z (10 ^ Z.of_nat (List.length fp)))%Q.
Proof.
  unfold decimal_value.
  replace (0 - Z.of_nat (List.length fp)) with (- Z.of_nat (List.length fp))
    by lia.
  rewrite Qpower_opp. change (10 # 1) with (inject_Z 10).
  rewrite <- Zpower_Qpower by lia. reflexivity.
Qed.

(** A numeral of at most 290 digits before and after the point is zero or
    in the normal range of binary64, far from both ends. *)
Lemma decimal_value_range (ip fp : text) :
  all_digits ip = true -> all_digits fp = true ->
  (List.length ip <= 290)%nat -> (List.length fp <= 290)%nat ->
  Py.digits_val (ip ++ fp) = 0
  \/ (Py.pow2 (-964) <= decimal_value ip fp)%Q
     /\ (decimal_value ip fp < Py.pow2 964)%Q.
Proof.
  intros Hi Hf Li Lf.
  assert (Ha : all_digits (ip ++ fp) = true)
    by (unfold all_digits in *; rewrite forallb_app, Hi, Hf; reflexivity).
  pose proof (digits_val_bound _ Ha) as [N0 N1].
  rewrite length_app, Nat2Z.inj_add, Z.pow_add_r in N1 by lia.
  set (N := Py.digits_val (ip ++ fp)) in *.
  set (f := Z.of_nat (List.length fp)) in *.
  set (i := Z.of_nat (List.length ip)) in *.
  destruct (Z.eq_dec N 0) as [Z0 | NZ]; [left; exact Z0 | right].
  assert (Pf : 0 < 10 ^ f) by (apply Z.pow_pos_nonneg; unfold f; lia).
  assert (Bf : 10 ^ f <= 10 ^ 290) by (apply Z.pow_le_mono_r; unfold f; lia).
  assert (Bi : 10 ^ i <= 10 ^ 290) by (apply Z.pow_le_mono_r; unfold i; lia).
  assert (T : 10 ^ 290 <= 2 ^ 964) by (apply Z.leb_le; vm_compute; reflexivity).
  rewrite decimal_value_Qdiv. fold N f. split.
  - apply Qle_shift_div_l; [rewrite <- (Zlt_Qlt 0); exact Pf|].
    apply Qle_trans with (y := (Py.pow2 (-964) * Py.pow2 964)%Q).
    + apply Qmult_le_l; [apply pow2_pos|].
      rewrite pow2_inject by lia. rewrite <- Zle_Qle. lia.
    + pose proof (pow2_cancel (-964)) as C. change (- -964) with 964 in C.
      rewrite C. change 1%Q with (inject_Z 1). rewrite <- Zle_Qle. lia.
  - apply Qlt_shift_div_r; [rewrite <- (Zlt_Qlt 0); exact Pf|].
    rewrite pow2_inject by lia. rewrite <- inject_Z_mult, <- Zlt_Qlt. nia.
Qed.

(** ** The arithmetic of [normalizeMem] *)

(** A binary64 number times a power of two is a binary64 number, as long
    as the exponent stays in range: the multiplication and the division
    of [normalizeMem] round nothing away. *)
Lemma binary64_scaled (w q : Q) (M E s : Z) :
  (w == inject_Z M * Py.pow2 E)%Q -> 0 < M < 2 ^ 53 ->
  (q == w * Py.pow2 s)%Q -> -1074 <= E + s -> E + s + 53 <= 1024 ->
  Py.binary64 q = Py.Fin (Qred q).
Proof.
  intros Ew HM Eq Lo Hi.
  assert (Eq' : (q == inject_Z M * Py.pow2 (E + s))%Q)
    by (rewrite Eq, Ew, pow2_add; ring).
  apply (binary64_exact q M (E + s)); try lia; try exact Eq'.
  - rewrite Eq'.
    apply Qmult_lt_0_compat; [rewrite <- (Zlt_Qlt 0); lia | apply pow2_pos].
  - apply Qlt_le_trans with (y := Py.pow2 (53 + (E + s))).
    + rewrite Eq', (pow2_add 53 (E + s)).
      apply Qmult_lt_r; [apply pow2_pos|].
      rewrite pow2_inject by lia. rewrite <- Zlt_Qlt. lia.
    + apply pow2_le. lia.
Qed.

Lemma unit_bytes_pow2 (u : mem_unit) :
  exists s, 0 <= s <= 30 /\ (inject_Z (unit_bytes u) == Py.pow2 s)%Q.
Proof.
  destruct u; [exists 0 | exists 10 | exists 20 | exists 30];
    (split; [lia | reflexivity]).
Qed.

(** What [normalizeMem] computes from the float read, when that float is a
    binary64 number [w] with room above and below. *)
Lemma round_scaled (w : Q) (M E : Z) (u : mem_unit) :
  (w == inject_Z M * Py.pow2 E)%Q -> 0 < M < 2 ^ 53 ->
  -1054 <= E -> E <= 940 ->
  Py.round (Py.fdiv (scaled (Py.Fin w) u) (2 ^ 20))
  = Ok (round_q (w * inject_Z (unit_bytes u) / inject_Z mebibyte)).
Proof.
  intros Ew HM Lo Hi.
  destruct (unit_bytes_pow2 u) as [s [Hs Es]].
  assert (D : (inject_Z (2 ^ 20) == Py.pow2 20)%Q) by reflexivity.
  assert (F : forall y : Q, (y == w * Py.pow2 s)%Q ->
              Py.round (Py.fdiv (Py.Fin y) (2 ^ 20))
              = Ok (round_q (w * inject_Z (unit_bytes u)
                             / inject_Z mebibyte))).
  { intros y Ey. unfold Py.fdiv.
    rewrite (binary64_scaled y (y / inject_Z (2 ^ 20)) M (E + s) (-20));
      try lia.
    - unfold Py.round. fold (round_q (Qred (y / inject_Z (2 ^ 20)))).
      f_equal. apply round_q_Qeq. rewrite Qred_correct, Ey, Es.
      reflexivity.
    - rewrite Ey, Ew, pow2_add. ring.
    - rewrite D, div_pow2. reflexivity. }
  destruct u; cbn [scaled].
  - apply F. rewrite <- Es. change (inject_Z (unit_bytes UnitNone)) with 1%Q.
    ring.
  - unfold Py.fmul.
    rewrite (binary64_scaled w (w * inject_Z (unit_bytes UnitK)) M E s);
      try lia; [|exact Ew | rewrite Es; reflexivity].
    apply F. rewrite Qred_correct, Es. reflexivity.
  - unfold Py.fmul.
    rewrite (binary64_scaled w (w * inject_Z (unit_bytes UnitM)) M E s);
      try lia; [|exact Ew | rewrite Es; reflexivity].
    apply F. rewrite Qred_correct, Es. reflexivity.
  - unfold Py.fmul.
    rewrite (binary64_scaled w (w * inject_Z (unit_bytes UnitG)) M E s);
      try lia; [|exact Ew | rewrite Es; reflexivity].
    apply F. rewrite Qred_correct, Es. reflexivity.
Qed.

Lemma round_scaled_zero (u : mem_unit) :
  Py.round (Py.fdiv (scaled (Py.Fin 0) u) (2 ^ 20)) = Ok 0.
Proof. destruct u; vm_compute; reflexivity. Qed.

Lemma binary64_zero (q : Q) : (q == 0)%Q -> Py.binary64 q = Py.Fin 0.
Proof.
  intros H. unfold Py.binary64.
  rewrite (proj2 (Qeq_bool_iff q 0) H). reflexivity.
Qed.

(** A binary64 number of the normal range is read as it is. *)
Lemma binary64_number_exact (v : Q) :
  (0 < v)%Q -> (v < Py.pow2 1024)%Q -> binary64_number v ->
  Py.binary64 v = Py.Fin (Qred v).
Proof.
  intros Hv Hmax [M [E [Ev [HM HE]]]].
  apply (binary64_exact v M E); try assumption. lia.
Qed.

(** C1. [normalizeMem] turns a memory string into a whole number of
    mebibytes with binary multipliers throughout.  ["2G"], ["1024K"] and
    ["500Mn"] give 2048, 1 and 500, and every empty or white-space-only
    string gives the empty string.  For a decimal numeral of at most 290
    digits before and after the point, followed by an optional unit [K],
    [M] or [G] and an optional marker [n] or [c]: [float] reads the
    numeral as the binary64 number [w] nearest to it, within 2^-53 of it
    in proportion; the multiplication by 1, 1024, 1024^2 or 1024^3 and the
    division by 1024^2 are exact; and the result is [w] times the unit in
    bytes, divided by 1024^2 and rounded to a nearest integer.  When the
    numeral is itself a binary64 number, such as an integer below 2^53,
    the result is the numeral's own bytes divided by 1024^2 and rounded.
    Past that, the float shows: 9007199254740993 mebibytes come out as
    9007199254740992, and a numeral beyond the floats raises
    [OverflowError]. *)
Theorem normalizeMem_mebibytes :
  (normalizeMem "2G" = Ok (Int 2048)
   /\ normalizeMem "1024K" = Ok (Int 1)
   /\ normalizeMem "500Mn" = Ok (Int 500)
   /\ normalizeMem "" = Ok (Str "")
   /\ normalizeMem "9007199254740993M" = Ok (Int 9007199254740992)
   /\ normalizeMem "1e400" = Raise OverflowError)
  /\ (forall x : text,
        forallb Py.isspace x = true -> normalizeMem x = Ok (Str ""))
  /\ (forall (ip fp : text) (u : mem_unit) (mk : mem_marker),
        ip <> [] -> all_digits ip = true -> all_digits fp = true ->
        (List.length ip <= 290)%nat -> (List.length fp <= 290)%nat ->
        let v := decimal_value ip fp in
        let bytes := Py.digits_val (ip ++ fp) * unit_bytes u in
        let scale := 10 ^ Z.of_nat (List.length fp) in
        exists (w : Q) (z : Z),
          Py.float_of (decimal ip fp) = Ok (Py.Fin w)
          /\ (Qabs (w - v) * Py.pow2 53 <= v)%Q
          /\ normalizeMem (decimal ip fp ++ unit_suffix u ++ marker_suffix mk)
             = Ok (Int z)
          /\ z = round_q (w * inject_Z (unit_bytes u) / inject_Z mebibyte)
          /\ (binary64_number v ->
              (w == v)%Q
              /\ z = Py.round_div bytes (scale * mebibyte)
              /\ Z.abs (2 * (z * (scale * mebibyte) - bytes))
                 <= scale * mebibyte)).
Proof.
  split; [repeat split; vm_compute; reflexivity|]. split.
  - intros x Hx. unfold normalizeMem, Py.strip.
    rewrite strip_by_all by exact Hx. reflexivity.
  - intros ip fp u mk Hne Hi Hf Li Lf v bytes scale.
    assert (Hpos : 0 < scale * mebibyte).
    { unfold scale, mebibyte.
      pose proof (Z.pow_pos_nonneg 10 (Z.of_nat (List.length fp))). lia. }
    pose proof (decimal_numeral_like ip fp Hne Hi Hf) as Hnum.
    pose proof (float_of_decimal ip fp Hne Hi Hf) as Hfl. fold v in Hfl.
    assert (Exact : forall w : Q, (w == v)%Q ->
              round_q (w * inject_Z (unit_bytes u) / inject_Z mebibyte)
              = Py.round_div bytes (scale * mebibyte)).
    { intros w Ew. apply round_q_frac; [exact Hpos|].
      rewrite Ew. apply decimal_value_frac. }
    destruct (decimal_value_range ip fp Hi Hf Li Lf) as [Z0 | [Lo Hi']].
    + assert (Ev : (v == 0)%Q).
      { unfold v, decimal_value. rewrite Z0. apply Qmult_0_l. }
      rewrite (binary64_zero v Ev) in Hfl.
      exists 0%Q, 0. split; [exact Hfl|]. split; [|split; [|split]].
      * rewrite Ev. apply Qle_bool_iff. reflexivity.
      * rewrite (normalizeMem_numeral _ _ u mk Hnum Hfl).
        rewrite round_scaled_zero. reflexivity.
      * destruct u; reflexivity.
      * intros _. split; [symmetry; exact Ev|].
        assert (Ez : 0 = Py.round_div bytes (scale * mebibyte)).
        { rewrite <- (Exact 0%Q (Qeq_sym _ _ Ev)). destruct u; reflexivity. }
        split; [exact Ez|]. rewrite Ez.
        apply (round_div_nearest bytes (scale * mebibyte) Hpos).
    + fold v in Lo, Hi'.
      assert (Hv : (0 < v)%Q)
        by (apply Qlt_le_trans with (y := Py.pow2 (-964));
            [apply pow2_pos | exact Lo]).
      destruct (binary64_normal v) as (w & M & E & Hb & Ew & HM & HE & Err).
      { apply Qle_trans with (y := Py.pow2 (-964)); [|exact Lo].
        apply pow2_le. lia. }
      { apply Qlt_le_trans with (y := Py.pow2 964); [exact Hi'|].
        apply pow2_le. lia. }
      pose proof (ilog2_ge v _ Hv Lo) as I1.
      pose proof (ilog2_lt v _ Hv Hi') as I2.
      rewrite Hb in Hfl.
      exists w, (round_q (w * inject_Z (unit_bytes u) / inject_Z mebibyte)).
      split; [exact Hfl|]. split; [exact Err|]. split; [|split].
      * rewrite (normalizeMem_numeral _ _ u mk Hnum Hfl).
        rewrite (round_scaled w M E u Ew HM) by lia. reflexivity.
      * reflexivity.
      * intros Hn.
        assert (Ew' : (w == v)%Q).
        { assert (Hmax : (v < Py.pow2 1024)%Q)
            by (apply Qlt_le_trans with (y := Py.pow2 964);
                [exact Hi' | apply pow2_le; lia]).
          pose proof (binary64_number_exact v Hv Hmax Hn) as Hx.
          assert (Eq : w = Qred v) by congruence.
          rewrite Eq. apply Qred_correct. }
        split; [exact Ew'|]. rewrite (Exact w Ew').
        split; [reflexivity|].
        apply (round_div_nearest bytes (scale * mebibyte) Hpos).
Qed.

Lemma normalizeMem_mebibytes_witness :
  normalizeMem "   " = Ok (Str "")
  /\ exists z : Z, normalizeMem "2.5Gc" = Ok (Int z) /\ z = 2560.
Proof.
  destruct normalizeMem_mebibytes as [_ [Hblank Hnum]]. split.
  - apply (Hblank "   "). reflexivity.
  - destruct (Hnum "2" "5" UnitG MarkC) as [w [z [_ [_ [Hz [_ Ex]]]]]];
      [discriminate | reflexivity | reflexivity | cbn; lia | cbn; lia |].
    exists z. split; [exact Hz|].
    destruct Ex as [_ [Ez _]]; [|exact Ez].
    exists 5, (-1). split; [reflexivity|]. split; [reflexivity | lia].
Defined.

(** ** Records *)

Lemma value_eqb_eq (a b : value) : value_eqb a b = true <-> a = b.
Proof.
  destruct a as [x|x], b as [y|y]; simpl; split; try congruence.
  - intros H. apply text_eqb_eq in H. congruence.
  - intros H. apply text_eqb_eq. congruence.
  - intros H. apply Z.eqb_eq in H. congruence.
  - intros H. apply Z.eqb_eq. congruence.
Qed.

Lemma lookup_setitem_eq (r : record) (k : text) (v : value) :
  lookup k (setitem r k v) = Some v.
Proof.
  induction r as [|[k' v'] r IH]; simpl.
  - rewrite text_eqb_refl. reflexivity.
  - destruct (Py.text_eqb k' k) eqn:E; simpl; rewrite E; auto.
Qed.

Lemma lookup_setitem_neq (r : record) (k k' : text) (v : value) :
  k' <> k -> lookup k' (setitem r k v) = lookup k' r.
Proof.
  intros N. induction r as [|[k0 v0] r IH]; simpl.
  - destruct (Py.text_eqb k k') eqn:E; [|reflexivity].
    apply text_eqb_eq in E. congruence.
  - destruct (Py.text_eqb k0 k) eqn:E; simpl.
    + apply text_eqb_eq in E. subst k0.
      destruct (Py.text_eqb k k') eqn:E'; [|reflexivity].
      apply text_eqb_eq in E'. congruence.
    + rewrite IH. reflexivity.
Qed.

Lemma columns_setitem (r : record) (k : text) (v : value) :
  has_key k r = true -> columns (setitem r k v) = columns r.
Proof.
  unfold has_key, columns. induction r as [|[k0 v0] r IH]; simpl.
  - discriminate.
  - destruct (Py.text_eqb k0 k) eqn:E; simpl; [reflexivity|].
    intros H. rewrite IH by exact H. reflexivity.
Qed.

Lemma has_key_columns (k : text) (r : record) :
  has_key k r = existsb (fun c => Py.text_eqb c k) (columns r).
Proof.
  unfold has_key, columns. induction r as [|[k0 v0] r IH]; simpl.
  - reflexivity.
  - destruct (Py.text_eqb k0 k); simpl; [reflexivity | exact IH].
Qed.

Lemma has_key_lookup (k : text) (r : record) :
  has_key k r = true -> exists v, lookup k r = Some v.
Proof. unfold has_key. destruct (lookup k r); [eauto | discriminate]. Qed.

Lemma has_key_false (k : text) (r : record) :
  has_key k r = false -> lookup k r = None.
Proof. unfold has_key. destruct (lookup k r); [discriminate | reflexivity]. Qed.

(** ** The merger *)

Lemma absorb_same_but_rss (job b : record) : same_but_rss (absorb job b) job.
Proof.
  unfold absorb, fillInJob, getitem.
  destruct (has_key "MaxRSS" job) eqn:H; [|split; reflexivity].
  destruct (lookup "MaxRSS" b); simpl; [|split; reflexivity].
  split.
  - apply columns_setitem. exact H.
  - intros k N. apply lookup_setitem_neq. exact N.
Qed.

Lemma absorb_carries (job b : record) :
  columns job = columns b ->
  lookup "MaxRSS" (absorb job b) = lookup "MaxRSS" b.
Proof.
  intros C. unfold absorb, fillInJob, getitem.
  destruct (has_key "MaxRSS" job) eqn:H.
  - assert (Hb : has_key "MaxRSS" b = true)
      by (rewrite has_key_columns, <- C, <- has_key_columns; exact H).
    apply has_key_lookup in Hb as [v Hb]. rewrite Hb. simpl.
    apply lookup_setitem_eq.
  - assert (Hb : has_key "MaxRSS" b = false)
      by (rewrite has_key_columns, <- C, <- has_key_columns; exact H).
    rewrite (has_key_false _ _ H), (has_key_false _ _ Hb). reflexivity.
Qed.

Lemma fillInJob_ok (job b : record) :
  columns job = columns b -> fillInJob job b = Ok (absorb job b).
Proof.
  intros C. unfold absorb, fillInJob, getitem.
  destruct (has_key "MaxRSS" job) eqn:H; [|reflexivity].
  assert (Hb : has_key "MaxRSS" b = true)
    by (rewrite has_key_columns, <- C, <- has_key_columns; exact H).
  apply has_key_lookup in Hb as [v Hb]. rewrite Hb. reflexivity.
Qed.

Lemma jobid_getitem (r : record) (id : text) :
  jobid r = Some id -> getitem r "JobID" = Ok (Str id).
Proof.
  unfold jobid, getitem. destruct (lookup "JobID" r) as [[s|z]|];
    congruence.
Qed.

Lemma merge_loop_cons (fromId : option Z) (st : merge_state)
  (line : record) (rest : list record) :
  merge_loop fromId st (line :: rest) =
  match merge_line fromId st line with
  | (out, Ok st') =>
      let (out', r) := merge_loop fromId st' rest in (out ++ out', r)
  | (out, Raise e) => (out, Raise e)
  end.
Proof. reflexivity. Qed.

(** An unmarked record opens a new current job and flushes the one before. *)
Lemma merge_line_job (st : merge_state) (line : record) (id : text) :
  jobid line = Some id -> Py.contains id ".batch" = false ->
  merge_line None st line = ([], Ok (MergeState (Some line) (flush st))).
Proof.
  intros Hid Hb. unfold merge_line. simpl below_fromId.
  rewrite (jobid_getitem line id Hid). rewrite Hb. reflexivity.
Qed.

(** A batch record that matches the current job is folded into it. *)
Lemma merge_line_batch (st : merge_state) (line job : record) (id jid : text) :
  jobid line = Some id -> Py.contains id ".batch" = true ->
  idjob st = Some job -> jobid job = Some jid ->
  jid = Py.replace id ".batch" "" ->
  columns job = columns line ->
  merge_line None st line =
  ([], Ok (MergeState None (sacct_mrg st ++ [absorb job line]))).
Proof.
  intros Hid Hb Hjob Hjid E C. unfold merge_line. simpl below_fromId.
  rewrite (jobid_getitem line id Hid). rewrite Hb. simpl negb. cbv iota.
  rewrite Hjob. rewrite (jobid_getitem job jid Hjid).
  replace (value_eqb (Str jid) (Str (Py.replace id ".batch" ""))) with true
    by (symmetry; apply value_eqb_eq; congruence).
  rewrite (fillInJob_ok job line C). reflexivity.
Qed.

(** The loop invariant of the merge on a well-formed sequence. *)
Lemma merge_loop_well_batched (cols : list text) (recs : list record) :
  forall st : merge_state,
  Forall (fun r => columns r = cols) recs ->
  (forall j, idjob st = Some j -> columns j = cols) ->
  well_batched (idjob st) recs = true ->
  exists st', merge_loop None st recs = ([], Ok st')
              /\ flush st' = sacct_mrg st ++ merged_jobs (idjob st) recs.
Proof.
  induction recs as [|r rest IH]; intros st Hc Hj Hw.
  - exists st. split; [reflexivity|]. unfold flush. simpl.
    destruct (idjob st); simpl; [reflexivity | rewrite app_nil_r; reflexivity].
  - inversion Hc as [|? ? Hr Hrest]; subst.
    rewrite merge_loop_cons.
    change (well_batched (idjob st) (r :: rest)) with
      (match jobid r with
       | None => false
       | Some id =>
           if Py.contains id ".batch" then
             match idjob st with
             | Some job =>
                 match jobid job with
                 | Some jid => Py.text_eqb jid (Py.replace id ".batch" "")
                 | None => false
                 end && well_batched None rest
             | None => false
             end
           else well_batched (Some r) rest
       end) in Hw.
    change (merged_jobs (idjob st) (r :: rest)) with
      (if batch_marked r then
         match idjob st with
         | Some job => absorb job r :: merged_jobs None rest
         | None => merged_jobs None rest
         end
       else option_list (idjob st) ++ merged_jobs (Some r) rest).
    unfold batch_marked.
    destruct (jobid r) as [id|] eqn:Hid; [|discriminate].
    destruct (Py.contains id ".batch") eqn:Hb.
    + destruct (idjob st) as [job|] eqn:Hjob; [|discriminate].
      destruct (jobid job) as [jid|] eqn:Hjid; [|discriminate].
      apply andb_true_iff in Hw as [Hm Hw]. apply text_eqb_eq in Hm.
      assert (Cj : columns job = columns r)
        by (rewrite (Hj job eq_refl); reflexivity).
      rewrite (merge_line_batch st r job id jid Hid Hb Hjob Hjid Hm Cj).
      destruct (IH (MergeState None (sacct_mrg st ++ [absorb job r])))
        as [st' [E F]]; [exact Hrest | intros j; discriminate | exact Hw |].
      exists st'. rewrite E. split; [reflexivity|].
      rewrite F. simpl. rewrite <- app_assoc. reflexivity.
    + rewrite (merge_line_job st r id Hid Hb).
      destruct (IH (MergeState (Some r) (flush st)))
        as [st' [E F]]; [exact Hrest | | exact Hw |].
      { simpl. intros j [= <-]. reflexivity. }
      exists st'. rewrite E. split; [reflexivity|].
      rewrite F. simpl. unfold flush.
      destruct (idjob st); simpl; rewrite <- ?app_assoc; reflexivity.
Qed.

Lemma same_but_rss_refl (r : record) : same_but_rss r r.
Proof. split; reflexivity. Qed.

Lemma Forall2_same_refl (l : list record) : Forall2 same_but_rss l l.
Proof. induction l; constructor; auto using same_but_rss_refl. Qed.

Lemma unmarked_filter_cons (r : record) (rest : list record) :
  filter unmarked (r :: rest) =
  if batch_marked r then filter unmarked rest else r :: filter unmarked rest.
Proof. unfold unmarked. simpl. destruct (batch_marked r); reflexivity. Qed.

Lemma well_batched_cons (prev : option record) (r : record)
  (rest : list record) :
  well_batched prev (r :: rest) = true ->
  if batch_marked r
  then (exists job, prev = Some job) /\ well_batched None rest = true
  else well_batched (Some r) rest = true.
Proof.
  change (well_batched prev (r :: rest)) with
    (match jobid r with
     | None => false
     | Some id =>
         if Py.contains id ".batch" then
           match prev with
           | Some job =>
               match jobid job with
               | Some jid => Py.text_eqb jid (Py.replace id ".batch" "")
               | None => false
               end && well_batched None rest
           | None => false
           end
         else well_batched (Some r) rest
     end).
  unfold batch_marked. destruct (jobid r) as [id|]; [|discriminate].
  destruct (Py.contains id ".batch"); [|auto].
  destruct prev as [job|]; [|discriminate].
  intros H. apply andb_true_iff in H as [_ H]. eauto.
Qed.

Lemma merged_jobs_cons (prev : option record) (r : record)
  (rest : list record) :
  merged_jobs prev (r :: rest) =
  if batch_marked r then
    match prev with
    | Some job => absorb job r :: merged_jobs None rest
    | None => merged_jobs None rest
    end
  else option_list prev ++ merged_jobs (Some r) rest.
Proof. reflexivity. Qed.

(** One output record per unmarked record, in the order of the input. *)
Lemma merged_jobs_view (recs : list record) :
  forall prev : option record,
  well_batched prev recs = true ->
  Forall2 same_but_rss (merged_jobs prev recs)
          (option_list prev ++ filter unmarked recs).
Proof.
  induction recs as [|r rest IH]; intros prev Hw.
  - simpl. rewrite app_nil_r. apply Forall2_same_refl.
  - apply well_batched_cons in Hw.
    rewrite merged_jobs_cons, unmarked_filter_cons.
    destruct (batch_marked r).
    + destruct Hw as [[job ->] Hw]. simpl. constructor.
      * apply absorb_same_but_rss.
      * apply (IH None Hw).
    + apply Forall2_app; [apply Forall2_same_refl|].
      apply (IH (Some r) Hw).
Qed.

(** A job record followed by its batch record comes out with the memory
    usage of the batch record. *)
Lemma merged_jobs_absorbed (pre : list record) (job b : record)
  (post : list record) :
  forall prev : option record,
  well_batched prev (pre ++ job :: b :: post) = true ->
  batch_marked b = true ->
  nth_error (merged_jobs prev (pre ++ job :: b :: post))
            (List.length (option_list prev)
             + List.length (filter unmarked pre))
  = Some (absorb job b).
Proof.
  intros prev Hw Hb. revert prev Hw.
  induction pre as [|x pre IH]; intros prev Hw.
  - simpl app in *. apply well_batched_cons in Hw.
    rewrite merged_jobs_cons.
    destruct (batch_marked job) eqn:Hj.
    + destruct Hw as [_ Hw]. apply well_batched_cons in Hw.
      rewrite Hb in Hw. destruct Hw as [[? [=]] _].
    + rewrite merged_jobs_cons, Hb. simpl. rewrite Nat.add_0_r.
      rewrite nth_error_app2 by lia. rewrite Nat.sub_diag. reflexivity.
  - change ((x :: pre) ++ job :: b :: post)
      with (x :: pre ++ job :: b :: post) in *.
    apply well_batched_cons in Hw.
    rewrite merged_jobs_cons, unmarked_filter_cons.
    destruct (batch_marked x).
    + destruct Hw as [[j ->] Hw]. simpl.
      apply (IH None Hw).
    + rewrite nth_error_app2 by lia.
      replace (List.length (option_list prev)
               + List.length (x :: filter unmarked pre)
               - List.length (option_list prev))%nat
        with (List.length (option_list (Some x))
              + List.length (filter unmarked pre))%nat
        by (simpl; lia).
      apply (IH (Some x) Hw).
Qed.

(** A job record with no batch record after it comes out as it is. *)
Lemma merged_jobs_untouched (pre : list record) (job : record)
  (post : list record) :
  forall prev : option record,
  well_batched prev (pre ++ job :: post) = true ->
  batch_marked job = false ->
  match post with [] => true | n :: _ => unmarked n end = true ->
  nth_error (merged_jobs prev (pre ++ job :: post))
            (List.length (option_list prev)
             + List.length (filter unmarked pre))
  = Some job.
Proof.
  intros prev Hw Hj Hn. revert prev Hw.
  induction pre as [|x pre IH]; intros prev Hw.
  - simpl app in *. rewrite merged_jobs_cons, Hj. simpl.
    rewrite Nat.add_0_r.
    rewrite nth_error_app2 by lia. rewrite Nat.sub_diag.
    destruct post as [|n post]; [reflexivity|].
    rewrite merged_jobs_cons. unfold unmarked in Hn.
    destruct (batch_marked n); [discriminate|]. reflexivity.
  - change ((x :: pre) ++ job :: post) with (x :: pre ++ job :: post) in *.
    apply well_batched_cons in Hw.
    rewrite merged_jobs_cons, unmarked_filter_cons.
    destruct (batch_marked x).
    + destruct Hw as [[j ->] Hw]. simpl.
      apply (IH None Hw).
    + rewrite nth_error_app2 by lia.
      replace (List.length (option_list prev)
               + List.length (x :: filter unmarked pre)
               - List.length (option_list prev))%nat
        with (List.length (option_list (Some x))
              + List.length (filter unmarked pre))%nat
        by (simpl; lia).
      apply (IH (Some x) Hw).
Qed.

(** C2. On a sequence of records with the same columns, where every
    batch-marked record comes right after the unmarked record whose
    identifier is its own without the marker, and with no [fromId] filter,
    the merge prints nothing and returns one record per unmarked input
    record, in the order of the input, each equal to that record but for
    [MaxRSS]; a job record followed by a batch record carries the [MaxRSS]
    of the batch record, and any other job record is returned as it is. *)
Theorem merge_well_batched (cols : list text) (recs : list record) :
  Forall (fun r => columns r = cols) recs ->
  well_batched None recs = true ->
  exists out : list record,
    merge None recs = ([], Ok out)
    /\ List.length out = List.length (filter unmarked recs)
    /\ Forall2 same_but_rss out (filter unmarked recs)
    /\ (forall pre job b post,
          recs = pre ++ job :: b :: post -> batch_marked b = true ->
          exists o,
            nth_error out (List.length (filter unmarked pre)) = Some o
            /\ same_but_rss o job
            /\ lookup "MaxRSS" o = lookup "MaxRSS" b)
    /\ (forall pre job post,
          recs = pre ++ job :: post -> batch_marked job = false ->
          match post with [] => true | n :: _ => unmarked n end = true ->
          nth_error out (List.length (filter unmarked pre)) = Some job).
Proof.
  intros Hc Hw.
  destruct (merge_loop_well_batched cols recs (MergeState None []) Hc)
    as [st' [E F]]; [intros j; discriminate | exact Hw |].
  simpl in F. exists (merged_jobs None recs). unfold merge. rewrite E, F.
  split; [reflexivity|].
  pose proof (merged_jobs_view recs None Hw) as V. simpl in V.
  split; [apply (Forall2_length V)|]. split; [exact V|]. split.
  - intros pre job b post -> Hb.
    exists (absorb job b).
    split; [apply (merged_jobs_absorbed pre job b post None Hw Hb)|].
    split; [apply absorb_same_but_rss|].
    apply absorb_carries.
    rewrite Forall_forall in Hc.
    rewrite (Hc job), (Hc b); [reflexivity | |];
      apply in_or_app; right; simpl; auto.
  - intros pre job post -> Hj Hn.
    apply (merged_jobs_untouched pre job post None Hw Hj Hn).
Qed.

Lemma merge_well_batched_witness :
  exists out : list record,
    merge None [job_record "1" "a" (Str "."); job_record "1.batch" "batch" (Int 5);
                job_record "2" "b" (Str ".")]
    = ([], Ok out)
    /\ List.length out = 2%nat.
Proof.
  destruct (merge_well_batched
              ["JobID" : text; "JobName" : text; "MaxRSS" : text]
              [job_record "1" "a" (Str "."); job_record "1.batch" "batch" (Int 5);
               job_record "2" "b" (Str ".")])
    as [out [E [L _]]].
  - repeat constructor.
  - reflexivity.
  - exists out. split; [exact E | exact L].
Defined.

Lemma merge_loop_app (fromId : option Z) (pre post : list record) :
  forall st st' out,
  merge_loop fromId st pre = (out, Ok st') ->
  merge_loop fromId st (pre ++ post) =
  let (out', r) := merge_loop fromId st' post in (out ++ out', r).
Proof.
  induction pre as [|x pre IH]; intros st st' out H.
  - simpl in H. injection H as <- <-. simpl.
    destruct (merge_loop fromId st post). reflexivity.
  - change ((x :: pre) ++ post) with (x :: pre ++ post).
    rewrite merge_loop_cons in *.
    destruct (merge_line fromId st x) as [o1 [st1|e]]; [|discriminate].
    destruct (merge_loop fromId st1 pre) as [o2 [st2|e]] eqn:E2;
      [|discriminate].
    injection H as <- <-.
    rewrite (IH st1 st2 o2 E2).
    destruct (merge_loop fromId st2 post). rewrite app_assoc. reflexivity.
Qed.

(** A batch record that does not match the current job: the two records
    are printed, the exception is raised, and what follows is not read. *)
Lemma merge_mismatch_aborts (pre post : list record) (line job : record)
  (id jid : text) (st : merge_state) :
  merge_loop None (MergeState None []) pre = ([], Ok st) ->
  idjob st = Some job -> jobid job = Some jid ->
  jobid line = Some id -> Py.contains id ".batch" = true ->
  jid <> Py.replace id ".batch" "" ->
  merge None (pre ++ line :: post)
  = ([job; line], Raise (Exception "Cannot find job id")).
Proof.
  intros Hpre Hjob Hjid Hid Hb Hne. unfold merge.
  rewrite (merge_loop_app None pre (line :: post) _ st [] Hpre).
  rewrite merge_loop_cons. unfold merge_line. simpl below_fromId.
  rewrite (jobid_getitem line id Hid). rewrite Hb. simpl negb. cbv iota.
  rewrite Hjob. rewrite (jobid_getitem job jid Hjid).
  replace (value_eqb (Str jid) (Str (Py.replace id ".batch" ""))) with false.
  - reflexivity.
  - symmetry. simpl. apply text_eqb_neq. exact Hne.
Qed.

(** A batch record met while there is no current job: nothing is printed,
    and the exception is the one of subscripting [None]. *)
Lemma merge_orphan_aborts (pre post : list record) (line : record)
  (id : text) (st : merge_state) :
  merge_loop None (MergeState None []) pre = ([], Ok st) ->
  idjob st = None ->
  jobid line = Some id -> Py.contains id ".batch" = true ->
  merge None (pre ++ line :: post) = ([], Raise TypeError).
Proof.
  intros Hpre Hjob Hid Hb. unfold merge.
  rewrite (merge_loop_app None pre (line :: post) _ st [] Hpre).
  rewrite merge_loop_cons. unfold merge_line. simpl below_fromId.
  rewrite (jobid_getitem line id Hid). rewrite Hb. simpl negb. cbv iota.
  rewrite Hjob. reflexivity.
Qed.

(** C3. A batch record with no job record before it: the merge stops with
    the [TypeError] of [idjob['JobID']] on [None]; neither record is
    printed and the exception is not the one that reports the
    inconsistency.  With a job record of another identifier before it, the
    two records are printed and that exception is raised. *)
Theorem merge_orphan_batch_unreported :
  merge None [job_record "7.batch" "batch" (Int 5);
              job_record "8" "b" (Str ".")]
  = ([], Raise TypeError)
  /\ merge None [job_record "6" "a" (Str ".");
                 job_record "7.batch" "batch" (Int 5);
                 job_record "8" "b" (Str ".")]
     = ([job_record "6" "a" (Str "."); job_record "7.batch" "batch" (Int 5)],
        Raise (Exception "Cannot find job id")).
Proof. split; reflexivity. Qed.

(** The test of the [fromId] filter on a record with a numeric identifier:
    the record is skipped when the identifier is at most the threshold. *)
Lemma below_fromId_spec (n i : Z) (line : record) (id : text) :
  jobid line = Some id -> Py.int (Py.replace id ".batch" "") = Ok i ->
  below_fromId (Some n) line = Ok (i <=? n).
Proof.
  intros Hid Hi. unfold below_fromId, bind.
  rewrite (jobid_getitem line id Hid). rewrite Hi. reflexivity.
Qed.

(** C4. With the threshold 5, the record whose identifier is 5 is skipped
    together with the one below: only identifiers strictly greater than the
    threshold are kept. *)
Theorem merge_fromId_skips_equal :
  merge (Some 5) [job_record "4" "a" (Str "."); job_record "5" "b" (Str ".");
                  job_record "6" "c" (Str ".")]
  = ([], Ok [job_record "6" "c" (Str ".")])
  /\ below_fromId (Some 5) (job_record "5" "b" (Str ".")) = Ok true.
Proof. split; reflexivity. Qed.

(** ** The order on strings and on values *)

Lemma text_ltb_irrefl (a : text) : Py.text_ltb a a = false.
Proof.
  induction a as [|x a IH]; simpl; [reflexivity|].
  rewrite Z.ltb_irrefl. exact IH.
Qed.

Lemma text_ltb_asym (a b : text) :
  Py.text_ltb a b = true -> Py.text_ltb b a = false.
Proof.
  revert b. induction a as [|x a IH]; intros [|y b]; simpl; try congruence.
  destruct (Z.ltb_spec (Py.code x) (Py.code y));
    destruct (Z.ltb_spec (Py.code y) (Py.code x));
    try congruence; try lia. apply IH.
Qed.

Lemma text_ltb_negtrans (a b c : text) :
  Py.text_ltb a b = false -> Py.text_ltb b c = false ->
  Py.text_ltb a c = false.
Proof.
  revert b c. induction a as [|x a IH]; intros [|y b] [|z c]; simpl;
    try congruence.
  destruct (Z.ltb_spec (Py.code x) (Py.code y));
    destruct (Z.ltb_spec (Py.code y) (Py.code x));
    destruct (Z.ltb_spec (Py.code y) (Py.code z));
    destruct (Z.ltb_spec (Py.code z) (Py.code y));
    destruct (Z.ltb_spec (Py.code x) (Py.code z));
    destruct (Z.ltb_spec (Py.code z) (Py.code x));
    try congruence; try lia. apply IH.
Qed.

Lemma value_ltb_irrefl (v : value) : value_ltb v v = false.
Proof. destruct v; simpl; [apply text_ltb_irrefl | apply Z.ltb_irrefl]. Qed.

Lemma value_ltb_asym (x y : value) :
  value_ltb x y = true -> value_ltb y x = false.
Proof.
  destruct x, y; simpl; try congruence.
  - apply text_ltb_asym.
  - intros H. apply Z.ltb_lt in H. apply Z.ltb_ge. lia.
Qed.

Lemma value_ltb_negtrans (t : bool) (x y z : value) :
  same_type t x -> same_type t y -> same_type t z ->
  value_ltb x y = false -> value_ltb y z = false -> value_ltb x z = false.
Proof.
  unfold same_type. destruct t, x, y, z; simpl; try congruence; intros _ _ _.
  - apply text_ltb_negtrans.
  - intros H1 H2. apply Z.ltb_ge in H1, H2. apply Z.ltb_ge. lia.
Qed.

(** ** The stable sort *)

Section StableSortFacts.

Context {K A : Type}.
Variable ltb : K -> K -> bool.
Variable P : K -> Prop.

Hypothesis ltb_asym : forall x y, ltb x y = true -> ltb y x = false.
Hypothesis ltb_negtrans :
  forall x y z, P x -> P y -> P z ->
  ltb x y = false -> ltb y z = false -> ltb x z = false.

Lemma insert_perm (x : K * A) (l : list (K * A)) :
  Permutation (x :: l) (insert ltb x l).
Proof.
  induction l as [|y l IH]; simpl; [reflexivity|].
  destruct (ltb (fst y) (fst x)); [|reflexivity].
  rewrite perm_swap. constructor. exact IH.
Qed.

Lemma stable_sort_perm (l : list (K * A)) : Permutation l (stable_sort ltb l).
Proof.
  induction l as [|x l IH]; simpl; [reflexivity|].
  rewrite <- insert_perm. constructor. exact IH.
Qed.

Lemma stable_sort_dir_perm (reverse : bool) (l : list (K * A)) :
  Permutation l (stable_sort_dir ltb reverse l).
Proof.
  destruct reverse; simpl; [|apply stable_sort_perm].
  rewrite <- Permutation_rev. rewrite <- stable_sort_perm.
  apply Permutation_rev.
Qed.

Lemma insert_sorted (x : K * A) (l : list (K * A)) :
  P (fst x) -> Forall (fun y => P (fst y)) l ->
  StronglySorted (asc ltb) l -> StronglySorted (asc ltb) (insert ltb x l).
Proof.
  intros Px Pl Hs. induction Hs as [|y l Hs IH Hy]; simpl.
  - repeat constructor.
  - inversion Pl as [|? ? Py Pl']; subst.
    destruct (ltb (fst y) (fst x)) eqn:E.
    + constructor; [apply IH; exact Pl'|].
      apply (Permutation_Forall (insert_perm x l)).
      constructor; [|exact Hy]. unfold asc. apply ltb_asym. exact E.
    + constructor; [constructor; assumption|].
      constructor; [exact E|].
      rewrite Forall_forall in *. intros z Hz. unfold asc in *.
      apply (ltb_negtrans _ (fst y)); auto.
Qed.

Lemma stable_sort_sorted (l : list (K * A)) :
  Forall (fun y => P (fst y)) l -> StronglySorted (asc ltb) (stable_sort ltb l).
Proof.
  induction l as [|x l IH]; simpl; intros Pl; [constructor|].
  inversion Pl; subst. apply insert_sorted; auto.
  apply (Permutation_Forall (stable_sort_perm l)). assumption.
Qed.

Lemma StronglySorted_app_inv (R : K * A -> K * A -> Prop) (l1 l2 : list (K * A)) :
  StronglySorted R l1 -> StronglySorted R l2 ->
  (forall a b, In a l1 -> In b l2 -> R a b) ->
  StronglySorted R (l1 ++ l2).
Proof.
  intros H1 H2 H. induction H1 as [|x l1 H1 IH Hx]; simpl; [exact H2|].
  constructor.
  - apply IH. intros a b Ha Hb. apply H; simpl; auto.
  - apply Forall_app. split; [exact Hx|].
    apply Forall_forall. intros b Hb. apply H; simpl; auto.
Qed.

Lemma StronglySorted_rev (R : K * A -> K * A -> Prop) (l : list (K * A)) :
  StronglySorted R l -> StronglySorted (fun a b => R b a) (rev l).
Proof.
  intros H. induction H as [|x l H IH Hx]; simpl; [constructor|].
  apply StronglySorted_app_inv; [exact IH | repeat constructor|].
  intros a b Ha [<- | []]. apply in_rev in Ha.
  rewrite Forall_forall in Hx. auto.
Qed.

Lemma stable_sort_dir_sorted (reverse : bool) (l : list (K * A)) :
  Forall (fun y => P (fst y)) l ->
  StronglySorted (if reverse then desc ltb else asc ltb) (stable_sort_dir ltb reverse l).
Proof.
  intros Pl. destruct reverse; simpl; [|apply stable_sort_sorted; exact Pl].
  apply (StronglySorted_rev (asc ltb)). apply stable_sort_sorted.
  apply (Permutation_Forall (Permutation_rev l)). exact Pl.
Qed.

(** Stability: the elements selected by [sel], no two of which are
    ordered by [ltb], keep their relative order. *)
Variable sel : K -> bool.
Hypothesis sel_unordered :
  forall a b, sel a = true -> sel b = true -> ltb a b = false.

Lemma insert_stable (x : K * A) (l : list (K * A)) :
  filter (fun y => sel (fst y)) (insert ltb x l)
  = filter (fun y => sel (fst y)) (x :: l).
Proof.
  induction l as [|y l IH]; [reflexivity|].
  simpl insert. destruct (ltb (fst y) (fst x)) eqn:E; [|reflexivity].
  simpl filter in *. rewrite IH.
  destruct (sel (fst y)) eqn:Sy, (sel (fst x)) eqn:Sx; try reflexivity.
  rewrite (sel_unordered _ _ Sy Sx) in E. discriminate.
Qed.

Lemma stable_sort_stable (l : list (K * A)) :
  filter (fun y => sel (fst y)) (stable_sort ltb l)
  = filter (fun y => sel (fst y)) l.
Proof.
  induction l as [|x l IH]; [reflexivity|].
  simpl stable_sort. rewrite insert_stable. simpl. rewrite IH. reflexivity.
Qed.

Lemma filter_rev {B : Type} (f : B -> bool) (l : list B) :
  filter f (rev l) = rev (filter f l).
Proof.
  induction l as [|x l IH]; [reflexivity|].
  simpl. rewrite filter_app, IH. simpl.
  destruct (f x); simpl; [reflexivity | rewrite app_nil_r; reflexivity].
Qed.

Lemma stable_sort_dir_stable (reverse : bool) (l : list (K * A)) :
  filter (fun y => sel (fst y)) (stable_sort_dir ltb reverse l)
  = filter (fun y => sel (fst y)) l.
Proof.
  destruct reverse; simpl; [|apply stable_sort_stable].
  rewrite filter_rev, stable_sort_stable, filter_rev. apply rev_involutive.
Qed.

End StableSortFacts.

(** ** [sorted] *)

Lemma mapM_getitem_ok (s : text) (recs : list record) (keys : list value) :
  mapM (fun k => getitem k s) recs = Ok keys ->
  map snd (combine keys recs) = recs
  /\ map fst (combine keys recs) = keys
  /\ Forall (keyed s) (combine keys recs).
Proof.
  revert keys. induction recs as [|r recs IH]; intros keys; simpl.
  - intros [= <-]. repeat split. constructor.
  - unfold getitem at 1. destruct (lookup s r) as [v|] eqn:E; simpl;
      [|discriminate].
    destruct (mapM (fun k => getitem k s) recs) as [ks|]; simpl;
      [|discriminate].
    intros [= <-]. destruct (IH ks eq_refl) as [H1 [H2 H3]]. simpl.
    rewrite H1, H2. repeat split. constructor; [exact E | exact H3].
Qed.

Lemma mapM_getitem_missing (s : text) (recs : list record) :
  column_missing s recs = true ->
  mapM (fun k => getitem k s) recs = Raise (KeyError s).
Proof.
  unfold column_missing. induction recs as [|r recs IH]; simpl;
    [discriminate|].
  unfold getitem at 1, has_key. destruct (lookup s r); simpl.
  - intros H. rewrite (IH H). reflexivity.
  - reflexivity.
Qed.

Lemma mapM_getitem_column (p : value -> bool) (s : text)
  (recs : list record) :
  column_is p s recs = true ->
  exists keys, mapM (fun k => getitem k s) recs = Ok keys
               /\ forallb p keys = true.
Proof.
  unfold column_is. induction recs as [|r recs IH]; simpl.
  - exists []. split; reflexivity.
  - unfold getitem at 1. destruct (lookup s r) as [v|]; [|discriminate].
    intros H. apply andb_true_iff in H as [Hv H].
    destruct (IH H) as [keys [E Hk]]. exists (v :: keys). rewrite E. simpl.
    rewrite Hv, Hk. split; reflexivity.
Qed.

Lemma comparable_same_type (keys : list value) :
  comparable keys = true -> exists t, Forall (same_type t) keys.
Proof.
  unfold comparable. intros H. apply orb_true_iff in H as [H | H].
  - exists true. apply Forall_forall. rewrite forallb_forall in H. exact H.
  - exists false. apply Forall_forall. rewrite forallb_forall in H.
    intros v Hv. apply H in Hv. unfold same_type.
    destruct (is_str v); [discriminate | reflexivity].
Qed.

Lemma StronglySorted_map_snd (s : text) (reverse : bool)
  (l : list (value * record)) :
  Forall (keyed s) l ->
  StronglySorted (if reverse then desc value_ltb else asc value_ltb) l ->
  StronglySorted (in_order s reverse) (map snd l).
Proof.
  intros Hk Hs. induction Hs as [|x l Hs IH Hx]; simpl; [constructor|].
  inversion Hk as [|? ? Kx Kl]; subst. constructor; [apply IH; exact Kl|].
  apply Forall_map. rewrite Forall_forall in *. intros y Hy.
  unfold in_order. rewrite Kx, (Kl y Hy).
  specialize (Hx y Hy). destruct reverse; exact Hx.
Qed.

Lemma filter_map_snd (s : text) (v : value) (l : list (value * record)) :
  Forall (keyed s) l ->
  filter (key_is s v) (map snd l)
  = map snd (filter (fun p => value_eqb (fst p) v) l).
Proof.
  intros Hk. induction Hk as [|x l Kx _ IH]; [reflexivity|].
  simpl. unfold key_is at 1. rewrite Kx.
  destruct (value_eqb (fst x) v); simpl; rewrite IH; reflexivity.
Qed.

(** What [sorted] returns is a permutation of the records, in order on the
    column, and leaves records of equal value in their previous order. *)
Lemma sorted_spec (recs out : list record) (s : text) (reverse : bool) :
  sorted recs s reverse = Ok out ->
  Permutation recs out
  /\ StronglySorted (in_order s reverse) out
  /\ forall v, filter (key_is s v) out = filter (key_is s v) recs.
Proof.
  unfold sorted.
  destruct (mapM (fun k => getitem k s) recs) as [keys|] eqn:E; simpl;
    [|discriminate].
  destruct (mapM_getitem_ok s recs keys E) as [H1 [H2 H3]].
  destruct (comparable keys) eqn:C; [|discriminate].
  intros [= <-].
  destruct (comparable_same_type keys C) as [t Ht].
  set (l := combine keys recs) in *.
  pose proof (stable_sort_dir_perm value_ltb reverse l) as Hp.
  assert (Hk : Forall (keyed s) (stable_sort_dir value_ltb reverse l))
    by (apply (Permutation_Forall Hp); exact H3).
  split; [|split].
  - rewrite <- H1 at 1. apply Permutation_map. exact Hp.
  - apply StronglySorted_map_snd; [exact Hk|].
    apply (stable_sort_dir_sorted value_ltb (same_type t)).
    + apply value_ltb_asym.
    + apply value_ltb_negtrans.
    + rewrite <- H2 in Ht. rewrite Forall_map in Ht. exact Ht.
  - intros v. rewrite filter_map_snd by exact Hk.
    rewrite (stable_sort_dir_stable value_ltb (fun k => value_eqb k v)).
    + rewrite <- (filter_map_snd s v l H3). rewrite H1. reflexivity.
    + intros a b Ha Hb. apply value_eqb_eq in Ha, Hb. rewrite Ha, Hb.
      apply value_ltb_irrefl.
Qed.

(** [sorted] returns when the column is there with values of one type. *)
Lemma sorted_total (recs : list record) (s : text) (reverse : bool) :
  sortable s recs = true -> exists out, sorted recs s reverse = Ok out.
Proof.
  unfold sortable, sorted. intros H. apply orb_true_iff in H as [H | H];
    destruct (mapM_getitem_column _ s recs H) as [keys [E Hk]];
    rewrite E; simpl; unfold comparable.
  - rewrite Hk. simpl. eauto.
  - unfold is_int in Hk. rewrite Hk. rewrite orb_true_r. eauto.
Qed.

Lemma sorted_missing (recs : list record) (s : text) (reverse : bool) :
  column_missing s recs = true -> sorted recs s reverse = Raise (KeyError s).
Proof.
  intros H. unfold sorted. rewrite (mapM_getitem_missing s recs H).
  reflexivity.
Qed.

(** ** The sort loop *)

Lemma sort_loop_app (a b : list text) :
  forall st : sort_state,
  sort_loop st (a ++ b) = (st' <- sort_loop st a;; sort_loop st' b).
Proof.
  induction a as [|k a IH]; intros st; simpl; [reflexivity|].
  destruct (sort_step st k) as [st1|e]; simpl; [apply IH | reflexivity].
Qed.

Lemma sorter_cons (k : text) (ks : list text) (recs : list record) :
  sorter (k :: ks) recs = (st <- sorter ks recs;; sort_step st k).
Proof.
  unfold sorter. simpl rev. rewrite sort_loop_app.
  destruct (sort_loop (recs, []) (rev ks)) as [st|e]; simpl; [|reflexivity].
  destruct (sort_step st k); reflexivity.
Qed.

Lemma sort_step_sortable (st : sort_state) (k : text) :
  sortable (snd (sort_key k)) (fst st) = true ->
  exists out,
    sort_step st k = Ok (out, snd st)
    /\ sorted (fst st) (snd (sort_key k)) (fst (sort_key k)) = Ok out.
Proof.
  intros H. unfold sort_step. destruct (sort_key k) as [reverse col].
  simpl in *. destruct (sorted_total (fst st) col reverse H) as [out E].
  rewrite E. eauto.
Qed.

Lemma sort_step_missing (st : sort_state) (k : text) :
  column_missing (snd (sort_key k)) (fst st) = true ->
  sort_step st k
  = Ok (fst st, snd st ++ [sort_warning (snd (sort_key k))]).
Proof.
  intros H. unfold sort_step. destruct (sort_key k) as [reverse col].
  simpl in *. rewrite (sorted_missing _ _ _ H). reflexivity.
Qed.

Lemma sort_step_perm (st st' : sort_state) (k : text) :
  sort_step st k = Ok st' -> Permutation (fst st) (fst st').
Proof.
  unfold sort_step. destruct (sort_key k) as [reverse col].
  destruct (sorted (fst st) col reverse) as [out|e] eqn:E.
  - intros [= <-]. simpl. apply (sorted_spec _ _ _ _ E).
  - destruct e; try discriminate. intros [= <-]. reflexivity.
Qed.

Lemma sort_loop_perm (keys : list text) :
  forall st st' : sort_state,
  sort_loop st keys = Ok st' -> Permutation (fst st) (fst st').
Proof.
  induction keys as [|k keys IH]; intros st st'; simpl.
  - intros [= <-]. reflexivity.
  - destruct (sort_step st k) as [st1|e] eqn:E; simpl; [|discriminate].
    intros H. rewrite (sort_step_perm _ _ _ E). apply (IH _ _ H).
Qed.

Lemma column_missing_perm (s : text) (l l' : list record) :
  Permutation l l' -> column_missing s l = column_missing s l'.
Proof.
  intros H. unfold column_missing.
  induction H as [|x l l' _ IH|x y l|l l' l'' _ IH1 _ IH2]; simpl;
    try congruence.
  destruct (negb (has_key s y)), (negb (has_key s x)); reflexivity.
Qed.

Lemma column_is_perm (p : value -> bool) (s : text) (l l' : list record) :
  Permutation l l' -> column_is p s l = column_is p s l'.
Proof.
  intros H. unfold column_is.
  induction H as [|x l l' _ IH|x y l|l l' l'' _ IH1 _ IH2]; simpl;
    try congruence.
  rewrite !andb_assoc. f_equal. apply andb_comm.
Qed.

Lemma sortable_perm (s : text) (l l' : list record) :
  Permutation l l' -> sortable s l = sortable s l'.
Proof.
  intros H. unfold sortable.
  rewrite (column_is_perm is_str s l l' H).
  rewrite (column_is_perm is_int s l l' H). reflexivity.
Qed.

Lemma sort_key_desc (col : text) : sort_key (col ++ "-") = (true, col).
Proof.
  unfold sort_key. change (list_ascii_of_string "-") with ["-"%char].
  rewrite endswith_snoc. rewrite char_eqb_refl.
  unfold sub_at_end. rewrite endswith_snoc, char_eqb_refl.
  rewrite length_app. simpl List.length.
  replace (List.length col + 1 - 1)%nat with (List.length col + 0)%nat by lia.
  rewrite firstn_app_2. simpl. rewrite app_nil_r. reflexivity.
Qed.

Lemma sort_key_asc (col : text) :
  Py.endswith col "-" = false -> sort_key col = (false, col).
Proof. intros H. unfold sort_key. rewrite H. reflexivity. Qed.

Lemma mapM_getitem_forallb (p : value -> bool) (s : text)
  (recs : list record) (keys : list value) :
  mapM (fun k => getitem k s) recs = Ok keys ->
  forallb p keys = column_is p s recs.
Proof.
  revert keys. unfold column_is.
  induction recs as [|r recs IH]; intros keys; cbn [mapM forallb].
  - intros [= <-]. reflexivity.
  - unfold getitem at 1. destruct (lookup s r) as [v|]; [|discriminate].
    cbn [bind].
    destruct (mapM (fun k => getitem k s) recs) as [ks|]; [|discriminate].
    cbn [bind]. intros [= <-]. cbn [forallb]. rewrite (IH ks eq_refl).
    reflexivity.
Qed.

Lemma mapM_getitem_present (s : text) (recs : list record) :
  column_missing s recs = false ->
  exists keys, mapM (fun k => getitem k s) recs = Ok keys.
Proof.
  unfold column_missing. induction recs as [|r recs IH]; cbn [existsb mapM].
  - eauto.
  - intros H. apply orb_false_iff in H as [Hr H].
    destruct (IH H) as [keys E]. rewrite E.
    unfold getitem, has_key in *. destruct (lookup s r); [|discriminate].
    cbn [bind]. eauto.
Qed.

Lemma comparable_sortable (s : text) (recs : list record) (keys : list value) :
  mapM (fun k => getitem k s) recs = Ok keys ->
  comparable keys = sortable s recs.
Proof.
  intros H. unfold comparable, sortable, is_int.
  rewrite (mapM_getitem_forallb is_str s recs keys H).
  rewrite (mapM_getitem_forallb (fun v => negb (is_str v)) s recs keys H).
  reflexivity.
Qed.

(** [sorted] raises [KeyError] only for a missing column. *)
Lemma sorted_present (recs : list record) (s : text) (reverse : bool) :
  column_missing s recs = false ->
  (sortable s recs = true /\ exists out, sorted recs s reverse = Ok out)
  \/ (sortable s recs = false /\ sorted recs s reverse = Raise TypeError).
Proof.
  intros H. destruct (mapM_getitem_present s recs H) as [keys E].
  unfold sorted. rewrite E. cbn [bind].
  rewrite (comparable_sortable s recs keys E).
  destruct (sortable s recs); [left | right]; eauto.
Qed.

(** C6, as amended.  The sorter applies the declared keys in the reverse
    of their order, so that the first one is applied last and is dominant.
    A key can be applied when every record has its column with values of
    one type, all strings or all integers; a key whose column a record
    lacks is passed over.  When every key declared after a key [k] is of
    one of these two kinds, these keys leave records [mid], a permutation
    of those given; and when [k] can be applied, it gives a permutation of
    [mid] that is in order on the values of its column (descending when
    the key ends with [-]) and in which the records of equal value keep
    the order they have in [mid].  The values are compared as they are
    stored: strings as strings, the integers of the memory columns as
    integers.  When every record has the column of [k] and it holds strings
    beside integers, as a memory column does where the reader left the
    placeholder beside integers, the sorter raises [TypeError].  The
    records of ids 3, 1, 2 come out as 1, 2, 3 for [id] and as 3, 2, 1 for
    [id-]. *)
Theorem sorter_stable_composition :
  (forall recs, sorter [] recs = Ok (recs, []))
  /\ (forall k ks recs,
        sorter (k :: ks) recs = (st <- sorter ks recs;; sort_step st k))
  /\ (forall ks recs,
        Forall (fun k => column_missing (snd (sort_key k)) recs = true
                         \/ sortable (snd (sort_key k)) recs = true) ks ->
        exists mid err,
          sorter ks recs = Ok (mid, err) /\ Permutation recs mid)
  /\ (forall k ks recs mid err,
        sorter ks recs = Ok (mid, err) ->
        sortable (snd (sort_key k)) recs = true ->
        exists out,
          sorter (k :: ks) recs = Ok (out, err)
          /\ Permutation recs out
          /\ StronglySorted
               (in_order (snd (sort_key k)) (fst (sort_key k))) out
          /\ forall v, filter (key_is (snd (sort_key k)) v) out
                       = filter (key_is (snd (sort_key k)) v) mid)
  /\ (forall k ks recs mid err,
        sorter ks recs = Ok (mid, err) ->
        column_missing (snd (sort_key k)) recs = false ->
        sortable (snd (sort_key k)) recs = false ->
        sorter (k :: ks) recs = Raise TypeError)
  /\ (forall col, sort_key (col ++ "-") = (true, col))
  /\ (forall col, Py.endswith col "-" = false -> sort_key col = (false, col))
  /\ sorter ["id" : text] [id_record "3"; id_record "1"; id_record "2"]
     = Ok ([id_record "1"; id_record "2"; id_record "3"], [])
  /\ sorter ["id-" : text] [id_record "3"; id_record "1"; id_record "2"]
     = Ok ([id_record "3"; id_record "2"; id_record "1"], [])
  /\ sorter ["MaxRSS" : text]
       [job_record "1" "a" (Int 10); job_record "2" "b" (Str ".")]
     = Raise TypeError.
Proof.
  split; [reflexivity|]. split; [apply sorter_cons|].
  split; [|split; [|split; [|split; [apply sort_key_desc|
                                     split; [apply sort_key_asc|]]]]].
  - intros ks recs H. induction H as [|k ks Hk _ [mid [err [E P]]]].
    + exists recs, []. split; [reflexivity | apply Permutation_refl].
    + rewrite sorter_cons, E. cbn [bind]. destruct Hk as [Hm | Hs].
      * rewrite (column_missing_perm _ _ _ P) in Hm.
        rewrite (sort_step_missing (mid, err) k Hm).
        eexists. eexists. split; [reflexivity | exact P].
      * rewrite (sortable_perm _ _ _ P) in Hs.
        destruct (sort_step_sortable (mid, err) k Hs) as [out [E1 E2]].
        rewrite E1. exists out, err. split; [reflexivity|].
        rewrite P. apply (sorted_spec _ _ _ _ E2).
  - intros k ks recs mid err Hmid Hs.
    pose proof (sort_loop_perm _ _ _ Hmid) as Hp. simpl in Hp.
    rewrite (sortable_perm _ _ _ Hp) in Hs.
    destruct (sort_step_sortable (mid, err) k Hs) as [out [E1 E2]].
    exists out. rewrite sorter_cons, Hmid. simpl bind.
    split; [exact E1|].
    destruct (sorted_spec _ _ _ _ E2) as [P1 [P2 P3]]. simpl in *.
    split; [rewrite Hp; exact P1|]. split; [exact P2 | exact P3].
  - intros k ks recs mid err Hmid Hm Hs.
    pose proof (sort_loop_perm _ _ _ Hmid) as Hp. cbn [fst] in Hp.
    rewrite (column_missing_perm _ _ _ Hp) in Hm.
    rewrite (sortable_perm _ _ _ Hp) in Hs.
    rewrite sorter_cons, Hmid. cbn [bind]. unfold sort_step.
    destruct (sort_key k) as [reverse col]. cbn [snd fst] in *.
    destruct (sorted_present mid col reverse Hm) as [[S' _] | [_ E]];
      [congruence|].
    rewrite E. reflexivity.
  - repeat split; reflexivity.
Qed.

Lemma sorter_stable_composition_witness :
  (exists out,
     sorter ["JobName-" : text; "JobID" : text]
       [job_record "3" "a" (Int 10); job_record "1" "b" (Int 9);
        job_record "2" "a" (Int 9)]
     = Ok (out, [])
     /\ StronglySorted (in_order "JobName" true) out)
  /\ (exists mid err,
        sorter ["Nope" : text; "JobID" : text]
          [job_record "3" "a" (Int 10); job_record "1" "b" (Int 9)]
        = Ok (mid, err))
  /\ sorter ["MaxRSS" : text; "JobID" : text]
       [job_record "3" "a" (Int 10); job_record "1" "b" (Str ".")]
     = Raise TypeError
  /\ sort_key "JobID" = (false, list_ascii_of_string "JobID").
Proof.
  destruct sorter_stable_composition as [_ [_ [G [H [T [_ [A _]]]]]]].
  split; [|split; [|split]].
  - destruct (H ("JobName-" : text) ["JobID" : text]
                [job_record "3" "a" (Int 10); job_record "1" "b" (Int 9);
                 job_record "2" "a" (Int 9)]
                [job_record "1" "b" (Int 9); job_record "2" "a" (Int 9);
                 job_record "3" "a" (Int 10)]
                [] eq_refl eq_refl) as [out [E [_ [S _]]]].
    exists out. split; [exact E | exact S].
  - destruct (G ["Nope" : text; "JobID" : text]
                [job_record "3" "a" (Int 10); job_record "1" "b" (Int 9)])
      as [mid [err [E _]]].
    + constructor; [left; reflexivity|].
      constructor; [right; reflexivity | constructor].
    + exists mid, err. exact E.
  - apply (T ("MaxRSS" : text) ["JobID" : text]
             [job_record "3" "a" (Int 10); job_record "1" "b" (Str ".")]
             [job_record "1" "b" (Str "."); job_record "3" "a" (Int 10)]
             []); reflexivity.
  - apply (A "JobID"). reflexivity.
Defined.

(** The sort is on the stored value, not on its string: the integers 10
    and 9 of a memory column come out as 9, 10, while as strings ["10"]
    stands before ["9"]. *)
Lemma sorter_not_on_string_value :
  let recs := [job_record "1" "a" (Int 10); job_record "2" "b" (Int 9)] in
  sorter ["MaxRSS" : text] recs
  = Ok ([job_record "2" "b" (Int 9); job_record "1" "a" (Int 10)], [])
  /\ sorted_on_str recs "MaxRSS" false = recs
  /\ sorter ["MaxRSS" : text] recs
     <> Ok (sorted_on_str recs "MaxRSS" false, []).
Proof. repeat split. discriminate. Qed.

(** C7. A sort key whose column is missing from a record of a non-empty
    record list: its step writes the warning, which names the key, and
    leaves the records as the keys applied before it (those declared after
    it) left them; the keys declared before it are then applied to these
    records. *)
Theorem sort_unknown_key_skipped (declared_before declared_after : list text)
  (s : text) (recs : list record) :
  column_missing (snd (sort_key s)) recs = true ->
  sorter (declared_before ++ s :: declared_after) recs
  = (st <- sorter declared_after recs;;
     sort_loop (fst st, snd st ++ [sort_warning (snd (sort_key s))])
               (rev declared_before))
  /\ (forall err,
        sort_step (recs, err) s
        = Ok (recs, err ++ [sort_warning (snd (sort_key s))]))
  /\ sort_warning (snd (sort_key s))
     = newline ++ "Sort key " ++ snd (sort_key s) ++ " not found"
       ++ newline ++ newline.
Proof.
  intros H. split; [|split; [|reflexivity]].
  - unfold sorter. rewrite rev_app_distr. simpl rev. rewrite <- app_assoc.
    simpl app. rewrite sort_loop_app.
    destruct (sort_loop (recs, []) (rev declared_after)) as [st|e] eqn:E;
      simpl bind; [|reflexivity].
    pose proof (sort_loop_perm _ _ _ E) as Hp. simpl in Hp.
    rewrite (column_missing_perm _ _ _ Hp) in H.
    simpl sort_loop. rewrite (sort_step_missing st s H). reflexivity.
  - intros err. apply (sort_step_missing (recs, err) s H).
Qed.

Lemma sort_unknown_key_skipped_witness :
  sorter ["JobName" : text; "Nope-" : text; "JobID-" : text]
    [job_record "3" "a" (Int 10); job_record "1" "b" (Int 9);
     job_record "2" "a" (Int 9)]
  = Ok ([job_record "3" "a" (Int 10); job_record "2" "a" (Int 9);
         job_record "1" "b" (Int 9)],
        [sort_warning "Nope"]).
Proof.
  destruct (sort_unknown_key_skipped ["JobName" : text] ["JobID-" : text]
              ("Nope-" : text)
              [job_record "3" "a" (Int 10); job_record "1" "b" (Int 9);
               job_record "2" "a" (Int 9)] eq_refl) as [E _].
  exact (eq_trans E eq_refl).
Defined.

(** ** Column widths *)

Lemma strip_ansi_colorize (v : value) :
  strip_ansi (str (colorize_one v)) = strip_ansi (str v).
Proof.
  unfold colorize_one.
  destruct (value_eqb v (Str "FAILED")) eqn:E1;
    [apply value_eqb_eq in E1; subst; reflexivity|].
  destruct (value_eqb v (Str "COMPLETED")) eqn:E2;
    [apply value_eqb_eq in E2; subst; reflexivity|].
  destruct (value_eqb v (Str "RUNNING")) eqn:E3;
    [apply value_eqb_eq in E3; subst; reflexivity|].
  reflexivity.
Qed.

Lemma printable_colorize (h : text) (v : value) :
  printable h (colorize_one v) = printable h v.
Proof. unfold printable. rewrite strip_ansi_colorize. reflexivity. Qed.

Lemma measure_line_colorize (header : list text) (values : list value) :
  forall widths,
  measure_line header (colorize values) widths
  = measure_line header values widths.
Proof.
  revert header. induction values as [|v values IH]; intros header widths;
    [reflexivity|].
  destruct header as [|h header], widths as [|w widths]; try reflexivity.
  simpl. rewrite IH, printable_colorize. reflexivity.
Qed.

Lemma measure_lines_color (header : list text) (data : list record) :
  forall widths,
  measure_lines header false data widths
  = measure_lines header true data widths.
Proof.
  induction data as [|line data IH]; intros widths; [reflexivity|].
  simpl. rewrite measure_line_colorize.
  destruct (negb _); [reflexivity|].
  destruct (measure_line header (values line) _); simpl; [apply IH|].
  reflexivity.
Qed.

Lemma max_ltb (w n : nat) : (if (w <? n)%nat then n else w) = Nat.max w n.
Proof. destruct (Nat.ltb_spec w n); lia. Qed.

Lemma measure_line_widen (header : list text) :
  forall values widths,
  List.length values = List.length header ->
  List.length widths = List.length header ->
  measure_line header values widths = Ok (widen header values widths)
  /\ List.length (widen header values widths) = List.length header.
Proof.
  induction header as [|h header IH]; intros [|v values] [|w widths];
    simpl; try discriminate; intros Hv Hw.
  - split; reflexivity.
  - injection Hv as Hv. injection Hw as Hw.
    destruct (IH values widths Hv Hw) as [E L]. rewrite E, L. simpl.
    rewrite max_ltb. split; reflexivity.
Qed.

Lemma measure_lines_widen (header : list text) (data : list record) :
  forall widths,
  Forall (fun r : record => List.length r = List.length header) data ->
  List.length widths = List.length header ->
  measure_lines header true data widths
  = Ok (fold_left (fun ws line => widen header (values line) ws) data widths).
Proof.
  induction data as [|line data IH]; intros widths Hd Hw; [reflexivity|].
  inversion Hd as [|? ? Hl Hd']; subst. simpl measure_lines.
  assert (Hv : List.length (values line) = List.length header)
    by (unfold values; rewrite length_map; exact Hl).
  assert (E0 : (if (List.length widths =? 0)%nat
                then repeat O (List.length line) else widths) = widths).
  { destruct (Nat.eqb_spec (List.length widths) 0) as [Z|Z]; [|reflexivity].
    rewrite Hl, <- Hw, Z. destruct widths; [reflexivity | discriminate]. }
  rewrite E0. rewrite Hw, Hl, Nat.eqb_refl. simpl negb. cbv iota.
  destruct (measure_line_widen header (values line) widths Hv Hw) as [E L].
  rewrite E. simpl bind. apply IH; assumption.
Qed.

Lemma nth_error_widen (header : list text) :
  forall values widths i h,
  List.length values = List.length header ->
  List.length widths = List.length header ->
  nth_error header i = Some h ->
  nth_error (widen header values widths) i
  = Some (Nat.max (nth i widths O) (cell i h values)).
Proof.
  induction header as [|h0 header IH]; intros [|v values] [|w widths] i h;
    try discriminate; intros Hv Hw Hi.
  - destruct i; discriminate.
  - injection Hv as Hv. injection Hw as Hw. destruct i as [|i].
    + injection Hi as <-. reflexivity.
    + simpl in Hi. simpl widen. simpl nth_error. unfold cell. simpl.
      apply (IH values widths i h Hv Hw Hi).
Qed.

Lemma nth_error_fold_widen (header : list text) (lines : list record) :
  forall widths i h,
  Forall (fun r : record => List.length r = List.length header) lines ->
  List.length widths = List.length header ->
  nth_error header i = Some h ->
  nth_error (fold_left (fun ws line => widen header (values line) ws)
                       lines widths) i
  = Some (Nat.max (nth i widths O)
                  (list_max (map (fun r => cell i h (values r)) lines))).
Proof.
  induction lines as [|line lines IH]; intros widths i h Hd Hw Hi.
  - simpl. rewrite Nat.max_0_r. apply nth_error_nth'.
    rewrite Hw. apply nth_error_Some. congruence.
  - inversion Hd as [|? ? Hl Hd']; subst. simpl fold_left.
    assert (Hv : List.length (values line) = List.length header)
      by (unfold values; rewrite length_map; exact Hl).
    destruct (measure_line_widen header (values line) widths Hv Hw)
      as [_ L].
    rewrite (IH _ i h Hd' L Hi).
    rewrite (nth_error_nth _ _ O (nth_error_widen header _ _ i h Hv Hw Hi)).
    simpl. rewrite Nat.max_assoc. reflexivity.
Qed.

Lemma lookup_fresh (k : text) (l : list text) :
  ~ In k l -> lookup k (map (fun x => (x, Str x)) l) = None.
Proof.
  induction l as [|x l IH]; simpl; [reflexivity|]. intros H.
  destruct (Py.text_eqb x k) eqn:E.
  - apply text_eqb_eq in E. exfalso. auto.
  - apply IH. auto.
Qed.

Lemma setitem_fresh (r : record) (k : text) (v : value) :
  lookup k r = None -> setitem r k v = r ++ [(k, v)].
Proof.
  induction r as [|[k0 v0] r IH]; simpl; [reflexivity|].
  destruct (Py.text_eqb k0 k); [discriminate|].
  intros H. rewrite IH by exact H. reflexivity.
Qed.

Lemma header_record_nodup (header : list text) :
  NoDup header -> header_record header = map (fun x => (x, Str x)) header.
Proof.
  unfold header_record. intros H.
  assert (G : forall done,
    NoDup (done ++ header) ->
    fold_left (fun hdr x => setitem hdr x (Str x)) header
              (map (fun x => (x, Str x)) done)
    = map (fun x => (x, Str x)) (done ++ header)).
  { clear H. induction header as [|x header IH]; intros done Hn; simpl.
    - rewrite app_nil_r. reflexivity.
    - rewrite setitem_fresh.
      + change [(x, Str x)] with (map (fun x => (x, Str x)) [x]).
        rewrite <- map_app. rewrite IH.
        * rewrite <- app_assoc. reflexivity.
        * rewrite <- app_assoc. exact Hn.
      + apply lookup_fresh. apply NoDup_remove_2 in Hn.
        intros Hin. apply Hn. apply in_or_app. left. exact Hin. }
  apply (G [] H).
Qed.

Lemma measure_lines_start (header : list text) (line : record)
  (data : list record) :
  List.length line = List.length header ->
  measure_lines header true (line :: data) []
  = measure_lines header true (line :: data)
      (repeat O (List.length header)).
Proof.
  intros Hl. simpl. rewrite Hl.
  destruct (List.length (repeat O (List.length header)) =? 0)%nat;
    rewrite ?repeat_length; reflexivity.
Qed.

Lemma length_fold_widen (header : list text) (lines : list record) :
  forall widths,
  Forall (fun r : record => List.length r = List.length header) lines ->
  List.length widths = List.length header ->
  List.length (fold_left (fun ws line => widen header (values line) ws)
                         lines widths)
  = List.length header.
Proof.
  induction lines as [|line lines IH]; intros widths Hd Hw; [exact Hw|].
  inversion Hd as [|? ? Hl Hd']; subst. simpl. apply IH; [exact Hd'|].
  apply measure_line_widen; [|exact Hw].
  unfold values. rewrite length_map. exact Hl.
Qed.

Lemma values_header (header : list text) :
  values (map (fun x => (x, Str x)) header) = map Str header.
Proof. unfold values. rewrite map_map. reflexivity. Qed.

(** The widths of a table whose rows have the cells of the header. *)
Lemma getColumnWidths_cells (sacct_out : list record) (header : list text)
  (space : nat) :
  NoDup header ->
  Forall (fun r : record => List.length r = List.length header) sacct_out ->
  exists widths,
    getColumnWidths sacct_out header space true = Ok widths
    /\ List.length widths = List.length header
    /\ forall i h,
         nth_error header i = Some h ->
         nth_error widths i
         = Some (list_max
                   (map (cell i h) (map Str header :: map values sacct_out))
                 + space)%nat.
Proof.
  intros Hn Hr. unfold getColumnWidths.
  pose proof (header_record_nodup header Hn) as Hh.
  assert (Hl : List.length (header_record header) = List.length header)
    by (rewrite Hh; apply length_map).
  assert (Hd : Forall (fun r : record => List.length r = List.length header)
                      (header_record header :: sacct_out))
    by (constructor; assumption).
  rewrite (measure_lines_start header _ sacct_out Hl).
  rewrite (measure_lines_widen header _ _ Hd (repeat_length _ _)).
  unfold bind. eexists. split; [reflexivity|]. split.
  + rewrite length_map.
    apply (length_fold_widen header _ _ Hd (repeat_length _ _)).
  + intros i h Hi. rewrite nth_error_map.
    rewrite (nth_error_fold_widen header _ _ i h Hd (repeat_length _ _) Hi).
    simpl option_map. rewrite nth_repeat. rewrite Nat.max_0_l.
    simpl map. rewrite Hh, values_header, map_map. reflexivity.
Qed.

(** ** Tab-separated rows *)

Lemma split_plain (c : ascii) (p : text) :
  Py.mem_char c p = false -> Py.split c p = [p].
Proof.
  unfold Py.mem_char. induction p as [|x p IH]; simpl; [reflexivity|].
  intros H. apply orb_false_iff in H as [Hx H].
  replace (Py.char_eqb x c) with false
    by (symmetry; destruct (Py.char_eqb x c) eqn:E; [|reflexivity];
        apply char_eqb_eq in E; subst; rewrite char_eqb_refl in Hx;
        discriminate).
  rewrite (IH H). reflexivity.
Qed.

Lemma split_app_sep (c : ascii) (p rest : text) :
  Py.mem_char c p = false ->
  Py.split c (p ++ c :: rest) = p :: Py.split c rest.
Proof.
  unfold Py.mem_char. induction p as [|x p IH]; simpl.
  - intros _. rewrite char_eqb_refl. reflexivity.
  - intros H. apply orb_false_iff in H as [Hx H].
    replace (Py.char_eqb x c) with false
      by (symmetry; destruct (Py.char_eqb x c) eqn:E; [|reflexivity];
          apply char_eqb_eq in E; subst; rewrite char_eqb_refl in Hx;
          discriminate).
    rewrite (IH H). reflexivity.
Qed.

Lemma split_join (c : ascii) (parts : list text) :
  parts <> [] ->
  forallb (fun p => negb (Py.mem_char c p)) parts = true ->
  Py.split c (Py.join [c] parts) = parts.
Proof.
  induction parts as [|p parts IH]; [contradiction|]. intros _ H.
  simpl in H. apply andb_true_iff in H as [Hp H].
  apply negb_true_iff in Hp.
  destruct parts as [|q parts].
  - simpl. apply split_plain. exact Hp.
  - change (Py.join [c] (p :: q :: parts))
      with (p ++ c :: Py.join [c] (q :: parts)).
    rewrite split_app_sep by exact Hp. rewrite IH; [reflexivity | discriminate | exact H].
Qed.

(** C9, as amended.  In tab-separated mode every line with at least one
    cell and no tab inside a cell is rendered as its cells joined by tabs,
    whatever the widths and the color setting, and splitting the rendered
    line on tabs gives back the cells. *)
Theorem tabulate_tsv_roundtrip (table : list (list value))
  (col_widths : list nat) (no_color : bool) :
  Forall (fun line => line <> [] /\ tab_free line = true) table ->
  exists rendered,
    mapM (fun line => tabulate line col_widths true no_color) table
    = Ok rendered
    /\ rendered = map (fun line => Py.join tab (map str line)) table
    /\ map (Py.split tab_char) rendered = map (map str) table.
Proof.
  intros H. exists (map (fun line => Py.join tab (map str line)) table).
  split; [|split; [reflexivity|]].
  - clear H. induction table as [|line table IH]; [reflexivity|].
    change (mapM (fun line => tabulate line col_widths true no_color)
                 (line :: table))
      with (y <- tabulate line col_widths true no_color;;
            ys <- mapM (fun line => tabulate line col_widths true no_color)
                       table;;
            Ok (y :: ys)).
    rewrite IH. reflexivity.
  - induction H as [|line table [Hne Ht] _ IH]; [reflexivity|].
    simpl. rewrite IH. f_equal.
    apply (split_join tab_char).
    + destruct line; [contradiction | discriminate].
    + unfold tab_free in Ht. clear - Ht.
      induction line as [|v line IHl]; [reflexivity|].
      simpl in *. apply andb_true_iff in Ht as [-> Ht]. apply IHl. exact Ht.
Qed.

Lemma tabulate_tsv_roundtrip_witness :
  exists rendered,
    mapM (fun line => tabulate line [7; 9]%nat true true)
         [[Str "JobID"; Str "State"]; [Str "12"; Int 5]]
    = Ok rendered
    /\ map (Py.split tab_char) rendered
       = [["JobID" : text; "State" : text]; ["12" : text; "5" : text]].
Proof.
  destruct (tabulate_tsv_roundtrip
              [[Str "JobID"; Str "State"]; [Str "12"; Int 5]]
              [7; 9]%nat true) as [rendered [E [_ R]]].
  - repeat constructor; discriminate.
  - exists rendered. split; [exact E | exact R].
Defined.

(** A cell that holds a tab does not come back: the line of the one cell
    [a<TAB>b] splits into two cells; and a line without cells comes back
    as one empty cell. *)
Lemma tabulate_tsv_tab_in_cell :
  tabulate [Str ("a" ++ tab ++ "b")] [] true true
  = Ok ("a" ++ tab ++ "b")
  /\ Py.split tab_char ("a" ++ tab ++ "b") = ["a" : text; "b" : text]
  /\ Py.split tab_char ("a" ++ tab ++ "b")
     <> map str [Str ("a" ++ tab ++ "b")].
Proof. repeat split. discriminate. Qed.

(** ** Timestamps *)

Lemma int_digits (ds : text) :
  ds <> [] -> all_digits ds = true -> Py.int ds = Ok (Py.digits_val ds).
Proof.
  intros Hne Hd.
  pose proof (decimal_numeral_like ds [] Hne Hd eq_refl) as Hnum.
  simpl decimal in Hnum. unfold Py.int.
  rewrite (strip_numeral _ digit_not_space_num _ Hnum).
  rewrite drop_underscores_plain by apply Hnum.
  destruct Hnum as [[c [r [E Hc]]] _].
  rewrite E at 1. rewrite read_sign_digit by exact Hc. rewrite <- E.
  rewrite span_digits_all by exact Hd.
  destruct ds; [contradiction | reflexivity].
Qed.

Lemma field_val_digits (ds : text) :
  ds <> [] -> all_digits ds = true -> Strptime.field_val ds = Py.digits_val ds.
Proof.
  intros Hne Hd. unfold Strptime.field_val.
  rewrite (int_digits ds Hne Hd). reflexivity.
Qed.

Lemma match_alt_d09 (alt : list (ascii * ascii)) (c : ascii) (s : text) :
  Py.isdigit c = true ->
  Strptime.match_alt (Strptime.d09 :: alt) (c :: s)
  = match Strptime.match_alt alt s with
    | Some (m, rest) => Some (c :: m, rest)
    | None => None
    end.
Proof.
  intros H. simpl Strptime.match_alt.
  change (Strptime.in_range c Strptime.d09) with (Py.isdigit c).
  rewrite H. reflexivity.
Qed.

Lemma match_items_Y (items : list Strptime.item) (y1 y2 y3 y4 : ascii)
  (rest : text) :
  all_digits [y1; y2; y3; y4] = true ->
  Strptime.match_items (Strptime.fmt_Y :: items) (y1 :: y2 :: y3 :: y4 :: rest)
  = match Strptime.match_items items rest with
    | Some (caps, r) => Some ([y1; y2; y3; y4] :: caps, r)
    | None => None
    end.
Proof.
  intros H. unfold all_digits in H. cbn [forallb] in H.
  repeat (apply andb_true_iff in H; destruct H as [? H]).
  unfold Strptime.fmt_Y.
  change (Strptime.match_items
            (Strptime.Field [[Strptime.d09; Strptime.d09; Strptime.d09;
                              Strptime.d09]] :: items)
            (y1 :: y2 :: y3 :: y4 :: rest))
    with (match
            match Strptime.match_alt
                    [Strptime.d09; Strptime.d09; Strptime.d09; Strptime.d09]
                    (y1 :: y2 :: y3 :: y4 :: rest) with
            | Some (m, s') =>
                match Strptime.match_items items s' with
                | Some (caps, rest0) => Some (m :: caps, rest0)
                | None => None
                end
            | None => None
            end
          with
          | Some y => Some y
          | None => None
          end).
  rewrite !match_alt_d09 by assumption. simpl Strptime.match_alt.
  cbv beta iota.
  destruct (Strptime.match_items items rest) as [[caps r]|]; reflexivity.
Qed.

Lemma match_items_Lit (items : list Strptime.item) (l : ascii) (rest : text) :
  Strptime.match_items (Strptime.Lit l :: items) (l :: rest)
  = Strptime.match_items items rest.
Proof. simpl. rewrite char_eqb_refl. reflexivity. Qed.

(** A field of two digits before a literal: the two digits are captured. *)
Ltac two_digit_field H1 H2 :=
  digit_cases H1; digit_cases H2; simpl;
  match goal with
  | |- context [Strptime.match_items ?items ?rest] =>
      destruct (Strptime.match_items items rest) as [[? ?]|]
  end;
  intros E; try discriminate E; injection E as <- <-; eauto.

Lemma match_items_m (items : list Strptime.item) (c1 c2 : ascii)
  (rest : text) (caps : list text) (r : text) :
  Py.isdigit c1 = true -> Py.isdigit c2 = true ->
  Strptime.match_items (Strptime.fmt_m :: Strptime.Lit "-" :: items)
                       (c1 :: c2 :: "-"%char :: rest) = Some (caps, r) ->
  exists caps', caps = [c1; c2] :: caps'
                /\ Strptime.match_items items rest = Some (caps', r).
Proof. intros H1 H2. two_digit_field H1 H2. Qed.

Lemma match_items_d (items : list Strptime.item) (c1 c2 : ascii)
  (rest : text) (caps : list text) (r : text) :
  Py.isdigit c1 = true -> Py.isdigit c2 = true ->
  Strptime.match_items (Strptime.fmt_d :: Strptime.Lit "T" :: items)
                       (c1 :: c2 :: "T"%char :: rest) = Some (caps, r) ->
  exists caps', caps = [c1; c2] :: caps'
                /\ Strptime.match_items items rest = Some (caps', r).
Proof. intros H1 H2. two_digit_field H1 H2. Qed.

Lemma match_items_H (items : list Strptime.item) (c1 c2 : ascii)
  (rest : text) (caps : list text) (r : text) :
  Py.isdigit c1 = true -> Py.isdigit c2 = true ->
  Strptime.match_items (Strptime.fmt_H :: Strptime.Lit ":" :: items)
                       (c1 :: c2 :: ":"%char :: rest) = Some (caps, r) ->
  exists caps', caps = [c1; c2] :: caps'
                /\ Strptime.match_items items rest = Some (caps', r).
Proof. intros H1 H2. two_digit_field H1 H2. Qed.

Lemma match_items_M (items : list Strptime.item) (c1 c2 : ascii)
  (rest : text) (caps : list text) (r : text) :
  Py.isdigit c1 = true -> Py.isdigit c2 = true ->
  Strptime.match_items (Strptime.fmt_M :: Strptime.Lit ":" :: items)
                       (c1 :: c2 :: ":"%char :: rest) = Some (caps, r) ->
  exists caps', caps = [c1; c2] :: caps'
                /\ Strptime.match_items items rest = Some (caps', r).
Proof. intros H1 H2. two_digit_field H1 H2. Qed.

Lemma match_items_S (c1 c2 : ascii) (caps : list text) :
  Py.isdigit c1 = true -> Py.isdigit c2 = true ->
  Strptime.match_items [Strptime.fmt_S] [c1; c2] = Some (caps, []) ->
  caps = [[c1; c2]].
Proof.
  intros H1 H2. digit_cases H1; digit_cases H2; simpl; intros E;
    try discriminate E; injection E as <-; reflexivity.
Qed.

Ltac digits_ok :=
  unfold all_digits; cbn [forallb];
  repeat match goal with
    | H : Py.isdigit ?c = true |- context [Py.isdigit ?c] => rewrite H
    end;
  reflexivity.

(** What [strptime] reads in a zero-padded timestamp. *)
Lemma strptime_zero_padded
  (y1 y2 y3 y4 m1 m2 d1 d2 h1 h2 n1 n2 s1 s2 : ascii)
  (d : Strptime.datetime) :
  all_digits [y1; y2; y3; y4; m1; m2; d1; d2; h1; h2; n1; n2; s1; s2] = true ->
  Strptime.strptime
    [y1; y2; y3; y4; "-"%char; m1; m2; "-"%char; d1; d2; "T"%char;
     h1; h2; ":"%char; n1; n2; ":"%char; s1; s2] = Some d ->
  fields d = [four y1 y2 y3 y4; two m1 m2; two d1 d2;
              two h1 h2; two n1 n2; two s1 s2].
Proof.
  intros Hd. unfold all_digits in Hd. cbn [forallb] in Hd.
  repeat (apply andb_true_iff in Hd; destruct Hd as [? Hd]).
  unfold Strptime.strptime, Strptime.format.
  rewrite match_items_Y by digits_ok.
  rewrite match_items_Lit.
  destruct (Strptime.match_items _ _) as [[caps r]|] eqn:E; [|discriminate].
  apply match_items_m in E as [caps1 [-> E]]; [|assumption..].
  apply match_items_d in E as [caps2 [-> E]]; [|assumption..].
  apply match_items_H in E as [caps3 [-> E]]; [|assumption..].
  apply match_items_M in E as [caps4 [-> E]]; [|assumption..].
  destruct r as [|? ?].
  - apply match_items_S in E; [|assumption..]. subst caps4.
    rewrite !field_val_digits by (discriminate || digits_ok).
    destruct (Strptime.valid _); [|discriminate]. intros [= <-].
    unfold fields, two, four, Py.digits_val.
    cbn [fold_left Strptime.year Strptime.month Strptime.day Strptime.hour
         Strptime.minute Strptime.second].
    repeat (f_equal; [ring|]). f_equal. ring.
  - destruct caps4 as [|? [|? ?]]; discriminate.
Qed.

Lemma zero_padded_inv (s : text) :
  zero_padded s = true ->
  exists y1 y2 y3 y4 m1 m2 d1 d2 h1 h2 n1 n2 s1 s2,
    s = [y1; y2; y3; y4; "-"%char; m1; m2; "-"%char; d1; d2; "T"%char;
         h1; h2; ":"%char; n1; n2; ":"%char; s1; s2]
    /\ all_digits [y1; y2; y3; y4; m1; m2; d1; d2; h1; h2; n1; n2; s1; s2]
       = true.
Proof.
  intros H.
  do 19 (destruct s as [|? s]; [discriminate H|]).
  destruct s; [|discriminate H].
  unfold zero_padded in H. apply andb_true_iff in H as [Hd Hl].
  apply text_eqb_eq in Hl. injection Hl as -> -> -> -> ->.
  do 14 eexists. split; [reflexivity | exact Hd].
Qed.

(** *** The two orders on zero-padded timestamps *)

Lemma isdigit_bounds (c : ascii) :
  Py.isdigit c = true -> 48 <= Py.code c <= 57.
Proof.
  unfold Py.isdigit. intros H. apply andb_true_iff in H as [H1 H2].
  apply Z.leb_le in H1, H2. lia.
Qed.

Lemma lex_if (x y : Z) (R : bool) :
  (if x <? y then true else if y <? x then false else R)
  = (x <? y) || ((x =? y) && R).
Proof.
  destruct (Z.ltb_spec x y), (Z.ltb_spec y x), (Z.eqb_spec x y);
    try reflexivity; lia.
Qed.

Lemma lex_same (x : Z) (R : bool) : (x <? x) || ((x =? x) && R) = R.
Proof. rewrite Z.ltb_irrefl, Z.eqb_refl. reflexivity. Qed.

Lemma lex_step (p p' : Z) (c c' : ascii) (R : bool) :
  Py.isdigit c = true -> Py.isdigit c' = true ->
  (10 * p + Py.digit_val c <? 10 * p' + Py.digit_val c')
  || ((10 * p + Py.digit_val c =? 10 * p' + Py.digit_val c') && R)
  = (p <? p')
    || ((p =? p')
        && ((Py.code c <? Py.code c') || ((Py.code c =? Py.code c') && R))).
Proof.
  intros H H'. apply isdigit_bounds in H, H'. unfold Py.digit_val.
  destruct (Z.ltb_spec p p'), (Z.eqb_spec p p'),
    (Z.ltb_spec (Py.code c) (Py.code c')),
    (Z.eqb_spec (Py.code c) (Py.code c'));
    destruct (Z.ltb_spec (10 * p + (Py.code c - 48))
                         (10 * p' + (Py.code c' - 48))),
      (Z.eqb_spec (10 * p + (Py.code c - 48)) (10 * p' + (Py.code c' - 48)));
    simpl; try reflexivity; try lia.
Qed.

Lemma lex_base (c c' : ascii) (R : bool) :
  (Py.digit_val c <? Py.digit_val c')
  || ((Py.digit_val c =? Py.digit_val c') && R)
  = (Py.code c <? Py.code c') || ((Py.code c =? Py.code c') && R).
Proof.
  unfold Py.digit_val.
  destruct (Z.ltb_spec (Py.code c) (Py.code c')),
    (Z.eqb_spec (Py.code c) (Py.code c'));
    destruct (Z.ltb_spec (Py.code c - 48) (Py.code c' - 48)),
      (Z.eqb_spec (Py.code c - 48) (Py.code c' - 48));
    simpl; try reflexivity; lia.
Qed.

Lemma four_nest (a b c d : ascii) :
  four a b c d
  = 10 * (10 * (10 * Py.digit_val a + Py.digit_val b) + Py.digit_val c)
    + Py.digit_val d.
Proof. unfold four. ring. Qed.

(** On zero-padded timestamps the order of the strings is the order of
    the instants. *)
Lemma zero_padded_order (a b : text) (da db : Strptime.datetime) :
  zero_padded a = true -> zero_padded b = true ->
  Strptime.strptime a = Some da -> Strptime.strptime b = Some db ->
  Py.text_ltb a b = chrono_ltb da db.
Proof.
  intros Za Zb Pa Pb.
  destruct (zero_padded_inv a Za)
    as (y1 & y2 & y3 & y4 & m1 & m2 & d1 & d2 & h1 & h2 & n1 & n2 & s1 & s2
        & -> & Da).
  destruct (zero_padded_inv b Zb)
    as (y1' & y2' & y3' & y4' & m1' & m2' & d1' & d2' & h1' & h2' & n1' & n2'
        & s1' & s2' & -> & Db).
  unfold chrono_ltb.
  rewrite (strptime_zero_padded _ _ _ _ _ _ _ _ _ _ _ _ _ _ _ Da Pa).
  rewrite (strptime_zero_padded _ _ _ _ _ _ _ _ _ _ _ _ _ _ _ Db Pb).
  unfold all_digits in Da, Db. cbn [forallb] in Da, Db.
  repeat (apply andb_true_iff in Da; destruct Da as [? Da]).
  repeat (apply andb_true_iff in Db; destruct Db as [? Db]).
  cbn [Py.text_ltb lex_ltb]. rewrite !lex_if. rewrite !lex_same.
  rewrite !four_nest. unfold two.
  rewrite !lex_step by assumption. rewrite !lex_base.
  reflexivity.
Qed.

(** ** [get_state_time] *)

Lemma max_text_spec (rest : list text) :
  forall first,
  In (max_text first rest) (first :: rest)
  /\ forall x, In x (first :: rest) ->
               Py.text_ltb (max_text first rest) x = false.
Proof.
  unfold max_text. induction rest as [|y rest IH]; intros first.
  - simpl. split; [auto|]. intros x [<- | []]. apply text_ltb_irrefl.
  - simpl fold_left. destruct (Py.text_ltb first y) eqn:E.
    + destruct (IH y) as [I M]. split.
      * destruct I as [I | I]; [right; left; exact I | right; right; exact I].
      * intros x [<- | Hx]; [|apply M; exact Hx].
        apply (text_ltb_negtrans _ y); [apply M; left; reflexivity|].
        apply text_ltb_asym. exact E.
    + destruct (IH first) as [I M]. split.
      * destruct I as [I | I]; [left; exact I | right; right; exact I].
      * intros x [<- | [<- | Hx]].
        -- apply M. left. reflexivity.
        -- apply (text_ltb_negtrans _ first); [apply M; left; reflexivity|].
           exact E.
        -- apply M. right. exact Hx.
Qed.

(** C10. [get_state_time] returns the empty string when no string of the
    list parses; otherwise it returns one of the strings that parse, and
    none of those is greater in the order of strings.  On timestamps in the
    zero-padded form [YYYY-MM-DDTHH:MM:SS] the order of the strings is the
    order of the instants.  On the list 2024-05-01T10:00:00,
    2024-05-01T09:00:00, not-a-date it returns the first. *)
Theorem get_state_time_latest :
  (forall timepoints,
     filter parses timepoints = [] -> get_state_time timepoints = "")
  /\ (forall timepoints,
        filter parses timepoints <> [] ->
        In (get_state_time timepoints) timepoints
        /\ parses (get_state_time timepoints) = true
        /\ forall x, In x timepoints -> parses x = true ->
                     Py.text_ltb (get_state_time timepoints) x = false)
  /\ (forall a b da db,
        zero_padded a = true -> zero_padded b = true ->
        Strptime.strptime a = Some da -> Strptime.strptime b = Some db ->
        Py.text_ltb a b = chrono_ltb da db)
  /\ get_state_time ["2024-05-01T10:00:00" : text;
                     "2024-05-01T09:00:00" : text; "not-a-date" : text]
     = "2024-05-01T10:00:00".
Proof.
  split; [|split; [|split; [apply zero_padded_order | reflexivity]]].
  - intros tps H. unfold get_state_time. rewrite H. reflexivity.
  - intros tps H. unfold get_state_time.
    destruct (filter parses tps) as [|x dt] eqn:E; [contradiction|].
    destruct (max_text_spec dt x) as [I M]. rewrite <- E in I.
    apply filter_In in I as [I1 I2]. split; [exact I1|]. split; [exact I2|].
    intros y Hy Py. apply M. rewrite <- E. apply filter_In. auto.
Qed.

Lemma get_state_time_latest_witness :
  In (get_state_time ["2024-05-01T09:00:00" : text; "Unknown" : text;
                      "2024-05-02T08:00:00" : text])
     ["2024-05-01T09:00:00" : text; "Unknown" : text;
      "2024-05-02T08:00:00" : text]
  /\ get_state_time ["Unknown" : text; "None" : text] = ""
  /\ Py.text_ltb "2024-05-01T09:00:00" "2024-05-02T08:00:00"
     = chrono_ltb (Strptime.DateTime 2024 5 1 9 0 0)
                  (Strptime.DateTime 2024 5 2 8 0 0).
Proof.
  destruct get_state_time_latest as [H0 [H1 [H2 _]]]. split; [|split].
  - apply (H1 ["2024-05-01T09:00:00" : text; "Unknown" : text;
               "2024-05-02T08:00:00" : text]). discriminate.
  - apply (H0 ["Unknown" : text; "None" : text]). reflexivity.
  - apply (H2 "2024-05-01T09:00:00" "2024-05-02T08:00:00"); reflexivity.
Defined.

(** ** [simplify_datetime] *)

Lemma digit_not_T (c : ascii) :
  Py.isdigit c = true -> Py.char_eqb c "T" = false.
Proof. intros H. digit_cases H; reflexivity. Qed.

Lemma sub_delete_from_hit (f : text -> option nat) (c : ascii)
  (s : text) (n : nat) :
  f (c :: s) = Some n ->
  sub_delete_from O f (c :: s) = sub_delete_from (Nat.pred n) f s.
Proof. intros H. simpl. rewrite H. reflexivity. Qed.

Lemma sub_delete_from_miss (f : text -> option nat) (c : ascii)
  (s : text) :
  f (c :: s) = None ->
  sub_delete_from O f (c :: s) = c :: sub_delete_from O f s.
Proof. intros H. simpl. rewrite H. reflexivity. Qed.

Lemma sub_delete_from_skip (f : text -> option nat) (k : nat)
  (c : ascii) (s : text) :
  sub_delete_from (S k) f (c :: s) = sub_delete_from k f s.
Proof. reflexivity. Qed.

Lemma replace_from_miss (pat rep : text) (c : ascii) (s : text) :
  Py.startswith (c :: s) pat = false ->
  Py.replace_from O pat rep (c :: s) = c :: Py.replace_from O pat rep s.
Proof. intros H. simpl. rewrite H. reflexivity. Qed.

Lemma replace_from_hit (pat rep : text) (c : ascii) (s : text) :
  Py.startswith (c :: s) pat = true ->
  Py.replace_from O pat rep (c :: s)
  = rep ++ Py.replace_from (Nat.pred (List.length pat)) pat rep s.
Proof. intros H. simpl. rewrite H. reflexivity. Qed.

Ltac rewrite_digits :=
  repeat match goal with
    | H : Py.isdigit ?c = true |- context [Py.isdigit ?c] => rewrite H
    end.

(** In a zero-padded timestamp the year and the month go, the day of the
    month and the time stay. *)
Lemma weekday_form_zero_padded (s : text) :
  zero_padded s = true ->
  Py.replace (sub_year_month s) "T" " "
  = firstn 2 (skipn 8 s) ++ " " ++ skipn 11 s.
Proof.
  intros Z.
  destruct (zero_padded_inv s Z)
    as (y1 & y2 & y3 & y4 & m1 & m2 & d1 & d2 & h1 & h2 & n1 & n2 & s1 & s2
        & -> & D).
  unfold all_digits in D. cbn [forallb] in D.
  repeat (apply andb_true_iff in D; destruct D as [? D]).
  unfold sub_year_month, sub_delete.
  rewrite (sub_delete_from_hit _ _ _ 8)
    by (unfold year_month_len; rewrite_digits; reflexivity).
  cbn [Nat.pred]. rewrite !sub_delete_from_skip.
  rewrite !sub_delete_from_miss
    by (unfold year_month_len; rewrite_digits; reflexivity).
  cbn [sub_delete_from].
  unfold Py.replace.
  change (list_ascii_of_string "T") with ["T"%char].
  do 2 (rewrite replace_from_miss
          by (cbn [Py.startswith]; rewrite digit_not_T by assumption;
              reflexivity)).
  rewrite replace_from_hit by reflexivity.
  cbn [List.length Nat.pred].
  do 2 (rewrite replace_from_miss
          by (cbn [Py.startswith]; rewrite digit_not_T by assumption;
              reflexivity)).
  rewrite replace_from_miss by reflexivity.
  do 2 (rewrite replace_from_miss
          by (cbn [Py.startswith]; rewrite digit_not_T by assumption;
              reflexivity)).
  rewrite replace_from_miss by reflexivity.
  do 2 (rewrite replace_from_miss
          by (cbn [Py.startswith]; rewrite digit_not_T by assumption;
              reflexivity)).
  reflexivity.
Qed.

Lemma stamp_inv (col : text) (r : record) (s : text) (d : Strptime.datetime) :
  stamp col r = Some (s, d) ->
  lookup col r = Some (Str s) /\ Strptime.strptime s = Some d.
Proof.
  unfold stamp. destruct (lookup col r) as [[x|z]|]; try discriminate.
  destruct (Strptime.strptime x) eqn:E; [|discriminate].
  intros [= <- <-]. auto.
Qed.

Lemma scan_date_stamp (col : text) (r : record) (s : text)
  (d : Strptime.datetime) :
  stamp col r = Some (s, d) -> scan_date col r = Ok (Some d).
Proof.
  intros H. apply stamp_inv in H as [L P]. unfold scan_date, getitem.
  rewrite L. simpl. rewrite P. reflexivity.
Qed.

(** The dates that the first loop collects when every value parses. *)
Lemma mapM_scan_date (col : text) (data : list record) :
  forallb (fun r => match stamp col r with Some _ => true | None => false end)
          data = true ->
  mapM (scan_date col) data
  = Ok (map (fun r => option_map snd (stamp col r)) data).
Proof.
  induction data as [|r data IH]; [reflexivity|].
  cbn [forallb]. intros H. apply andb_true_iff in H as [Hr H].
  destruct (stamp col r) as [[s d]|] eqn:E; [|discriminate].
  cbn [mapM map]. rewrite (scan_date_stamp col r s d E).
  rewrite (IH H). rewrite E. reflexivity.
Qed.

Lemma this_month_parses (today : date) (col : text) (data : list record) :
  this_month today col data = true ->
  forallb (fun r => match stamp col r with Some _ => true | None => false end)
          data = true.
Proof.
  unfold this_month. induction data as [|r data IH]; [reflexivity|].
  cbn [forallb]. intros H. apply andb_true_iff in H as [Hr H].
  rewrite (IH H). destruct (stamp col r) as [[s d]|]; [reflexivity|discriminate].
Qed.

Lemma this_month_flags (today : date) (col : text) (data : list record) :
  this_month today col data = true ->
  all_same Strptime.year (today_year today)
           (map (fun r => option_map snd (stamp col r)) data) = true
  /\ all_same Strptime.month (today_month today)
              (map (fun r => option_map snd (stamp col r)) data) = true.
Proof.
  unfold this_month, all_same. induction data as [|r data IH];
    [split; reflexivity|].
  cbn [forallb map]. intros H. apply andb_true_iff in H as [Hr H].
  destruct (IH H) as [-> ->].
  destruct (stamp col r) as [[s d]|]; [|discriminate].
  cbn [option_map snd].
  apply andb_true_iff in Hr as [-> ->]. split; reflexivity.
Qed.

Lemma other_day_flag (today : date) (col : text) (data : list record) :
  other_day today col data = true ->
  all_same Strptime.day (today_day today)
           (map (fun r => option_map snd (stamp col r)) data) = false.
Proof.
  unfold other_day, all_same. induction data as [|r data IH];
    [discriminate|].
  cbn [existsb forallb map]. intros H. apply orb_true_iff in H as [Hr | H].
  - destruct (stamp col r) as [[s d]|]; [|discriminate].
    apply negb_true_iff in Hr. cbn [option_map snd]. rewrite Hr. reflexivity.
  - rewrite (IH H). apply andb_false_r.
Qed.

Lemma simplify_lines_weekday (col : text) (data : list record) :
  forallb (fun r => match stamp col r with Some _ => true | None => false end)
          data = true ->
  exists out,
    simplify_lines true true false col data
                   (map (fun r => option_map snd (stamp col r)) data) = Ok out
    /\ Forall2 (weekday_simplified col) out data.
Proof.
  induction data as [|r data IH]; intros H.
  - exists []. split; [reflexivity | constructor].
  - cbn [forallb] in H. apply andb_true_iff in H as [Hr H].
    destruct (IH H) as [out [E F]].
    destruct (stamp col r) as [[s d]|] eqn:S; [|discriminate].
    destruct (stamp_inv col r s d S) as [L P].
    exists (setitem r col (Str (weekday_form s d)) :: out). split.
    + cbn [map simplify_lines]. rewrite S. cbn [option_map snd].
      unfold simplify_line, getitem. rewrite L. cbn [bind andb].
      cbv iota. rewrite E. reflexivity.
    + constructor; [|exact F]. exists s, d.
      split; [exact S|]. split; [reflexivity|].
      split; [apply lookup_setitem_eq|].
      intros Z. unfold weekday_form.
      rewrite (weekday_form_zero_padded s Z). reflexivity.
Qed.

(** C5, as amended.  When every value of the column parses and is of the
    year and month of today, and not all are of today's day of the month,
    every value is replaced by the three-letter name of its weekday, a
    blank, and the value without its year and month and with a blank for
    the [T]: for a zero-padded timestamp that is the weekday, the day of
    the month and the time. *)
Theorem simplify_datetime_weekday (today : date) (data : list record)
  (col : text) :
  this_month today col data = true ->
  other_day today col data = true ->
  exists out,
    simplify_datetime today data col = Ok out
    /\ Forall2 (weekday_simplified col) out data.
Proof.
  intros Hm Hd. pose proof (this_month_parses today col data Hm) as Hp.
  destruct (simplify_lines_weekday col data Hp) as [out [E F]].
  exists out. split; [|exact F].
  unfold simplify_datetime. rewrite (mapM_scan_date col data Hp).
  cbn [bind]. destruct (this_month_flags today col data Hm) as [-> ->].
  rewrite (other_day_flag today col data Hd). exact E.
Qed.

Lemma simplify_datetime_weekday_witness :
  exists out,
    simplify_datetime (Date 2024 5 1)
      [start_record "1" "2024-05-01T10:00:00";
       start_record "2" "2024-05-02T09:00:00"] "Start" = Ok out
    /\ Forall2 (weekday_simplified "Start") out
         [start_record "1" "2024-05-01T10:00:00";
          start_record "2" "2024-05-02T09:00:00"].
Proof.
  apply (simplify_datetime_weekday (Date 2024 5 1)
           [start_record "1" "2024-05-01T10:00:00";
            start_record "2" "2024-05-02T09:00:00"] "Start");
    reflexivity.
Defined.

(** The day of the month is kept: with today 2024-05-01 the value
    [2024-05-01T10:00:00] becomes [Wed 01 10:00:00], not the weekday and
    the time alone. *)
Lemma simplify_weekday_keeps_day :
  let today := Date 2024 5 1 in
  let data := [start_record "1" "2024-05-01T10:00:00";
               start_record "2" "2024-05-02T09:00:00"] in
  this_month today "Start" data = true
  /\ other_day today "Start" data = true
  /\ simplify_datetime today data "Start"
     = Ok [start_record "1" "Wed 01 10:00:00";
           start_record "2" "Thu 02 09:00:00"]
  /\ option_map (weekday_time_only "2024-05-01T10:00:00")
                (Strptime.strptime "2024-05-01T10:00:00")
     = Some (list_ascii_of_string "Wed 10:00:00")
  /\ simplify_datetime today data "Start"
     <> Ok [start_record "1" "Wed 10:00:00";
            start_record "2" "Thu 09:00:00"].
Proof. repeat split. discriminate. Qed.

(** * The rest of the program *)

(** ** More on the merger *)

Lemma int_raises_ValueError (s : text) (e : exn) :
  Py.int s = Raise e -> e = ValueError.
Proof.
  unfold Py.int.
  destruct (Py.drop_underscores None (Py.strip_by Py.isspace_num s));
    [|congruence].
  destruct (Py.read_sign l) as [neg s2].
  destruct (Py.span_digits s2) as [[|d ds] [|c r]]; congruence.
Qed.

Lemma merge_line_fromId (n : Z) (st : merge_state) (line : record) :
  merge_line (Some n) st line
  = match below_fromId (Some n) line with
    | Raise e => ([], Raise e)
    | Ok true => ([], Ok st)
    | Ok false => merge_line None st line
    end.
Proof.
  unfold merge_line.
  destruct (below_fromId (Some n) line) as [[|]|e]; reflexivity.
Qed.

Lemma below_fromId_numeric (n i : Z) (line : record) :
  numeric_id line = Some i -> below_fromId (Some n) line = Ok (i <=? n).
Proof.
  unfold numeric_id. destruct (jobid line) as [id|] eqn:Hid; [|discriminate].
  destruct (Py.int (Py.replace id ".batch" "")) as [j|e] eqn:Hi;
    [|discriminate].
  intros [= <-]. apply (below_fromId_spec n j line id Hid Hi).
Qed.

Lemma merge_loop_fromId_filter (n : Z) (recs : list record) :
  forall st,
  forallb has_numeric_id recs = true ->
  merge_loop (Some n) st recs = merge_loop None st (filter (above n) recs).
Proof.
  induction recs as [|r recs IH]; intros st H; [reflexivity|].
  cbn [forallb] in H. apply andb_true_iff in H as [Hr H].
  rewrite merge_loop_cons, merge_line_fromId.
  cbn [filter]. unfold has_numeric_id in Hr. unfold above.
  destruct (numeric_id r) as [i|] eqn:E; [|discriminate].
  rewrite (below_fromId_numeric n i r E).
  destruct (Z.leb_spec i n) as [L|L].
  - replace (n <? i) with false by (symmetry; apply Z.ltb_ge; lia).
    rewrite (IH st H). destruct (merge_loop None st (filter _ recs)).
    reflexivity.
  - replace (n <? i) with true by (symmetry; apply Z.ltb_lt; lia).
    rewrite merge_loop_cons.
    destruct (merge_line None st r) as [o [st1|e]]; [|reflexivity].
    rewrite (IH st1 H). reflexivity.
Qed.

(** X1. With a threshold [n], when every identifier is numeric once the
    marker is stripped, the merge is the merge without threshold of the
    records whose identifier is greater than [n]. *)
Theorem merge_fromId_filter (n : Z) (recs : list record) :
  forallb has_numeric_id recs = true ->
  merge (Some n) recs = merge None (filter (above n) recs).
Proof.
  intros H. unfold merge. rewrite (merge_loop_fromId_filter n recs _ H).
  reflexivity.
Qed.

Lemma merge_fromId_filter_witness :
  merge (Some 1)
    [job_record "1" "a" (Str "."); job_record "1.batch" "batch" (Int 5);
     job_record "2" "b" (Str "."); job_record "2.batch" "batch" (Int 7)]
  = ([], Ok [job_record "2" "b" (Int 7)]).
Proof.
  exact (eq_trans
           (merge_fromId_filter 1
              [job_record "1" "a" (Str "."); job_record "1.batch" "batch" (Int 5);
               job_record "2" "b" (Str "."); job_record "2.batch" "batch" (Int 7)]
              eq_refl)
           eq_refl).
Defined.

(** X2. With a threshold, a record whose identifier is not an integer
    once the marker is stripped (a job step such as [123.extern]) stops the
    merge with [ValueError]; nothing more is printed and the records after
    it are not read. *)
Theorem merge_fromId_not_numeric (n : Z) (pre post : list record)
  (line : record) (id : text) (st : merge_state) (out : list record) :
  merge_loop (Some n) (MergeState None []) pre = (out, Ok st) ->
  jobid line = Some id -> numeric_id line = None ->
  merge (Some n) (pre ++ line :: post) = (out, Raise ValueError).
Proof.
  intros Hpre Hid Hn. unfold merge.
  rewrite (merge_loop_app (Some n) pre (line :: post) _ st out Hpre).
  rewrite merge_loop_cons, merge_line_fromId.
  unfold numeric_id in Hn. rewrite Hid in Hn.
  unfold below_fromId, bind. rewrite (jobid_getitem line id Hid).
  destruct (Py.int (Py.replace id ".batch" "")) as [i|e] eqn:E;
    [discriminate|].
  rewrite (int_raises_ValueError _ _ E). rewrite app_nil_r. reflexivity.
Qed.

Lemma merge_fromId_not_numeric_witness :
  merge (Some 1)
    ([job_record "2" "a" (Str ".")]
     ++ job_record "2.extern" "extern" (Int 5)
     :: [job_record "3" "b" (Str ".")])
  = ([], Raise ValueError).
Proof.
  apply (merge_fromId_not_numeric 1 [job_record "2" "a" (Str ".")]
           [job_record "3" "b" (Str ".")]
           (job_record "2.extern" "extern" (Int 5)) "2.extern"
           (MergeState (Some (job_record "2" "a" (Str "."))) []) []);
    reflexivity.
Defined.

Lemma jobid_setitem_rss (job : record) (v : value) :
  jobid (setitem job "MaxRSS" v) = jobid job.
Proof.
  unfold jobid. rewrite lookup_setitem_neq; [reflexivity | discriminate].
Qed.

Lemma is_job_same_but_rss (o r : record) :
  same_but_rss o r -> is_job r -> is_job o.
Proof.
  intros [_ H] [id [Hid Hc]]. exists id. split; [|exact Hc].
  unfold jobid in *. rewrite (H "JobID"); [exact Hid | discriminate].
Qed.

Lemma fillInJob_same_but_rss (job b filled : record) :
  fillInJob job b = Ok filled -> same_but_rss filled job.
Proof.
  intros H. pose proof (absorb_same_but_rss job b) as A.
  unfold absorb in A. rewrite H in A. exact A.
Qed.

(** What holds of the two variables of the merge loop, for the records
    [seen] so far. *)

Lemma merge_inv_more (seen more : list record) (st : merge_state) :
  merge_inv seen st -> merge_inv (seen ++ more) st.
Proof.
  intros [H1 H2]. split.
  - intros j Hj. destruct (H1 j Hj) as [A B]. split; [exact A|].
    apply in_or_app. left. exact B.
  - apply (Forall_impl _ (P := fun o => is_job o /\ exists r, In r seen
                                                  /\ same_but_rss o r));
      [|exact H2].
    intros o [A [r [B C]]]. split; [exact A|]. exists r.
    split; [apply in_or_app; left; exact B | exact C].
Qed.

Lemma merge_inv_flush (seen : list record) (st : merge_state) :
  merge_inv seen st ->
  Forall (fun o => is_job o /\ exists r, In r seen /\ same_but_rss o r)
         (flush st).
Proof.
  intros [H1 H2]. unfold flush. destruct (idjob st) as [j|]; [|exact H2].
  apply Forall_app. split; [exact H2|]. constructor; [|constructor].
  destruct (H1 j eq_refl) as [A B]. split; [exact A|]. exists j.
  split; [exact B | apply same_but_rss_refl].
Qed.

Lemma merge_line_inv (fromId : option Z) (seen : list record)
  (st st' : merge_state) (line : record) (out : list record) :
  merge_inv seen st ->
  merge_line fromId st line = (out, Ok st') ->
  out = [] /\ merge_inv (seen ++ [line]) st'.
Proof.
  intros Inv. unfold merge_line.
  destruct (below_fromId fromId line) as [[|]|e]; try discriminate.
  - intros [= <- <-]. split; [reflexivity|]. apply merge_inv_more. exact Inv.
  - unfold getitem. destruct (lookup "JobID" line) as [[id|z]|] eqn:L;
      try discriminate.
    assert (Hid : jobid line = Some id) by (unfold jobid; rewrite L; reflexivity).
    destruct (Py.contains id ".batch") eqn:C; cbn [negb].
    + destruct (idjob st) as [job|] eqn:J; [|discriminate].
      destruct (lookup "JobID" job) as [jid|]; [|discriminate].
      destruct (value_eqb jid _); [|discriminate].
      destruct (fillInJob job line) as [filled|e] eqn:F; [|discriminate].
      intros [= <- <-]. split; [reflexivity|].
      apply (merge_inv_more seen [line]) in Inv.
      destruct Inv as [H1 H2]. split; [intros j; discriminate|].
      cbn [sacct_mrg]. apply Forall_app. split; [exact H2|].
      constructor; [|constructor].
      destruct (H1 job J) as [A B].
      pose proof (fillInJob_same_but_rss _ _ _ F) as S.
      split; [apply (is_job_same_but_rss _ _ S A)|]. exists job. auto.
    + intros [= <- <-]. split; [reflexivity|].
      apply (merge_inv_more seen [line]) in Inv. split.
      * cbn [idjob]. intros j [= <-]. split; [exists id; auto|].
        apply in_or_app. right. left. reflexivity.
      * cbn [sacct_mrg]. apply merge_inv_flush. exact Inv.
Qed.

Lemma merge_loop_inv (fromId : option Z) (recs : list record) :
  forall seen st st' out,
  merge_inv seen st ->
  merge_loop fromId st recs = (out, Ok st') ->
  out = [] /\ merge_inv (seen ++ recs) st'.
Proof.
  induction recs as [|r recs IH]; intros seen st st' out Inv.
  - cbn [merge_loop]. intros [= <- <-]. rewrite app_nil_r. auto.
  - rewrite merge_loop_cons.
    destruct (merge_line fromId st r) as [o1 [st1|e]] eqn:E1; [|discriminate].
    destruct (merge_line_inv fromId seen st st1 r o1 Inv E1) as [-> Inv1].
    destruct (merge_loop fromId st1 recs) as [o2 [st2|e]] eqn:E2;
      [|discriminate].
    intros [= <- <-].
    destruct (IH _ _ _ _ Inv1 E2) as [-> Inv2].
    rewrite <- app_assoc in Inv2. auto.
Qed.

(** X3. Whenever the merge returns, with or without threshold, it has
    printed nothing, no returned record carries the batch marker, and every
    returned record is a record of the input but for [MaxRSS]. *)
Theorem merge_returns_jobs (fromId : option Z) (recs res out : list record) :
  merge fromId recs = (out, Ok res) ->
  out = []
  /\ Forall (fun o => is_job o /\ batch_marked o = false
                      /\ exists r, In r recs /\ same_but_rss o r) res.
Proof.
  unfold merge.
  destruct (merge_loop fromId (MergeState None []) recs) as [o [st|e]] eqn:E;
    [|discriminate].
  intros [= <- <-].
  assert (Inv0 : merge_inv [] (MergeState None []))
    by (split; [intros j; discriminate | constructor]).
  destruct (merge_loop_inv fromId recs [] _ _ _ Inv0 E) as [-> Inv].
  split; [reflexivity|]. cbn [app] in Inv.
  apply merge_inv_flush in Inv.
  apply (Forall_impl _ (P := fun o => is_job o /\ exists r, In r recs
                                                  /\ same_but_rss o r));
    [|exact Inv].
  intros o [[id [Hid Hc]] Hr]. split; [exists id; auto|]. split; [|exact Hr].
  unfold batch_marked. rewrite Hid. exact Hc.
Qed.

Lemma merge_returns_jobs_witness :
  Forall (fun o => is_job o /\ batch_marked o = false
                   /\ exists r,
                        In r [job_record "1" "a" (Str ".");
                              job_record "1.batch" "batch" (Int 5);
                              job_record "2" "b" (Str ".")]
                        /\ same_but_rss o r)
         [job_record "1" "a" (Int 5); job_record "2" "b" (Str ".")].
Proof.
  apply (merge_returns_jobs None
           [job_record "1" "a" (Str "."); job_record "1.batch" "batch" (Int 5);
            job_record "2" "b" (Str ".")]
           [job_record "1" "a" (Int 5); job_record "2" "b" (Str ".")] []).
  reflexivity.
Defined.

(** ** More on the sorter *)

Lemma sort_step_cases (st st' : sort_state) (k : text) :
  sort_step st k = Ok st' ->
  Permutation (fst st) (fst st')
  /\ snd st'
     = snd st ++ (if column_missing (snd (sort_key k)) (fst st)
                  then [sort_warning (snd (sort_key k))] else []).
Proof.
  intros H. split; [apply (sort_step_perm _ _ _ H)|].
  destruct (column_missing (snd (sort_key k)) (fst st)) eqn:M.
  - rewrite (sort_step_missing st k M) in H. injection H as <-. reflexivity.
  - unfold sort_step in H. destruct (sort_key k) as [reverse col].
    cbn [snd] in M.
    destruct (sorted_present (fst st) col reverse M) as [[_ [out E]] | [_ E]];
      rewrite E in H; [|discriminate].
    injection H as <-. cbn [snd]. rewrite app_nil_r. reflexivity.
Qed.

Lemma sort_loop_cases (keys : list text) :
  forall st st',
  sort_loop st keys = Ok st' ->
  Permutation (fst st) (fst st')
  /\ snd st'
     = snd st
       ++ map (fun k => sort_warning (snd (sort_key k)))
              (filter (fun k => column_missing (snd (sort_key k)) (fst st))
                      keys).
Proof.
  induction keys as [|k keys IH]; intros st st'; cbn [sort_loop].
  - intros [= <-]. rewrite app_nil_r. split; reflexivity.
  - destruct (sort_step st k) as [st1|e] eqn:E1; [|discriminate].
    cbn [bind]. intros H.
    destruct (sort_step_cases _ _ _ E1) as [P1 W1].
    destruct (IH _ _ H) as [P2 W2]. split; [rewrite P1; exact P2|].
    rewrite W2, W1. rewrite <- app_assoc. f_equal. cbn [filter].
    rewrite (filter_ext _ (fun k => column_missing (snd (sort_key k)) (fst st))).
    + destruct (column_missing (snd (sort_key k)) (fst st)); reflexivity.
    + intros a. symmetry. apply column_missing_perm. exact P1.
Qed.

(** X4. Whenever the sorter returns, the records are a permutation of
    those given, and the error stream holds one warning for each key whose
    column a record lacks, in the order the keys are applied. *)
Theorem sorter_permutes_and_warns (sort : list text)
  (recs out : list record) (err : list text) :
  sorter sort recs = Ok (out, err) ->
  Permutation recs out
  /\ err = map (fun k => sort_warning (snd (sort_key k)))
               (filter (fun k => column_missing (snd (sort_key k)) recs)
                       (rev sort)).
Proof.
  unfold sorter. intros H.
  destruct (sort_loop_cases _ _ _ H) as [P W]. split; [exact P | exact W].
Qed.

Lemma sorter_permutes_and_warns_witness :
  Permutation
    [job_record "3" "a" (Int 10); job_record "1" "b" (Int 9)]
    [job_record "1" "b" (Int 9); job_record "3" "a" (Int 10)]
  /\ [sort_warning "Nope"]
     = map (fun k => sort_warning (snd (sort_key k)))
           (filter (fun k => column_missing (snd (sort_key k))
                               [job_record "3" "a" (Int 10);
                                job_record "1" "b" (Int 9)])
                   (rev ["JobID" : text; "Nope" : text])).
Proof.
  apply (sorter_permutes_and_warns ["JobID" : text; "Nope" : text]).
  reflexivity.
Defined.

(** X5. A key whose column every record has, some with a string and some
    with an integer (a memory column with the placeholder in one record):
    the comparison fails and the sorter stops with [TypeError], whatever the
    keys declared before it. *)
Theorem sorter_mixed_column (declared_before declared_after : list text)
  (k : text) (recs : list record) (st : sort_state) :
  sorter declared_after recs = Ok st ->
  column_missing (snd (sort_key k)) recs = false ->
  sortable (snd (sort_key k)) recs = false ->
  sorter (declared_before ++ k :: declared_after) recs = Raise TypeError.
Proof.
  intros H M S. unfold sorter in *. rewrite rev_app_distr. cbn [rev].
  rewrite <- app_assoc. cbn [app]. rewrite sort_loop_app, H. cbn [bind].
  pose proof (sort_loop_perm _ _ _ H) as P. cbn [fst] in P.
  rewrite (column_missing_perm _ _ _ P) in M.
  rewrite (sortable_perm _ _ _ P) in S.
  cbn [sort_loop]. unfold sort_step. destruct (sort_key k) as [reverse col].
  cbn [snd] in *.
  destruct (sorted_present (fst st) col reverse M) as [[S' _] | [_ E]];
    [congruence|].
  rewrite E. reflexivity.
Qed.

Lemma sorter_mixed_column_witness :
  sorter (["JobID" : text] ++ ("MaxRSS" : text) :: ["JobName" : text])
         [job_record "3" "a" (Int 10); job_record "1" "b" (Str ".")]
  = Raise TypeError.
Proof.
  apply (sorter_mixed_column ["JobID" : text] ["JobName" : text] "MaxRSS"
           [job_record "3" "a" (Int 10); job_record "1" "b" (Str ".")]
           ([job_record "3" "a" (Int 10); job_record "1" "b" (Str ".")], []));
    reflexivity.
Defined.

(** *** Sorting what is sorted *)

Section SortedFixpoint.

Context {K A : Type}.
Variable ltb : K -> K -> bool.

Lemma stable_sort_sorted_id (l : list (K * A)) :
  StronglySorted (asc ltb) l -> stable_sort ltb l = l.
Proof.
  intros H. induction H as [|x l H IH Hx]; [reflexivity|].
  cbn [stable_sort fold_right]. fold (stable_sort ltb l). rewrite IH.
  destruct l as [|y l]; [reflexivity|].
  cbn [insert]. inversion Hx as [|? ? Hy _]; subst.
  unfold asc in Hy. rewrite Hy. reflexivity.
Qed.

Lemma stable_sort_dir_sorted_id (reverse : bool) (l : list (K * A)) :
  StronglySorted (if reverse then desc ltb else asc ltb) l ->
  stable_sort_dir ltb reverse l = l.
Proof.
  destruct reverse; cbn [stable_sort_dir]; intros H.
  - rewrite stable_sort_sorted_id; [apply rev_involutive|].
    apply (StronglySorted_rev (desc ltb)) in H. exact H.
  - apply stable_sort_sorted_id. exact H.
Qed.

End SortedFixpoint.

Lemma StronglySorted_combine (s : text) (reverse : bool)
  (l : list (value * record)) :
  Forall (keyed s) l ->
  StronglySorted (in_order s reverse) (map snd l) ->
  StronglySorted (if reverse then desc value_ltb else asc value_ltb) l.
Proof.
  intros Hk. induction Hk as [|x l Kx Kl IH]; cbn [map]; intros Hs.
  - destruct reverse; constructor.
  - inversion Hs as [|? ? Hs' Hx]; subst.
    assert (G : Forall (fun y => (if reverse then desc value_ltb
                                  else asc value_ltb) x y) l).
    { rewrite Forall_map in Hx. rewrite Forall_forall in *.
      intros y Hy. specialize (Hx y Hy). specialize (Kl y Hy).
      unfold in_order in Hx. rewrite Kx, Kl in Hx.
      destruct reverse; exact Hx. }
    specialize (IH Hs'). destruct reverse; constructor; assumption.
Qed.

(** X6. Sorting on the same key once more changes nothing: what [sorted]
    returns is a fixed point of [sorted] for that column and direction. *)
Theorem sorted_idempotent (recs out : list record) (s : text)
  (reverse : bool) :
  sorted recs s reverse = Ok out -> sorted out s reverse = Ok out.
Proof.
  intros H. destruct (sorted_spec _ _ _ _ H) as [P [S _]].
  assert (M : column_missing s recs = false).
  { destruct (column_missing s recs) eqn:M; [|reflexivity].
    rewrite (sorted_missing _ _ reverse M) in H. discriminate. }
  assert (T : sortable s recs = true).
  { destruct (sorted_present recs s reverse M) as [[T _] | [_ E]];
      [exact T | congruence]. }
  rewrite (column_missing_perm _ _ _ P) in M.
  rewrite (sortable_perm _ _ _ P) in T.
  destruct (mapM_getitem_present s out M) as [keys E].
  unfold sorted. rewrite E. cbn [bind].
  rewrite (comparable_sortable s out keys E), T.
  destruct (mapM_getitem_ok s out keys E) as [H1 [_ H3]].
  rewrite stable_sort_dir_sorted_id; [rewrite H1; reflexivity|].
  apply (StronglySorted_combine s reverse); [exact H3|].
  rewrite H1. exact S.
Qed.

Lemma sorted_idempotent_witness :
  sorted [job_record "1" "b" (Int 9); job_record "3" "a" (Int 10)]
         "JobID" true
  = Ok [job_record "3" "a" (Int 10); job_record "1" "b" (Int 9)]
  /\ sorted [job_record "3" "a" (Int 10); job_record "1" "b" (Int 9)]
            "JobID" true
     = Ok [job_record "3" "a" (Int 10); job_record "1" "b" (Int 9)].
Proof.
  split; [reflexivity|].
  apply (sorted_idempotent
           [job_record "1" "b" (Int 9); job_record "3" "a" (Int 10)]).
  reflexivity.
Defined.

(** ** More on [normalizeMem] *)

Lemma lstrip_by_nil (p : ascii -> bool) (s : text) :
  Py.lstrip_by p s = [] -> forallb p s = true.
Proof.
  induction s as [|c s IH]; [reflexivity|]. cbn [Py.lstrip_by forallb].
  destruct (p c); [exact IH | discriminate].
Qed.

Lemma lstrip_by_all_rest (p : ascii -> bool) (s : text) :
  forallb p (Py.lstrip_by p s) = true -> forallb p s = true.
Proof.
  induction s as [|c s IH]; [reflexivity|]. cbn [Py.lstrip_by].
  destruct (p c) eqn:E; cbn [forallb]; rewrite ?E; auto.
Qed.

Lemma strip_by_nil (p : ascii -> bool) (s : text) :
  Py.strip_by p s = [] -> forallb p s = true.
Proof.
  unfold Py.strip_by, Py.rstrip_by. intros H.
  apply lstrip_by_all_rest.
  assert (R : Py.lstrip_by p (rev (Py.lstrip_by p s)) = []).
  { apply (f_equal (@rev ascii)) in H. rewrite rev_involutive in H.
    exact H. }
  apply lstrip_by_nil in R. rewrite forallb_forall in *.
  intros c Hc. apply R. apply in_rev in Hc. exact Hc.
Qed.

Lemma normalizeMem_Str_blank (x s : text) :
  normalizeMem x = Ok (Str s) -> s = [] /\ forallb Py.isspace x = true.
Proof.
  unfold normalizeMem.
  destruct (Py.text_eqb (Py.strip x) "") eqn:E.
  - intros [= <-]. split; [reflexivity|].
    apply text_eqb_eq in E. apply strip_by_nil. exact E.
  - match goal with
    | |- (mem <- ?m;; _) = _ -> _ => destruct m as [mem|e]
    end; cbn [bind]; [|discriminate].
    destruct (Py.round (Py.fdiv mem (2 ^ 20))); cbn [bind]; discriminate.
Qed.

(** X7. [normalizeMem] returns a string only for a blank input, and then
    the empty string: on any other input it returns an integer or raises. *)
Theorem normalizeMem_string_only_blank (x s : text) :
  normalizeMem x = Ok (Str s) -> s = [] /\ forallb Py.isspace x = true.
Proof. exact (normalizeMem_Str_blank x s). Qed.

Lemma normalizeMem_string_only_blank_witness :
  list_ascii_of_string "" = [] /\ forallb Py.isspace " " = true.
Proof.
  apply (normalizeMem_string_only_blank " " ""). reflexivity.
Defined.

Lemma unsupported_unit_facts (u : ascii) :
  unsupported_unit u = true ->
  Py.isspace u = false /\ Py.isspace_num u = false /\ Py.isdigit u = false
  /\ Py.char_eqb u "_" = false /\ Py.char_eqb u "." = false
  /\ Py.mem_char u ["n"%char] = false /\ Py.mem_char u ["c"%char] = false
  /\ Py.char_eqb u "K" = false /\ Py.char_eqb u "M" = false
  /\ Py.char_eqb u "G" = false
  /\ Py.read_exponent [u] = None.
Proof.
  destruct u as [[] [] [] [] [] [] [] []]; vm_compute; intros H;
    try discriminate H; repeat split.
Qed.

Lemma drop_underscores_none (prev : option ascii) (s : text) :
  Forall (fun c => Py.char_eqb c "_" = false) s ->
  Py.drop_underscores prev s = Some s.
Proof.
  intros H. revert prev. induction H as [|c s Hc _ IH]; intros prev;
    cbn [Py.drop_underscores]; [reflexivity|].
  rewrite Hc, IH. reflexivity.
Qed.

Lemma span_digits_stop (ip r : text) (u : ascii) :
  all_digits ip = true -> Py.isdigit u = false ->
  Py.span_digits (ip ++ u :: r) = (ip, u :: r).
Proof.
  intros Hi Hu. induction ip as [|c ip IH]; cbn [app Py.span_digits].
  - rewrite Hu. reflexivity.
  - cbn [all_digits forallb] in Hi. apply andb_true_iff in Hi as [-> Hi].
    rewrite (IH Hi). reflexivity.
Qed.

Lemma numeral_no_underscore (num : text) :
  numeral_like num -> Forall (fun c => Py.char_eqb c "_" = false) num.
Proof.
  intros [_ [_ H]]. apply (Forall_impl _ (P := fun c => Py.isdigit c = true
                                                   \/ c = "."%char));
    [|exact H].
  intros c [Hc | ->]; [digit_cases Hc|]; reflexivity.
Qed.

Lemma float_of_unsupported (ip fp : text) (u : ascii) :
  ip <> [] -> all_digits ip = true -> all_digits fp = true ->
  unsupported_unit u = true ->
  Py.float_of (decimal ip fp ++ [u]) = Raise ValueError.
Proof.
  intros Hne Hi Hf Hu.
  destruct (unsupported_unit_facts u Hu)
    as (_ & Hs & Hd & Hund & Hpt & _ & _ & _ & _ & _ & Hexp).
  pose proof (decimal_numeral_like ip fp Hne Hi Hf) as Hnum.
  unfold Py.float_of.
  rewrite drop_underscores_none
    by (apply Forall_app; split;
        [apply numeral_no_underscore; exact Hnum | repeat constructor; exact Hund]).
  rewrite (strip_numeral_1 _ digit_not_space_num _ Hnum), Hs.
  destruct Hnum as [[c [r [E Hc]]] _].
  rewrite E. cbn [app]. rewrite read_sign_digit by exact Hc.
  destruct (not_a_word c (r ++ [u]) Hc) as [W1 W2]. cbv zeta in W1, W2.
  rewrite W1, W2. change (c :: r ++ [u]) with ((c :: r) ++ [u]).
  rewrite <- E. clear W1 W2 E Hc c r.
  destruct fp as [|f fp]; unfold decimal.
  - rewrite (span_digits_stop ip [] u Hi Hd). cbv beta iota zeta.
    rewrite Hpt. cbv beta iota zeta. rewrite Hexp.
    destruct (ip ++ []); reflexivity.
  - rewrite <- app_assoc.
    change (("."%char :: f :: fp) ++ [u])
      with ("."%char :: ((f :: fp) ++ [u])).
    rewrite span_digits_point by exact Hi.
    rewrite (span_digits_stop (f :: fp) [] u Hf Hd).
    change (Py.char_eqb "." ".") with true. cbv beta iota zeta.
    rewrite Hexp.
    destruct (ip ++ f :: fp); reflexivity.
Qed.

(** X8. A numeral followed by a letter other than [K], [M], [G], [n] and
    [c] (a lower-case unit, or [T] for terabytes), with or without the
    marker after it, is not converted: [normalizeMem] raises
    [ValueError]. *)
Theorem normalizeMem_unsupported_unit (ip fp : text) (u : ascii)
  (mk : mem_marker) :
  ip <> [] -> all_digits ip = true -> all_digits fp = true ->
  unsupported_unit u = true ->
  normalizeMem (decimal ip fp ++ [u] ++ marker_suffix mk) = Raise ValueError.
Proof.
  intros Hne Hi Hf Hu.
  destruct (unsupported_unit_facts u Hu)
    as (Hsp & _ & _ & _ & _ & Hn & Hc & HK & HM & HG & _).
  pose proof (decimal_numeral_like ip fp Hne Hi Hf) as Hnum.
  pose proof (float_of_unsupported ip fp u Hne Hi Hf Hu) as Hfl.
  set (num := decimal ip fp) in *.
  pose proof (fun chars H => strip_numeral_2 _ (digit_not_in chars H) _ Hnum)
    as S2.
  pose proof (fun chars H => strip_numeral_1 _ (digit_not_in chars H) _ Hnum)
    as S1.
  pose proof (strip_numeral_2 _ digit_not_space _ Hnum) as B2.
  pose proof (strip_numeral_1 _ digit_not_space _ Hnum) as B1.
  unfold normalizeMem, Py.strip, Py.strip_chars.
  destruct mk; cbn [marker_suffix]; simpl list_ascii_of_string; cbn [app];
    rewrite ?B2, ?B1, ?Hsp; eval_tests;
    rewrite ?(numeral_not_blank num) by exact Hnum;
    rewrite ?(S2 ["n"%char] eq_refl), ?(S1 ["n"%char] eq_refl);
    cbv beta; rewrite ?Hn; eval_tests;
    rewrite ?(S2 ["c"%char] eq_refl), ?(S1 ["c"%char] eq_refl);
    cbv beta; rewrite ?Hc; eval_tests;
    rewrite ?(S1 ["n"%char] eq_refl), ?(S1 ["c"%char] eq_refl);
    cbv beta; rewrite ?Hn, ?Hc; cbv iota;
    rewrite !endswith_snoc, HK, HM, HG, Hfl; reflexivity.
Qed.

Lemma normalizeMem_unsupported_unit_witness :
  normalizeMem "2T" = Raise ValueError
  /\ normalizeMem "1.5gn" = Raise ValueError.
Proof.
  split.
  - apply (normalizeMem_unsupported_unit "2" "" "T" MarkNone);
      (discriminate || reflexivity).
  - apply (normalizeMem_unsupported_unit "1" "5" "g" MarkN);
      (discriminate || reflexivity).
Defined.

(** ** More on the presenter *)

Lemma colorize_one_idempotent (v : value) :
  colorize_one (colorize_one v) = colorize_one v.
Proof.
  destruct (value_eqb v (Str "FAILED")) eqn:E1;
    [apply value_eqb_eq in E1; subst v; reflexivity|].
  destruct (value_eqb v (Str "COMPLETED")) eqn:E2;
    [apply value_eqb_eq in E2; subst v; reflexivity|].
  destruct (value_eqb v (Str "RUNNING")) eqn:E3;
    [apply value_eqb_eq in E3; subst v; reflexivity|].
  assert (E : colorize_one v = v)
    by (unfold colorize_one; rewrite E1, E2, E3; reflexivity).
  rewrite E. exact E.
Qed.

(** X9. Coloring twice is coloring once: a cell that [colorize] has
    colored is none of the three states any more. *)
Theorem colorize_idempotent (lst : list value) :
  colorize (colorize lst) = colorize lst.
Proof.
  unfold colorize. rewrite map_map. apply map_ext.
  exact colorize_one_idempotent.
Qed.

Lemma ansi_len_no_esc (c : ascii) (s : text) :
  Py.char_eqb c esc = false -> ansi_len (c :: s) = None.
Proof.
  intros H. unfold ansi_len. destruct s as [|b r]; [reflexivity|].
  rewrite H. reflexivity.
Qed.

Lemma strip_ansi_app_plain (p rest : text) :
  esc_free p = true -> strip_ansi (p ++ rest) = p ++ strip_ansi rest.
Proof.
  unfold strip_ansi, sub_delete, esc_free.
  induction p as [|c p IH]; [reflexivity|]. cbn [forallb app].
  intros H. apply andb_true_iff in H as [Hc H]. apply negb_true_iff in Hc.
  rewrite sub_delete_from_miss by (apply ansi_len_no_esc; exact Hc).
  rewrite (IH H). reflexivity.
Qed.

Lemma strip_ansi_plain (p : text) : esc_free p = true -> strip_ansi p = p.
Proof.
  intros H. rewrite <- (app_nil_r p) at 1.
  rewrite (strip_ansi_app_plain p [] H). apply app_nil_r.
Qed.

Lemma esc_free_spaces (n : nat) : esc_free (repeat " "%char n) = true.
Proof. induction n; [reflexivity | exact IHn]. Qed.

Lemma strip_ansi_hit (n : nat) (b : ascii) (s : text) :
  ansi_len (esc :: b :: s) = Some n ->
  strip_ansi (esc :: b :: s)
  = sub_delete_from (Nat.pred n) ansi_len (b :: s).
Proof.
  intros H. unfold strip_ansi, sub_delete.
  apply sub_delete_from_hit. exact H.
Qed.

(** The text of a colorized cell with what follows it, seen without the
    escape sequences. *)
Lemma strip_ansi_colorized (v : value) (rest : text) :
  esc_free (str v) = true ->
  strip_ansi (str (colorize_one v) ++ rest) = str v ++ strip_ansi rest.
Proof.
  intros H. unfold colorize_one.
  destruct (value_eqb v (Str "FAILED")) eqn:E1.
  { apply value_eqb_eq in E1. subst v. cbn [str].
    simpl list_ascii_of_string. cbn [app].
    rewrite (strip_ansi_hit 5) by reflexivity. cbn [Nat.pred].
    rewrite !sub_delete_from_skip.
    rewrite !sub_delete_from_miss by reflexivity.
    rewrite (sub_delete_from_hit _ _ _ 4) by reflexivity. cbn [Nat.pred].
    rewrite !sub_delete_from_skip. reflexivity. }
  destruct (value_eqb v (Str "COMPLETED")) eqn:E2.
  { apply value_eqb_eq in E2. subst v. cbn [str].
    simpl list_ascii_of_string. cbn [app].
    rewrite (strip_ansi_hit 5) by reflexivity. cbn [Nat.pred].
    rewrite !sub_delete_from_skip.
    rewrite !sub_delete_from_miss by reflexivity.
    rewrite (sub_delete_from_hit _ _ _ 4) by reflexivity. cbn [Nat.pred].
    rewrite !sub_delete_from_skip. reflexivity. }
  destruct (value_eqb v (Str "RUNNING")) eqn:E3.
  { apply value_eqb_eq in E3. subst v. cbn [str].
    simpl list_ascii_of_string. cbn [app].
    rewrite (strip_ansi_hit 5) by reflexivity. cbn [Nat.pred].
    rewrite !sub_delete_from_skip.
    rewrite !sub_delete_from_miss by reflexivity.
    rewrite (sub_delete_from_hit _ _ _ 4) by reflexivity. cbn [Nat.pred].
    rewrite !sub_delete_from_skip. reflexivity. }
  apply strip_ansi_app_plain. exact H.
Qed.

Lemma length_colorized (v : value) :
  esc_free (str v) = true ->
  (List.length (str (colorize_one v))
   - List.length (strip_ansi (str (colorize_one v))))%nat
  = (List.length (str (colorize_one v)) - List.length (str v))%nat
  /\ (List.length (str v) <= List.length (str (colorize_one v)))%nat.
Proof.
  intros H. rewrite strip_ansi_colorize, (strip_ansi_plain _ H).
  split; [reflexivity|]. unfold colorize_one.
  destruct (value_eqb v (Str "FAILED")) eqn:E1;
    [apply value_eqb_eq in E1; subst v; cbn; lia|].
  destruct (value_eqb v (Str "COMPLETED")) eqn:E2;
    [apply value_eqb_eq in E2; subst v; cbn; lia|].
  destruct (value_eqb v (Str "RUNNING")) eqn:E3;
    [apply value_eqb_eq in E3; subst v; cbn; lia|].
  lia.
Qed.

(** *** The widths of a table *)

Lemma printable_shown (h : text) (v : value) :
  esc_free (str v) = true -> printable h v = shown h v.
Proof.
  intros H. unfold printable, shown. rewrite (strip_ansi_plain _ H).
  reflexivity.
Qed.

Lemma startswith_app (p r : text) : Py.startswith (p ++ r) p = true.
Proof.
  induction p as [|c p IH]; [reflexivity|].
  cbn [app Py.startswith]. rewrite char_eqb_refl. exact IH.
Qed.

(** A marker at the end of a text goes. *)
Lemma sub_at_end_app (pat s : text) : sub_at_end pat (s ++ pat) = s.
Proof.
  unfold sub_at_end, Py.endswith. rewrite rev_app_distr, startswith_app.
  rewrite length_app, Nat.add_sub, firstn_app, Nat.sub_diag, firstn_all.
  cbn [firstn]. apply app_nil_r.
Qed.

Lemma esc_free_header (header : list text) :
  forallb esc_free header = true ->
  forallb (fun v => esc_free (str v)) (map Str header) = true.
Proof.
  induction header as [|h l IH]; [reflexivity|].
  cbn [forallb map]. intros H. apply andb_true_iff in H as [H1 H2].
  rewrite (IH H2). change (str (Str h)) with h. rewrite H1. reflexivity.
Qed.

Lemma cell_shown (i : nat) (h : text) (line : list value) :
  forallb (fun v => esc_free (str v)) line = true ->
  cell i h line = shown_length i h line.
Proof.
  intros H. unfold cell, shown_length.
  destruct (nth_error line i) as [v|] eqn:E; [|reflexivity].
  rewrite printable_shown; [reflexivity|].
  rewrite forallb_forall in H. apply H. apply (nth_error_In _ _ E).
Qed.

(** The widths of a table without escape characters, with or without
    coloring: the longest text shown in each column, and [space]. *)
Lemma getColumnWidths_shown (sacct_out : list record) (header : list text)
  (space : nat) (no_color : bool) :
  NoDup header ->
  Forall (fun r : record => List.length r = List.length header) sacct_out ->
  forallb esc_free header = true ->
  forallb (fun r => forallb (fun v => esc_free (str v)) (values r)) sacct_out
  = true ->
  exists widths,
    getColumnWidths sacct_out header space no_color = Ok widths
    /\ List.length widths = List.length header
    /\ forall i h,
         nth_error header i = Some h ->
         nth_error widths i
         = Some (list_max
                   (map (shown_length i h)
                        (map Str header :: map values sacct_out))
                 + space)%nat.
Proof.
  intros Hn Hr Hh Hc.
  destruct (getColumnWidths_cells sacct_out header space Hn Hr)
    as [widths [E [L F]]].
  exists widths. split; [|split; [exact L|]].
  - destruct no_color; [exact E|].
    unfold getColumnWidths in *. rewrite measure_lines_color. exact E.
  - intros i h Hi. rewrite (F i h Hi). do 3 f_equal.
    apply map_ext_in. intros line Hin. apply cell_shown.
    destruct Hin as [<- | Hin]; [apply esc_free_header; exact Hh|].
    apply in_map_iff in Hin as [r [<- Hin]].
    rewrite forallb_forall in Hc. apply Hc. exact Hin.
Qed.

(** C8. The widths computed with coloring are those computed without:
    the escape sequences that [colorize] adds do not count, a colored cell
    being measured as the text it shows.  For a header without repeated
    names and rows with as many cells as the header, the width of a column
    is the largest printable length among its header cell and its cells in
    the rows, plus [space], which the program sets to 2; and when no header
    name and no cell holds an escape character, the printable length of a
    cell is the length of its text, taken without the batch marker at its
    end in the identifier column. *)
Theorem getColumnWidths_ignores_color (sacct_out : list record)
  (header : list text) (space : nat) :
  getColumnWidths sacct_out header space false
  = getColumnWidths sacct_out header space true
  /\ (forall h v, printable h (colorize_one v) = printable h v)
  /\ (forall h v, esc_free (str v) = true ->
                  printable h (colorize_one v) = shown h v)
  /\ (forall s : text, shown "JobID" (Str (s ++ ".batch")) = s)
  /\ (NoDup header ->
      Forall (fun r : record => List.length r = List.length header) sacct_out ->
      exists widths,
        getColumnWidths sacct_out header space true = Ok widths
        /\ List.length widths = List.length header
        /\ forall i h,
             nth_error header i = Some h ->
             nth_error widths i
             = Some (list_max
                       (map (cell i h) (map Str header :: map values sacct_out))
                     + space)%nat)
  /\ (NoDup header ->
      Forall (fun r : record => List.length r = List.length header) sacct_out ->
      forallb esc_free header = true ->
      forallb (fun r => forallb (fun v => esc_free (str v)) (values r))
              sacct_out = true ->
      exists widths,
        getColumnWidths sacct_out header space false = Ok widths
        /\ List.length widths = List.length header
        /\ forall i h,
             nth_error header i = Some h ->
             nth_error widths i
             = Some (list_max
                       (map (shown_length i h)
                            (map Str header :: map values sacct_out))
                     + space)%nat).
Proof.
  split; [|split; [apply printable_colorize|split; [|split; [|split]]]].
  - unfold getColumnWidths. rewrite measure_lines_color. reflexivity.
  - intros h v H. rewrite printable_colorize. apply printable_shown. exact H.
  - intros s. unfold shown. cbn [str].
    change (Py.text_eqb (map Py.lower "JobID") "jobid") with true.
    cbv iota. apply sub_at_end_app.
  - apply getColumnWidths_cells.
  - apply getColumnWidths_shown.
Qed.

Lemma getColumnWidths_ignores_color_witness :
  getColumnWidths
    [[("JobID" : text, Str "12.batch"); ("State" : text, Str "RUNNING")];
     [("JobID" : text, Str "1"); ("State" : text, Str "a")]]
    ["JobID" : text; "State" : text] 2 false
  = Ok [7; 9]%nat.
Proof.
  destruct (getColumnWidths_ignores_color
              [[("JobID" : text, Str "12.batch"); ("State" : text, Str "RUNNING")];
               [("JobID" : text, Str "1"); ("State" : text, Str "a")]]
              ["JobID" : text; "State" : text] 2) as [_ [_ [_ [_ [_ H]]]]].
  destruct H as [widths [E [L F]]].
  - repeat constructor; simpl; intuition discriminate.
  - repeat constructor.
  - reflexivity.
  - reflexivity.
  - rewrite E. f_equal.
    pose proof (F 0%nat ("JobID" : text) eq_refl) as F0.
    pose proof (F 1%nat ("State" : text) eq_refl) as F1.
    destruct widths as [|a [|b [|c ws]]]; try discriminate L.
    cbn [nth_error] in F0, F1.
    injection F0 as ->. injection F1 as ->. reflexivity.
Defined.

Lemma pad_cells_cons (x : value) (line : list value) (w : nat)
  (col_widths : list nat) :
  pad_cells (x :: line) (w :: col_widths)
  = (r <- pad_cells line col_widths;;
     Ok (ljust (w + (List.length (str x)
                     - List.length (strip_ansi (str x)))) x ++ r)).
Proof. reflexivity. Qed.

(** Seen without the escape sequences, a row with coloring is the row
    without coloring. *)
Lemma pad_cells_colorize (col_widths : list nat) :
  forall line,
  forallb (fun v => esc_free (str v)) line = true ->
  match pad_cells (colorize line) col_widths, pad_cells line col_widths with
  | Ok tc, Ok t => strip_ansi tc = t
  | Raise e, Raise e' => e = e'
  | _, _ => False
  end.
Proof.
  induction col_widths as [|w ws IH]; intros line H;
    [destruct line; exact eq_refl|].
  destruct line as [|x line]; [exact eq_refl|].
  cbn [forallb] in H. apply andb_true_iff in H as [Hx H].
  change (colorize (x :: line)) with (colorize_one x :: colorize line).
  rewrite !pad_cells_cons. specialize (IH line H).
  destruct (pad_cells (colorize line) ws) as [tc|e],
    (pad_cells line ws) as [t|e']; cbn [bind]; try exact IH.
  cbv beta iota in IH.
  destruct (length_colorized x Hx) as [L1 L2]. rewrite L1.
  rewrite (strip_ansi_plain _ Hx). rewrite Nat.sub_diag, Nat.add_0_r.
  unfold ljust. rewrite <- !app_assoc.
  rewrite strip_ansi_colorized by exact Hx.
  rewrite (strip_ansi_app_plain _ _ (esc_free_spaces _)). rewrite IH.
  do 2 f_equal. f_equal. lia.
Qed.

(** X10. An aligned row of cells without escape characters: with coloring
    it is printed exactly when it is printed without, and with the escape
    sequences taken away it is the row without coloring. *)
Theorem tabulate_color_invisible (line : list value) (col_widths : list nat) :
  forallb (fun v => esc_free (str v)) line = true ->
  match tabulate line col_widths false false,
        tabulate line col_widths false true with
  | Ok tc, Ok t => strip_ansi tc = t
  | Raise e, Raise e' => e = e'
  | _, _ => False
  end.
Proof.
  intros H. unfold tabulate. cbn [negb].
  apply (pad_cells_colorize col_widths line H).
Qed.

Lemma tabulate_color_invisible_witness :
  match tabulate [Str "12"; Str "RUNNING"; Int 5] [4; 9; 3]%nat false false,
        tabulate [Str "12"; Str "RUNNING"; Int 5] [4; 9; 3]%nat false true with
  | Ok tc, Ok t => strip_ansi tc = t
  | Raise e, Raise e' => e = e'
  | _, _ => False
  end.
Proof.
  apply (tabulate_color_invisible [Str "12"; Str "RUNNING"; Int 5]
           [4; 9; 3]%nat).
  reflexivity.
Defined.

Lemma pad_cells_short (col_widths : list nat) :
  forall line,
  (List.length line < List.length col_widths)%nat ->
  pad_cells line col_widths = Raise IndexError.
Proof.
  induction col_widths as [|w ws IH]; intros line H; cbn [List.length] in H;
    [lia|].
  destruct line as [|x line]; [reflexivity|].
  rewrite pad_cells_cons. rewrite IH by (cbn [List.length] in H; lia).
  reflexivity.
Qed.

Lemma pad_cells_extra (col_widths : list nat) :
  forall line extra,
  List.length line = List.length col_widths ->
  pad_cells (line ++ extra) col_widths = pad_cells line col_widths.
Proof.
  induction col_widths as [|w ws IH]; intros line extra H.
  - destruct line; [|discriminate]. destruct extra; reflexivity.
  - destruct line as [|x line]; [discriminate|]. cbn [app].
    rewrite !pad_cells_cons. rewrite IH by (injection H; auto).
    reflexivity.
Qed.

Lemma length_ljust (w : nat) (x : value) :
  List.length (ljust w x) = Nat.max w (List.length (str x)).
Proof. unfold ljust. rewrite length_app, repeat_length. lia. Qed.

(** The length of an aligned row whose cells fit their widths. *)
Lemma pad_cells_length (col_widths : list nat) :
  forall line,
  List.length line = List.length col_widths ->
  forallb (fun v => esc_free (str v)) line = true ->
  Forall2 (fun v w => (List.length (str v) <= w)%nat) line col_widths ->
  exists t, pad_cells line col_widths = Ok t
            /\ List.length t = list_sum col_widths.
Proof.
  induction col_widths as [|w ws IH]; intros line Hl He Hf.
  - destruct line; [|discriminate]. exists []. split; reflexivity.
  - destruct line as [|x line]; [discriminate|].
    cbn [forallb] in He. apply andb_true_iff in He as [Hx He].
    inversion Hf as [|? ? ? ? Hw Hf']; subst.
    destruct (IH line) as [t [E L]]; [injection Hl; auto | exact He | exact Hf'|].
    rewrite pad_cells_cons, E. cbn [bind]. eexists. split; [reflexivity|].
    rewrite length_app, length_ljust, L.
    rewrite (strip_ansi_plain _ Hx).
    change (list_sum (w :: ws)) with (w + list_sum ws)%nat. lia.
Qed.

(** X11. An aligned row is made of as many cells as there are widths: a
    line with fewer cells raises [IndexError], the cells beyond the widths
    are not printed. *)
Theorem tabulate_cell_count (line extra : list value)
  (col_widths : list nat) (no_color : bool) :
  ((List.length line < List.length col_widths)%nat ->
   tabulate line col_widths false no_color = Raise IndexError)
  /\ (List.length line = List.length col_widths ->
      tabulate (line ++ extra) col_widths false no_color
      = tabulate line col_widths false no_color
      /\ exists t, tabulate line col_widths false no_color = Ok t).
Proof.
  unfold tabulate. split.
  - intros H. apply pad_cells_short.
    destruct no_color; cbn [negb]; [exact H|].
    unfold colorize. rewrite length_map. exact H.
  - intros H.
    assert (G : forall l : list value,
              List.length l = List.length col_widths ->
              exists t, pad_cells l col_widths = Ok t).
    { clear. induction col_widths as [|w ws IH]; intros l Hl.
      - destruct l; [|discriminate]. exists []. reflexivity.
      - destruct l as [|x l]; [discriminate|].
        destruct (IH l) as [t E]; [injection Hl; auto|].
        rewrite pad_cells_cons, E. cbn [bind]. eauto. }
    destruct no_color; cbn [negb].
    + split; [apply pad_cells_extra; exact H | apply G; exact H].
    + unfold colorize. rewrite map_app. split.
      * apply pad_cells_extra. rewrite length_map. exact H.
      * apply G. rewrite length_map. exact H.
Qed.

Lemma tabulate_cell_count_witness :
  tabulate [Str "12"] [4; 9]%nat false true = Raise IndexError
  /\ tabulate ([Str "12"; Str "a"] ++ [Str "more"]) [4; 9]%nat false true
     = tabulate [Str "12"; Str "a"] [4; 9]%nat false true.
Proof.
  destruct (tabulate_cell_count [Str "12"] [] [4; 9]%nat true) as [H _].
  destruct (tabulate_cell_count [Str "12"; Str "a"] [Str "more"]
              [4; 9]%nat true) as [_ G].
  split.
  - apply H. cbn. lia.
  - apply G. reflexivity.
Defined.

(** ** More on the column widths *)

Lemma measure_lines_app (header : list text) (pre rest : list record) :
  forall widths,
  Forall (fun r : record => List.length r = List.length header) pre ->
  List.length widths = List.length header ->
  measure_lines header true (pre ++ rest) widths
  = measure_lines header true rest
      (fold_left (fun ws line => widen header (values line) ws) pre widths).
Proof.
  induction pre as [|line pre IH]; intros widths Hd Hw; [reflexivity|].
  inversion Hd as [|? ? Hl Hd']; subst. cbn [app fold_left].
  assert (Hv : List.length (values line) = List.length header)
    by (unfold values; rewrite length_map; exact Hl).
  destruct (measure_line_widen header (values line) widths Hv Hw) as [E L].
  rewrite <- (IH _ Hd' L).
  cbn [measure_lines].
  assert (E0 : (if (List.length widths =? 0)%nat
                then repeat O (List.length line) else widths) = widths).
  { destruct (Nat.eqb_spec (List.length widths) 0) as [Z|Z]; [|reflexivity].
    rewrite Hl, <- Hw, Z. destruct widths; [reflexivity | discriminate]. }
  rewrite E0. rewrite Hw, Hl, Nat.eqb_refl. cbn [negb].
  rewrite E. reflexivity.
Qed.

(** X12. With a header of distinct names, not empty, a row that has not as
    many cells as the header fails the assertion of [getColumnWidths], with
    or without coloring, once the rows before it have been measured. *)
Theorem getColumnWidths_ragged (pre post : list record) (r : record)
  (header : list text) (space : nat) (no_color : bool) :
  header <> [] -> NoDup header ->
  Forall (fun r : record => List.length r = List.length header) pre ->
  List.length r <> List.length header ->
  getColumnWidths (pre ++ r :: post) header space no_color
  = Raise AssertionError.
Proof.
  intros Hne Hn Hp Hr.
  assert (G : getColumnWidths (pre ++ r :: post) header space true
              = Raise AssertionError).
  { unfold getColumnWidths.
    pose proof (header_record_nodup header Hn) as Hh.
    assert (Hl : List.length (header_record header) = List.length header)
      by (rewrite Hh; apply length_map).
    rewrite (measure_lines_start header _ _ Hl).
    change (header_record header :: pre ++ r :: post)
      with ((header_record header :: pre) ++ r :: post).
    rewrite measure_lines_app;
      [|constructor; assumption | apply repeat_length].
    set (ws := fold_left _ _ _).
    assert (Lw : List.length ws = List.length header).
    { apply length_fold_widen; [constructor; assumption|apply repeat_length]. }
    cbn [measure_lines].
    destruct (Nat.eqb_spec (List.length ws) 0) as [Z|Z].
    - rewrite Lw in Z. destruct header; [contradiction | discriminate].
    - rewrite Lw.
      destruct (Nat.eqb_spec (List.length header) (List.length r)) as [Q|Q];
        [congruence | reflexivity]. }
  destruct no_color; [exact G|].
  unfold getColumnWidths in *. rewrite measure_lines_color. exact G.
Qed.

Lemma getColumnWidths_ragged_witness :
  getColumnWidths
    ([[("JobID" : text, Str "1"); ("State" : text, Str "a")]]
     ++ [("JobID" : text, Str "2")] :: [])
    ["JobID" : text; "State" : text] 2 false
  = Raise AssertionError.
Proof.
  apply (getColumnWidths_ragged
           [[("JobID" : text, Str "1"); ("State" : text, Str "a")]] []
           [("JobID" : text, Str "2")]
           ["JobID" : text; "State" : text] 2 false).
  - discriminate.
  - repeat constructor; simpl; intuition discriminate.
  - repeat constructor.
  - discriminate.
Defined.

Lemma Forall2_nth_error {A B : Type} (R : A -> B -> Prop) (l1 : list A) :
  forall l2,
  List.length l1 = List.length l2 ->
  (forall i a b, nth_error l1 i = Some a -> nth_error l2 i = Some b -> R a b) ->
  Forall2 R l1 l2.
Proof.
  induction l1 as [|x l1 IH]; intros [|y l2] Hl H; try discriminate.
  - constructor.
  - constructor; [apply (H O); reflexivity|].
    apply IH; [injection Hl; auto|].
    intros i a b Ha Hb. apply (H (S i)); assumption.
Qed.

Lemma plain_cells_nth (header : list text) :
  forall line i h v,
  plain_cells header line = true ->
  nth_error header i = Some h -> nth_error line i = Some v ->
  plain_cell h v = true.
Proof.
  induction header as [|h0 header IH]; intros line i h v Hp Hh Hv.
  - destruct i; discriminate.
  - destruct line as [|v0 line]; [destruct i; discriminate|].
    cbn [plain_cells] in Hp. apply andb_true_iff in Hp as [H0 Hp].
    destruct i as [|i]; cbn [nth_error] in *.
    + injection Hh as <-. injection Hv as <-. exact H0.
    + apply (IH line i h v Hp Hh Hv).
Qed.

Lemma plain_cells_esc_free (header : list text) :
  forall line,
  List.length line = List.length header ->
  plain_cells header line = true ->
  forallb (fun v => esc_free (str v)) line = true.
Proof.
  induction header as [|h header IH]; intros [|v line] Hl Hp;
    try discriminate; [reflexivity|].
  cbn [plain_cells] in Hp. apply andb_true_iff in Hp as [H0 Hp].
  unfold plain_cell in H0. apply andb_true_iff in H0 as [H0 _].
  cbn [forallb]. rewrite H0. apply IH; [injection Hl; auto | exact Hp].
Qed.

Lemma list_max_In (n : nat) (l : list nat) : In n l -> (n <= list_max l)%nat.
Proof.
  intros H. pose proof (proj1 (list_max_le l (list_max l)) (Nat.le_refl _)) as F.
  rewrite Forall_forall in F. apply F. exact H.
Qed.

(** The widths leave room for every plain cell of every measured line. *)
Lemma widths_fit (header : list text) (lines : list record) (line : record)
  (space : nat) :
  Forall (fun r : record => List.length r = List.length header) lines ->
  In line lines ->
  plain_cells header (values line) = true ->
  Forall2 (fun v w => (List.length (str v) <= w)%nat) (values line)
    (map (fun x => (x + space)%nat)
       (fold_left (fun ws l => widen header (values l) ws) lines
                  (repeat O (List.length header)))).
Proof.
  intros Hd Hin Hp.
  assert (Hl : List.length line = List.length header)
    by (rewrite Forall_forall in Hd; apply Hd; exact Hin).
  apply Forall2_nth_error.
  - rewrite length_map. unfold values. rewrite length_map.
    rewrite (length_fold_widen header lines _ Hd (repeat_length _ _)).
    exact Hl.
  - intros i v w Hv Hw. rewrite nth_error_map in Hw.
    assert (Hi : (i < List.length header)%nat).
    { rewrite <- Hl. unfold values in Hv.
      rewrite <- (length_map snd line). apply nth_error_Some. congruence. }
    destruct (nth_error header i) as [h|] eqn:Hh;
      [|apply nth_error_None in Hh; lia].
    rewrite (nth_error_fold_widen header lines _ i h Hd (repeat_length _ _) Hh)
      in Hw.
    cbn [option_map] in Hw. injection Hw as <-.
    pose proof (plain_cells_nth header _ i h v Hp Hh Hv) as Pc.
    unfold plain_cell in Pc. apply andb_true_iff in Pc as [_ Pc].
    apply text_eqb_eq in Pc.
    assert (C : cell i h (values line) = List.length (str v))
      by (unfold cell; rewrite Hv, Pc; reflexivity).
    assert (M : (cell i h (values line)
                 <= list_max (map (fun r => cell i h (values r)) lines))%nat).
    { apply list_max_In. apply in_map_iff. exists line. auto. }
    lia.
Qed.

(** ** The printed table *)

Lemma print_rows_aligned (col_widths : list nat) (rows : list record) :
  Forall (fun r => exists t, tabulate (values r) col_widths false true = Ok t
                             /\ List.length t = list_sum col_widths) rows ->
  exists ts, print_rows col_widths false true rows = (ts, Ok tt)
             /\ List.length ts = List.length rows
             /\ Forall (fun t => List.length t = list_sum col_widths) ts.
Proof.
  intros H. induction H as [|r rows [t [E L]] _ [ts [Es [Ls Fs]]]].
  - exists []. repeat split. constructor.
  - exists (t :: ts). cbn [print_rows]. rewrite E, Es.
    repeat split; [cbn [List.length]; lia | constructor; assumption].
Qed.

(** X13. The aligned table without coloring, for a header of distinct names
    and rows with as many cells as the header, all cells plain: the program
    prints the header line, one line for each row and the header line
    again, and every line is as long as the sum of the column widths, so
    that the columns stand under one another. *)
Theorem print_table_aligned (printablefmt : list text)
  (sacct_mrg : list record) :
  NoDup printablefmt ->
  Forall (fun r : record => List.length r = List.length printablefmt)
         sacct_mrg ->
  plain_cells printablefmt (map Str printablefmt) = true ->
  forallb (fun r => plain_cells printablefmt (values r)) sacct_mrg = true ->
  exists col_widths top ts,
    getColumnWidths sacct_mrg printablefmt 2 true = Ok col_widths
    /\ print_table printablefmt sacct_mrg false true
       = (top :: ts ++ [top], Ok tt)
    /\ List.length ts = List.length sacct_mrg
    /\ Forall (fun t => List.length t = list_sum col_widths)
              (top :: ts ++ [top]).
Proof.
  intros Hn Hr Hph Hpr.
  pose proof (header_record_nodup printablefmt Hn) as Hh.
  assert (Hl : List.length (header_record printablefmt)
               = List.length printablefmt)
    by (rewrite Hh; apply length_map).
  assert (Hd : Forall (fun r : record => List.length r
                                         = List.length printablefmt)
                      (header_record printablefmt :: sacct_mrg))
    by (constructor; assumption).
  set (ws := map (fun x => (x + 2)%nat)
               (fold_left (fun ws l => widen printablefmt (values l) ws)
                          (header_record printablefmt :: sacct_mrg)
                          (repeat O (List.length printablefmt)))).
  assert (Gw : getColumnWidths sacct_mrg printablefmt 2 true = Ok ws).
  { unfold getColumnWidths.
    rewrite (measure_lines_start printablefmt _ sacct_mrg Hl).
    rewrite (measure_lines_widen printablefmt _ _ Hd (repeat_length _ _)).
    reflexivity. }
  assert (Lw : List.length ws = List.length printablefmt).
  { unfold ws. rewrite length_map.
    apply (length_fold_widen printablefmt _ _ Hd (repeat_length _ _)). }
  assert (Line : forall line : record,
            In line (header_record printablefmt :: sacct_mrg) ->
            plain_cells printablefmt (values line) = true ->
            exists t, tabulate (values line) ws false true = Ok t
                      /\ List.length t = list_sum ws).
  { intros line Hin Hp. unfold tabulate. cbn [negb].
    assert (Hll : List.length line = List.length printablefmt)
      by (rewrite Forall_forall in Hd; apply Hd; exact Hin).
    apply pad_cells_length.
    - unfold values. rewrite length_map. congruence.
    - apply (plain_cells_esc_free printablefmt); [|exact Hp].
      unfold values. rewrite length_map. exact Hll.
    - apply (widths_fit printablefmt _ line 2 Hd Hin Hp). }
  assert (Vh : values (header_record printablefmt) = map Str printablefmt)
    by (rewrite Hh; apply values_header).
  destruct (Line (header_record printablefmt)) as [top [Et Lt]];
    [left; reflexivity | rewrite Vh; exact Hph |].
  rewrite Vh in Et.
  destruct (print_rows_aligned ws sacct_mrg) as [ts [Es [Ls Fs]]].
  { apply Forall_forall. intros r Hin. apply Line; [right; exact Hin|].
    rewrite forallb_forall in Hpr. apply Hpr. exact Hin. }
  exists ws, top, ts. split; [exact Gw|]. split; [|split; [exact Ls|]].
  - unfold print_table. rewrite Gw, Et, Es. reflexivity.
  - constructor; [exact Lt|]. apply Forall_app. split; [exact Fs|].
    constructor; [exact Lt | constructor].
Qed.

Lemma print_table_aligned_witness :
  exists col_widths top ts,
    getColumnWidths
      [[("JobID" : text, Str "12"); ("State" : text, Str "RUNNING")];
       [("JobID" : text, Str "1"); ("State" : text, Int 5)]]
      ["JobID" : text; "State" : text] 2 true = Ok col_widths
    /\ print_table ["JobID" : text; "State" : text]
         [[("JobID" : text, Str "12"); ("State" : text, Str "RUNNING")];
          [("JobID" : text, Str "1"); ("State" : text, Int 5)]] false true
       = (top :: ts ++ [top], Ok tt)
    /\ List.length ts = 2%nat
    /\ Forall (fun t => List.length t = list_sum col_widths)
              (top :: ts ++ [top]).
Proof.
  apply (print_table_aligned ["JobID" : text; "State" : text]
           [[("JobID" : text, Str "12"); ("State" : text, Str "RUNNING")];
            [("JobID" : text, Str "1"); ("State" : text, Int 5)]]).
  - repeat constructor; simpl; intuition discriminate.
  - repeat constructor.
  - reflexivity.
  - reflexivity.
Defined.

Lemma print_rows_colorize (col_widths : list nat) (rows : list record) :
  forallb (fun r => forallb (fun v => esc_free (str v)) (values r)) rows
  = true ->
  print_rows col_widths false true rows
  = (map strip_ansi (fst (print_rows col_widths false false rows)),
     snd (print_rows col_widths false false rows)).
Proof.
  induction rows as [|r rows IH]; intros H; [reflexivity|].
  cbn [forallb] in H. apply andb_true_iff in H as [Hr H].
  specialize (IH H). cbn [print_rows].
  pose proof (pad_cells_colorize col_widths (values r) Hr) as P.
  unfold tabulate. cbn [negb].
  destruct (pad_cells (colorize (values r)) col_widths) as [tc|e],
    (pad_cells (values r) col_widths) as [t|e'];
    try contradiction; [|subst; reflexivity].
  rewrite IH.
  destruct (print_rows col_widths false false rows) as [ts res].
  cbn [fst snd map]. rewrite P. reflexivity.
Qed.

(** X14. For a header and cells without escape characters, the table printed
    with coloring is, with the escape sequences taken away, line by line
    the table printed without coloring, and the program ends in the same
    way (the same exception, if any, after the same number of lines). *)
Theorem print_table_color_invisible (printablefmt : list text)
  (sacct_mrg : list record) :
  forallb esc_free printablefmt = true ->
  forallb (fun r => forallb (fun v => esc_free (str v)) (values r)) sacct_mrg
  = true ->
  print_table printablefmt sacct_mrg false true
  = (map strip_ansi (fst (print_table printablefmt sacct_mrg false false)),
     snd (print_table printablefmt sacct_mrg false false)).
Proof.
  intros Hh Hr. unfold print_table.
  assert (G : getColumnWidths sacct_mrg printablefmt 2 false
              = getColumnWidths sacct_mrg printablefmt 2 true)
    by (unfold getColumnWidths; rewrite measure_lines_color; reflexivity).
  rewrite G.
  destruct (getColumnWidths sacct_mrg printablefmt 2 true) as [ws|e];
    [|reflexivity].
  assert (Hh' : forallb (fun v => esc_free (str v)) (map Str printablefmt)
                = true).
  { clear -Hh. induction printablefmt as [|h l IH]; [reflexivity|].
    cbn [forallb map] in *. apply andb_true_iff in Hh as [H1 H2].
    rewrite (IH H2). change (str (Str h)) with h. rewrite H1. reflexivity. }
  pose proof (pad_cells_colorize ws (map Str printablefmt) Hh') as P.
  unfold tabulate. cbn [negb].
  destruct (pad_cells (colorize (map Str printablefmt)) ws) as [tc|e],
    (pad_cells (map Str printablefmt) ws) as [t|e'];
    try contradiction; [|subst; reflexivity].
  rewrite (print_rows_colorize ws sacct_mrg Hr).
  destruct (print_rows ws false false sacct_mrg) as [ts [[]|e]];
    cbn [fst snd map]; rewrite ?map_app; cbn [map]; rewrite P; reflexivity.
Qed.

Lemma print_table_color_invisible_witness :
  print_table ["JobID" : text; "State" : text]
    [[("JobID" : text, Str "12"); ("State" : text, Str "RUNNING")];
     [("JobID" : text, Str "13"); ("State" : text, Str "FAILED")]] false true
  = (map strip_ansi
       (fst (print_table ["JobID" : text; "State" : text]
          [[("JobID" : text, Str "12"); ("State" : text, Str "RUNNING")];
           [("JobID" : text, Str "13"); ("State" : text, Str "FAILED")]]
          false false)),
     snd (print_table ["JobID" : text; "State" : text]
          [[("JobID" : text, Str "12"); ("State" : text, Str "RUNNING")];
           [("JobID" : text, Str "13"); ("State" : text, Str "FAILED")]]
          false false)).
Proof.
  apply (print_table_color_invisible ["JobID" : text; "State" : text]
    [[("JobID" : text, Str "12"); ("State" : text, Str "RUNNING")];
     [("JobID" : text, Str "13"); ("State" : text, Str "FAILED")]]);
    reflexivity.
Defined.

Lemma print_rows_tsv (col_widths : list nat) (no_color : bool)
  (rows : list record) :
  print_rows col_widths true no_color rows
  = (map (fun r => Py.join tab (map str (values r))) rows, Ok tt).
Proof.
  induction rows as [|r rows IH]; [reflexivity|].
  cbn [print_rows tabulate]. rewrite IH. reflexivity.
Qed.

(** X15. The tab-separated table, for a header of distinct names and rows
    with as many cells as the header: the header joined with tabs, each
    row's cells joined with tabs, and the header once more as the last
    line; the widths are computed and not used. *)
Theorem print_table_tsv (printablefmt : list text) (sacct_mrg : list record)
  (no_color : bool) :
  NoDup printablefmt ->
  Forall (fun r : record => List.length r = List.length printablefmt)
         sacct_mrg ->
  print_table printablefmt sacct_mrg true no_color
  = (Py.join tab printablefmt
       :: map (fun r => Py.join tab (map str (values r))) sacct_mrg
       ++ [Py.join tab printablefmt], Ok tt).
Proof.
  intros Hn Hr.
  pose proof (header_record_nodup printablefmt Hn) as Hh.
  assert (Hl : List.length (header_record printablefmt)
               = List.length printablefmt)
    by (rewrite Hh; apply length_map).
  assert (Hd : Forall (fun r : record => List.length r
                                         = List.length printablefmt)
                      (header_record printablefmt :: sacct_mrg))
    by (constructor; assumption).
  assert (Gw : exists ws, getColumnWidths sacct_mrg printablefmt 2 no_color
                          = Ok ws).
  { unfold getColumnWidths.
    assert (E : measure_lines printablefmt no_color
                  (header_record printablefmt :: sacct_mrg) []
                = measure_lines printablefmt true
                    (header_record printablefmt :: sacct_mrg) [])
      by (destruct no_color; [reflexivity | apply measure_lines_color]).
    rewrite E.
    rewrite (measure_lines_start printablefmt _ sacct_mrg Hl).
    rewrite (measure_lines_widen printablefmt _ _ Hd (repeat_length _ _)).
    eexists. reflexivity. }
  destruct Gw as [ws Gw]. unfold print_table. rewrite Gw.
  cbn [tabulate]. rewrite print_rows_tsv.
  rewrite map_map. cbn [str]. rewrite map_id. reflexivity.
Qed.

Lemma print_table_tsv_witness :
  print_table ["JobID" : text; "State" : text]
    [[("JobID" : text, Str "12"); ("State" : text, Str "RUNNING")]] true true
  = (Py.join tab ["JobID" : text; "State" : text]
       :: map (fun r => Py.join tab (map str (values r)))
            [[("JobID" : text, Str "12"); ("State" : text, Str "RUNNING")]]
       ++ [Py.join tab ["JobID" : text; "State" : text]], Ok tt).
Proof.
  apply (print_table_tsv ["JobID" : text; "State" : text]
    [[("JobID" : text, Str "12"); ("State" : text, Str "RUNNING")]] true).
  - repeat constructor; simpl; intuition discriminate.
  - repeat constructor.
Defined.

(** ** More on [simplify_datetime] *)

Lemma mapM_scan_date_keys (col : text) (data : list record) :
  forallb (has_key col) data = true ->
  mapM (scan_date col) data = Ok (map (scanned col) data).
Proof.
  induction data as [|r data IH]; [reflexivity|].
  cbn [forallb]. intros H. apply andb_true_iff in H as [Hr H].
  cbn [mapM map]. rewrite (IH H).
  apply has_key_lookup in Hr as [v Hr].
  unfold scan_date, getitem, scanned. rewrite Hr.
  destruct v; reflexivity.
Qed.

Lemma mapM_scan_date_missing (col : text) (data : list record) :
  (exists r, In r data /\ lookup col r = None) ->
  mapM (scan_date col) data = Raise (KeyError col).
Proof.
  induction data as [|r data IH]; intros [x [Hin Hx]]; [destruct Hin|].
  cbn [mapM]. unfold scan_date at 1, getitem.
  destruct (lookup col r) as [v|] eqn:E; [|reflexivity].
  destruct Hin as [<- | Hin]; [congruence|].
  rewrite (IH (ex_intro _ x (conj Hin Hx))).
  destruct v; reflexivity.
Qed.

Lemma text_column_keys (col : text) (data : list record) :
  text_column col data = true -> forallb (has_key col) data = true.
Proof.
  unfold text_column. induction data as [|r data IH]; [reflexivity|].
  cbn [forallb]. intros H. apply andb_true_iff in H as [Hr H].
  rewrite (IH H). unfold has_key.
  destruct (lookup col r) as [[s|z]|]; try discriminate. reflexivity.
Qed.

Lemma all_same_scanned (proj : Strptime.datetime -> Z) (today : Z)
  (col : text) (data : list record) :
  all_same proj today (map (scanned col) data)
  = same_as_today proj today col data.
Proof.
  unfold all_same, same_as_today.
  induction data as [|r data IH]; [reflexivity|].
  cbn [map forallb]. rewrite IH. reflexivity.
Qed.

(** The third loop on a column of strings. *)
Lemma simplify_lines_text (sy sm sd : bool) (col : text)
  (data : list record) :
  text_column col data = true ->
  exists out,
    simplify_lines sy sm sd col data (map (scanned col) data) = Ok out
    /\ Forall2 (fun o r =>
         exists s, lookup col r = Some (Str s)
           /\ o = setitem r col
                   (Str (match Strptime.strptime s with
                         | Some d =>
                             if sy && sm && sd then sub_upto_T s
                             else if sy && sm then weekday_form s d
                             else Py.replace s "T" " "
                         | None => Py.replace s "Unknown" ""
                         end))) out data.
Proof.
  unfold text_column. induction data as [|r data IH]; intros H.
  - exists []. split; [reflexivity | constructor].
  - cbn [forallb] in H. apply andb_true_iff in H as [Hr H].
    destruct (IH H) as [out [E F]].
    destruct (lookup col r) as [[s|z]|] eqn:L; try discriminate.
    exists (setitem r col
              (Str (match Strptime.strptime s with
                    | Some d =>
                        if sy && sm && sd then sub_upto_T s
                        else if sy && sm then weekday_form s d
                        else Py.replace s "T" " "
                    | None => Py.replace s "Unknown" ""
                    end)) :: out).
    split.
    + cbn [map simplify_lines]. rewrite E.
      unfold simplify_line, getitem, scanned. rewrite L. cbn [bind].
      destruct (Strptime.strptime s) as [d|];
        [destruct (sy && sm && sd); [|destruct (sy && sm)]|];
        cbn [bind]; reflexivity.
    + constructor; [|exact F]. exists s. split; [exact L | reflexivity].
Qed.

Lemma simplify_datetime_text (today : date) (data : list record)
  (col : text) :
  text_column col data = true ->
  simplify_datetime today data col
  = simplify_lines (same_as_today Strptime.year (today_year today) col data)
      (same_as_today Strptime.month (today_month today) col data)
      (same_as_today Strptime.day (today_day today) col data)
      col data (map (scanned col) data).
Proof.
  intros H. unfold simplify_datetime.
  rewrite (mapM_scan_date_keys col data (text_column_keys col data H)).
  cbn [bind]. rewrite !all_same_scanned. reflexivity.
Qed.

Lemma after_last_T_none (l : text) :
  forallb (fun c => negb (Py.char_eqb c "T")) l = true ->
  after_last_T l = None.
Proof.
  induction l as [|c l IH]; [reflexivity|].
  cbn [forallb after_last_T]. intros H. apply andb_true_iff in H as [Hc H].
  rewrite (IH H). apply negb_true_iff in Hc. rewrite Hc. reflexivity.
Qed.

Lemma after_last_T_pass (c : ascii) (l r : text) :
  after_last_T l = Some r -> after_last_T (c :: l) = Some r.
Proof. intros H. cbn [after_last_T]. rewrite H. reflexivity. Qed.

(** Of a zero-padded timestamp, what follows the [T] is the time of day. *)
Lemma sub_upto_T_zero_padded (s : text) :
  zero_padded s = true -> sub_upto_T s = skipn 11 s.
Proof.
  intros Z.
  destruct (zero_padded_inv s Z)
    as (y1 & y2 & y3 & y4 & m1 & m2 & d1 & d2 & h1 & h2 & n1 & n2 & s1 & s2
        & -> & D).
  unfold all_digits in D. cbn [forallb] in D.
  repeat (apply andb_true_iff in D; destruct D as [? D]).
  unfold sub_upto_T.
  rewrite split_plain.
  2:{ unfold Py.mem_char. cbn [existsb].
      repeat match goal with
        | H : Py.isdigit ?c = true |- context [Py.char_eqb "010" ?c] =>
            replace (Py.char_eqb "010" c) with false
              by (clear -H; digit_cases H; reflexivity)
        end.
      reflexivity. }
  cbn [map Py.join skipn].
  assert (N : after_last_T [h1; h2; ":"%char; n1; n2; ":"%char; s1; s2]
              = None).
  { apply after_last_T_none. cbn [forallb].
    rewrite (digit_not_T h1), (digit_not_T h2), (digit_not_T n1),
      (digit_not_T n2), (digit_not_T s1), (digit_not_T s2) by assumption.
    reflexivity. }
  assert (E : after_last_T
                ("T"%char :: [h1; h2; ":"%char; n1; n2; ":"%char; s1; s2])
              = Some [h1; h2; ":"%char; n1; n2; ":"%char; s1; s2]).
  { cbn [after_last_T] in *. rewrite N. reflexivity. }
  assert (E' : after_last_T
                 [y1; y2; y3; y4; "-"%char; m1; m2; "-"%char; d1; d2;
                  "T"%char; h1; h2; ":"%char; n1; n2; ":"%char; s1; s2]
               = Some [h1; h2; ":"%char; n1; n2; ":"%char; s1; s2])
    by (do 10 apply after_last_T_pass; exact E).
  rewrite E'. reflexivity.
Qed.

(** Of a zero-padded timestamp, the [T] alone is replaced. *)
Lemma replace_T_zero_padded (s : text) :
  zero_padded s = true ->
  Py.replace s "T" " " = firstn 10 s ++ " " ++ skipn 11 s.
Proof.
  intros Z.
  destruct (zero_padded_inv s Z)
    as (y1 & y2 & y3 & y4 & m1 & m2 & d1 & d2 & h1 & h2 & n1 & n2 & s1 & s2
        & -> & D).
  unfold all_digits in D. cbn [forallb] in D.
  repeat (apply andb_true_iff in D; destruct D as [? D]).
  unfold Py.replace.
  change (list_ascii_of_string "T") with ["T"%char].
  do 4 (rewrite replace_from_miss
          by (cbn [Py.startswith]; rewrite digit_not_T by assumption;
              reflexivity)).
  rewrite replace_from_miss by reflexivity.
  do 2 (rewrite replace_from_miss
          by (cbn [Py.startswith]; rewrite digit_not_T by assumption;
              reflexivity)).
  rewrite replace_from_miss by reflexivity.
  do 2 (rewrite replace_from_miss
          by (cbn [Py.startswith]; rewrite digit_not_T by assumption;
              reflexivity)).
  rewrite replace_from_hit by reflexivity.
  cbn [List.length Nat.pred].
  do 2 (rewrite replace_from_miss
          by (cbn [Py.startswith]; rewrite digit_not_T by assumption;
              reflexivity)).
  rewrite replace_from_miss by reflexivity.
  do 2 (rewrite replace_from_miss
          by (cbn [Py.startswith]; rewrite digit_not_T by assumption;
              reflexivity)).
  rewrite replace_from_miss by reflexivity.
  do 2 (rewrite replace_from_miss
          by (cbn [Py.startswith]; rewrite digit_not_T by assumption;
              reflexivity)).
  reflexivity.
Qed.

Lemma Forall2_weaken {A B : Type} (P Q : A -> B -> Prop) (l1 : list A)
  (l2 : list B) :
  (forall a b, P a b -> Q a b) -> Forall2 P l1 l2 -> Forall2 Q l1 l2.
Proof. intros H F. induction F; constructor; auto. Qed.

(** X16. When every value of the column that parses is of today, year,
    month and day, the values that parse are cut down to what follows
    their last [T], for a zero-padded timestamp the time of day, and the
    values that do not parse lose every [Unknown]. *)
Theorem simplify_datetime_today (today : date) (data : list record)
  (col : text) :
  text_column col data = true ->
  same_as_today Strptime.year (today_year today) col data = true ->
  same_as_today Strptime.month (today_month today) col data = true ->
  same_as_today Strptime.day (today_day today) col data = true ->
  (exists out,
     simplify_datetime today data col = Ok out
     /\ Forall2 (simplified_by sub_upto_T col) out data)
  /\ forall s, zero_padded s = true -> sub_upto_T s = skipn 11 s.
Proof.
  intros Ht Hy Hm Hd. split; [|exact sub_upto_T_zero_padded].
  rewrite (simplify_datetime_text today data col Ht), Hy, Hm, Hd.
  destruct (simplify_lines_text true true true col data Ht) as [out [E F]].
  exists out. split; [exact E|].
  revert F. apply Forall2_weaken. intros o r [s [L ->]].
  exists s. split; [exact L|]. unfold parses.
  destruct (Strptime.strptime s); reflexivity.
Qed.

Lemma simplify_datetime_today_witness :
  (exists out,
     simplify_datetime (Date 2024 5 1)
       [start_record "1" "2024-05-01T10:00:00"; start_record "2" "Unknown"]
       "Start" = Ok out
     /\ Forall2 (simplified_by sub_upto_T "Start") out
          [start_record "1" "2024-05-01T10:00:00";
           start_record "2" "Unknown"])
  /\ sub_upto_T "2024-05-01T10:00:00" = skipn 11 "2024-05-01T10:00:00".
Proof.
  destruct (simplify_datetime_today (Date 2024 5 1)
              [start_record "1" "2024-05-01T10:00:00";
               start_record "2" "Unknown"] "Start") as [H Z];
    try reflexivity.
  split; [exact H | apply Z; reflexivity].
Defined.

(** X17. When some value of the column that parses is of another year or
    another month than today's, the values that parse keep their date and
    have every [T] replaced by a blank, for a zero-padded timestamp the
    date, a blank and the time, and the values that do not parse lose
    every [Unknown]. *)
Theorem simplify_datetime_other_month (today : date) (data : list record)
  (col : text) :
  text_column col data = true ->
  same_as_today Strptime.year (today_year today) col data
  && same_as_today Strptime.month (today_month today) col data = false ->
  (exists out,
     simplify_datetime today data col = Ok out
     /\ Forall2 (simplified_by (fun s => Py.replace s "T" " ") col) out data)
  /\ forall s, zero_padded s = true ->
               Py.replace s "T" " " = firstn 10 s ++ " " ++ skipn 11 s.
Proof.
  intros Ht Hf. split; [|exact replace_T_zero_padded].
  rewrite (simplify_datetime_text today data col Ht).
  destruct (simplify_lines_text
              (same_as_today Strptime.year (today_year today) col data)
              (same_as_today Strptime.month (today_month today) col data)
              (same_as_today Strptime.day (today_day today) col data)
              col data Ht) as [out [E F]].
  exists out. split; [exact E|].
  revert F. apply Forall2_weaken. intros o r [s [L ->]].
  exists s. split; [exact L|]. unfold parses. rewrite Hf.
  destruct (Strptime.strptime s); reflexivity.
Qed.

Lemma simplify_datetime_other_month_witness :
  (exists out,
     simplify_datetime (Date 2024 5 1)
       [start_record "1" "2024-04-30T10:00:00"; start_record "2" "Unknown"]
       "Start" = Ok out
     /\ Forall2 (simplified_by (fun s => Py.replace s "T" " ") "Start") out
          [start_record "1" "2024-04-30T10:00:00";
           start_record "2" "Unknown"])
  /\ Py.replace "2024-04-30T10:00:00" "T" " "
     = firstn 10 "2024-04-30T10:00:00" ++ " " ++ skipn 11 "2024-04-30T10:00:00".
Proof.
  destruct (simplify_datetime_other_month (Date 2024 5 1)
              [start_record "1" "2024-04-30T10:00:00";
               start_record "2" "Unknown"] "Start") as [H Z];
    try reflexivity.
  split; [exact H | apply Z; reflexivity].
Defined.

Lemma mapM_length {A B : Type} (f : A -> result B) (l : list A) :
  forall ys, mapM f l = Ok ys -> List.length ys = List.length l.
Proof.
  induction l as [|x l IH]; intros ys; cbn [mapM].
  - intros [= <-]. reflexivity.
  - destruct (f x) as [y|e]; [|discriminate]. cbn [bind].
    destruct (mapM f l) as [zs|e]; [|discriminate]. cbn [bind].
    intros [= <-]. cbn [List.length]. rewrite (IH zs eq_refl). reflexivity.
Qed.

Lemma simplify_line_frame (sy sm sd : bool) (col : text) (line o : record)
  (xdt : option Strptime.datetime) :
  simplify_line sy sm sd col line xdt = Ok o -> same_but_column col o line.
Proof.
  unfold simplify_line, getitem.
  destruct (lookup col line) as [[s|z]|] eqn:L; try discriminate.
  cbn [bind]. intros H.
  assert (G : exists t, o = setitem line col (Str t)).
  { destruct xdt as [d|];
      [destruct (sy && sm && sd); [|destruct (sy && sm)]|];
      injection H as <-; eauto. }
  destruct G as [t ->]. split; [|split].
  - apply columns_setitem. unfold has_key. rewrite L. reflexivity.
  - intros k Hk. apply lookup_setitem_neq. exact Hk.
  - exists t. apply lookup_setitem_eq.
Qed.

Lemma simplify_lines_frame (sy sm sd : bool) (col : text)
  (data : list record) :
  forall dt out,
  List.length dt = List.length data ->
  simplify_lines sy sm sd col data dt = Ok out ->
  Forall2 (same_but_column col) out data.
Proof.
  induction data as [|r data IH]; intros dt out Hl.
  - cbn [simplify_lines]. intros [= <-]. constructor.
  - destruct dt as [|x dt]; [discriminate|]. cbn [simplify_lines].
    destruct (simplify_line sy sm sd col r x) as [o|e] eqn:E; [|discriminate].
    cbn [bind].
    destruct (simplify_lines sy sm sd col data dt) as [os|e] eqn:Es;
      [|discriminate].
    cbn [bind]. intros [= <-]. constructor.
    + exact (simplify_line_frame _ _ _ _ _ _ _ E).
    + apply (IH dt os); [injection Hl; auto | exact Es].
Qed.

Lemma simplify_lines_int (sy sm sd : bool) (col : text)
  (data : list record) :
  forallb (has_key col) data = true ->
  (exists r z, In r data /\ lookup col r = Some (Int z)) ->
  forall f : record -> option Strptime.datetime,
  simplify_lines sy sm sd col data (map f data) = Raise TypeError.
Proof.
  induction data as [|r data IH]; intros Hk [x [z [Hin Hx]]] f;
    [destruct Hin|].
  cbn [forallb] in Hk. apply andb_true_iff in Hk as [Hr Hk].
  cbn [map simplify_lines]. unfold simplify_line at 1, getitem.
  apply has_key_lookup in Hr as [v Hr]. rewrite Hr. cbn [bind].
  destruct v as [s|z']; [|reflexivity].
  destruct Hin as [<- | Hin]; [congruence|].
  rewrite (IH Hk (ex_intro _ x (ex_intro _ z (conj Hin Hx))) f).
  destruct (f r) as [d|];
    [destruct (sy && sm && sd); [|destruct (sy && sm)]|]; reflexivity.
Qed.

(** X18. How [simplify_datetime] ends.  When a record lacks the column it
    raises [KeyError] for the column; when every record has the column and
    one holds an integer there it raises [TypeError]; and when it returns,
    every record of the result has the columns of the record it comes
    from, in their order, and the values of that record in every column
    but the named one. *)
Theorem simplify_datetime_outcome (today : date) (data : list record)
  (col : text) :
  ((exists r, In r data /\ lookup col r = None) ->
   simplify_datetime today data col = Raise (KeyError col))
  /\ (forallb (has_key col) data = true ->
      (exists r z, In r data /\ lookup col r = Some (Int z)) ->
      simplify_datetime today data col = Raise TypeError)
  /\ (forall out, simplify_datetime today data col = Ok out ->
      Forall2 (same_but_column col) out data).
Proof.
  split; [|split].
  - intros H. unfold simplify_datetime.
    rewrite (mapM_scan_date_missing col data H). reflexivity.
  - intros Hk Hi. unfold simplify_datetime.
    rewrite (mapM_scan_date_keys col data Hk). cbn [bind].
    apply simplify_lines_int; assumption.
  - intros out. unfold simplify_datetime.
    destruct (mapM (scan_date col) data) as [dt|e] eqn:E; [|discriminate].
    cbn [bind]. apply simplify_lines_frame.
    apply (mapM_length _ _ _ E).
Qed.

Lemma simplify_datetime_outcome_witness :
  simplify_datetime (Date 2024 5 1)
    [start_record "1" "2024-05-01T10:00:00"; [("JobID" : text, Str "2")]]
    "Start" = Raise (KeyError "Start")
  /\ simplify_datetime (Date 2024 5 1)
       [start_record "1" "2024-05-01T10:00:00";
        [("JobID" : text, Str "2"); ("Start" : text, Int 5)]]
       "Start" = Raise TypeError.
Proof.
  destruct (simplify_datetime_outcome (Date 2024 5 1)
              [start_record "1" "2024-05-01T10:00:00";
               [("JobID" : text, Str "2")]] "Start") as [H _].
  destruct (simplify_datetime_outcome (Date 2024 5 1)
              [start_record "1" "2024-05-01T10:00:00";
               [("JobID" : text, Str "2"); ("Start" : text, Int 5)]]
              "Start") as [_ [G _]].
  split.
  - apply H. exists [("JobID" : text, Str "2")]. split; [|reflexivity].
    right. left. reflexivity.
  - apply G; [reflexivity|].
    exists [("JobID" : text, Str "2"); ("Start" : text, Int 5)], 5.
    split; [|reflexivity]. right. left. reflexivity.
Defined.

Lemma simplify_datetime_frame (today : date) (data out : list record)
  (col : text) :
  simplify_datetime today data col = Ok out ->
  Forall2 (same_but_column col) out data.
Proof.
  unfold simplify_datetime.
  destruct (mapM (scan_date col) data) as [dt|e] eqn:E; [|discriminate].
  cbn [bind]. apply simplify_lines_frame.
  apply (mapM_length _ _ _ E).
Qed.

Lemma forallb_false_ex {A : Type} (f : A -> bool) (l : list A) :
  forallb f l = false -> exists x, In x l /\ f x = false.
Proof.
  induction l as [|x l IH]; [discriminate|].
  cbn [forallb]. intros H. apply andb_false_iff in H as [H | H].
  - exists x. split; [left; reflexivity | exact H].
  - destruct (IH H) as [y [Hy Fy]]. exists y. split; [right|]; assumption.
Qed.

(** The exceptions of [simplify_datetime]. *)
Lemma simplify_datetime_raises (today : date) (data : list record)
  (col : text) (e : exn) :
  simplify_datetime today data col = Raise e ->
  e = KeyError col
  \/ (e = TypeError /\ exists r z, In r data /\ lookup col r = Some (Int z)).
Proof.
  intros H. destruct (forallb (has_key col) data) eqn:K.
  - destruct (text_column col data) eqn:T.
    + rewrite (simplify_datetime_text today data col T) in H.
      destruct (simplify_lines_text
                  (same_as_today Strptime.year (today_year today) col data)
                  (same_as_today Strptime.month (today_month today) col data)
                  (same_as_today Strptime.day (today_day today) col data)
                  col data T) as [out [E _]].
      congruence.
    + apply forallb_false_ex in T as [r [Hin Hr]].
      assert (I : exists r z, In r data /\ lookup col r = Some (Int z)).
      { rewrite forallb_forall in K. specialize (K r Hin).
        apply has_key_lookup in K as [v K]. rewrite K in Hr.
        destruct v as [s|z]; [discriminate|]. eauto. }
      right. split; [|exact I].
      unfold simplify_datetime in H.
      rewrite (mapM_scan_date_keys col data K) in H. cbn [bind] in H.
      rewrite (simplify_lines_int _ _ _ col data K I) in H. congruence.
  - apply forallb_false_ex in K as [r [Hin Hr]].
    apply has_key_false in Hr.
    unfold simplify_datetime in H.
    rewrite (mapM_scan_date_missing col data
               (ex_intro _ r (conj Hin Hr))) in H.
    cbn [bind] in H. left. congruence.
Qed.

Lemma same_but_columns_refl (cols : list text) (l : list record) :
  Forall2 (same_but_columns cols) l l.
Proof. induction l; constructor; [split; reflexivity | assumption]. Qed.

Lemma same_but_columns_trans (cols : list text) (a : list record) :
  forall b c,
  Forall2 (same_but_columns cols) a b ->
  Forall2 (same_but_columns cols) b c ->
  Forall2 (same_but_columns cols) a c.
Proof.
  induction a as [|x a IH]; intros b c H1 H2.
  - inversion H1; subst. inversion H2; subst. constructor.
  - inversion H1 as [|? y ? b' [C1 L1] F1]; subst.
    inversion H2 as [|? z ? c' [C2 L2] F2]; subst.
    constructor; [|exact (IH _ _ F1 F2)]. split; [congruence|].
    intros k Hk. rewrite (L1 k Hk). apply L2. exact Hk.
Qed.

Lemma try_simplify_frame (today : date) (cols : list text) (col : text)
  (data : list record) :
  In col cols ->
  forallb (no_int cols) data = true ->
  exists out,
    try_simplify today data col = Ok out
    /\ Forall2 (same_but_columns cols) out data
    /\ forallb (no_int cols) out = true.
Proof.
  intros Hc Hn. unfold try_simplify.
  destruct (simplify_datetime today data col) as [out|e] eqn:E.
  - exists out. split; [reflexivity|].
    pose proof (simplify_datetime_frame today data out col E) as F.
    clear E. revert Hn. induction F as [|o r out data [C [L [s S]]] F IH].
    + intros _. split; [constructor | reflexivity].
    + cbn [forallb]. intros Hn. apply andb_true_iff in Hn as [Hr Hn].
      destruct (IH Hn) as [F' N']. split.
      * constructor; [|exact F']. split; [exact C|].
        intros k Hk. apply L. intros ->. contradiction.
      * rewrite N', andb_true_r. unfold no_int in *.
        rewrite forallb_forall in *. intros c Hin.
        destruct (Py.text_eqb c col) eqn:Q.
        -- apply text_eqb_eq in Q. subst c. rewrite S. reflexivity.
        -- apply text_eqb_neq in Q. rewrite (L c Q). apply Hr. exact Hin.
  - destruct (simplify_datetime_raises today data col e E)
      as [-> | [-> [r [z [Hin Hz]]]]].
    + exists data. split; [reflexivity|].
      split; [apply same_but_columns_refl | exact Hn].
    + exfalso. rewrite forallb_forall in Hn. specialize (Hn r Hin).
      unfold no_int in Hn. rewrite forallb_forall in Hn.
      specialize (Hn col Hc). rewrite Hz in Hn. discriminate.
Qed.

Lemma simplify_dates_rows (today : date) (tsv iso_date no_color : bool)
  (sacct_mrg : list record) :
  forallb (no_int date_columns) sacct_mrg = true ->
  exists out,
    simplify_dates today tsv iso_date no_color sacct_mrg
    = Ok (out, tsv || no_color)
    /\ Forall2 (same_but_columns date_columns) out sacct_mrg
    /\ (tsv || iso_date = true -> out = sacct_mrg).
Proof.
  intros Hn. unfold simplify_dates. destruct tsv.
  - exists sacct_mrg. split; [reflexivity|].
    split; [apply same_but_columns_refl | reflexivity].
  - destruct iso_date; cbn [negb orb].
    + exists sacct_mrg. split; [reflexivity|].
      split; [apply same_but_columns_refl | reflexivity].
    + destruct (try_simplify_frame today date_columns "StateSince"
                  sacct_mrg) as [d1 [E1 [F1 N1]]];
        [cbn; tauto | exact Hn |].
      destruct (try_simplify_frame today date_columns "Submit" d1)
        as [d2 [E2 [F2 N2]]]; [cbn; tauto | exact N1 |].
      destruct (try_simplify_frame today date_columns "Start" d2)
        as [d3 [E3 [F3 N3]]]; [cbn; tauto | exact N2 |].
      destruct (try_simplify_frame today date_columns "End" d3)
        as [d4 [E4 [F4 N4]]]; [cbn; tauto | exact N3 |].
      exists d4. rewrite E1. cbn [bind]. rewrite E2. cbn [bind].
      rewrite E3. cbn [bind]. rewrite E4. cbn [bind].
      split; [reflexivity|]. split; [|discriminate].
      apply (same_but_columns_trans _ _ d3); [exact F4|].
      apply (same_but_columns_trans _ _ d2); [exact F3|].
      apply (same_but_columns_trans _ _ d1); [exact F2 | exact F1].
Qed.

(** X19. The date simplification of the program, on records that hold no
    integer in the four date columns (the reader puts integers in the
    memory columns only): it never raises, whichever of the four columns
    the records have or lack, and every record comes out with its columns
    and with its values in all columns but these four; in tab-separated
    mode the records are not touched and coloring is off. *)
Theorem simplify_dates_frame (today : date) (tsv iso_date no_color : bool)
  (sacct_mrg : list record) :
  forallb (no_int date_columns) sacct_mrg = true ->
  exists out,
    simplify_dates today tsv iso_date no_color sacct_mrg
    = Ok (out, tsv || no_color)
    /\ Forall2 (same_but_columns date_columns) out sacct_mrg
    /\ (tsv || iso_date = true -> out = sacct_mrg).
Proof. exact (simplify_dates_rows today tsv iso_date no_color sacct_mrg). Qed.

Lemma simplify_dates_frame_witness :
  exists out,
    simplify_dates (Date 2024 5 1) false false false
      [start_record "1" "2024-05-01T10:00:00"; start_record "2" "Unknown"]
    = Ok (out, false || false)
    /\ Forall2 (same_but_columns date_columns) out
         [start_record "1" "2024-05-01T10:00:00"; start_record "2" "Unknown"]
    /\ (false || false = true ->
        out = [start_record "1" "2024-05-01T10:00:00";
               start_record "2" "Unknown"]).
Proof.
  apply (simplify_dates_frame (Date 2024 5 1) false false false
           [start_record "1" "2024-05-01T10:00:00";
            start_record "2" "Unknown"]).
  reflexivity.
Defined.

(** ** The columns asked for *)

Lemma elem_In (x : text) (l : list text) : elem x l = true <-> In x l.
Proof.
  unfold elem. rewrite existsb_exists. split.
  - intros [y [Hy E]]. apply text_eqb_eq in E. subst. exact Hy.
  - intros H. exists x. split; [exact H | apply text_eqb_refl].
Qed.

Lemma elem_not_In (x : text) (l : list text) : elem x l = false <-> ~ In x l.
Proof.
  rewrite <- elem_In. destruct (elem x l); split; intros H;
    try discriminate; try reflexivity; try (intros Q; discriminate).
  exfalso. apply H. reflexivity.
Qed.

Lemma elem_app (x : text) (a b : list text) :
  elem x (a ++ b) = elem x a || elem x b.
Proof. unfold elem. apply existsb_app. Qed.

Lemma list_index_app (x : text) (pre post : list text) :
  ~ In x pre -> list_index (pre ++ x :: post) x = Ok (List.length pre).
Proof.
  induction pre as [|y pre IH]; intros H; cbn [app list_index List.length].
  - rewrite text_eqb_refl. reflexivity.
  - destruct (Py.text_eqb y x) eqn:E.
    + apply text_eqb_eq in E. subst. exfalso. apply H. left. reflexivity.
    + rewrite IH by (intros Q; apply H; right; exact Q). reflexivity.
Qed.

Lemma list_remove_app (x : text) (pre post : list text) :
  ~ In x pre -> list_remove (pre ++ x :: post) x = Ok (pre ++ post).
Proof.
  induction pre as [|y pre IH]; intros H; cbn [app list_remove].
  - rewrite text_eqb_refl. reflexivity.
  - destruct (Py.text_eqb y x) eqn:E.
    + apply text_eqb_eq in E. subst. exfalso. apply H. left. reflexivity.
    + rewrite IH by (intros Q; apply H; right; exact Q). reflexivity.
Qed.

Lemma list_remove_absent (x : text) (l : list text) :
  ~ In x l -> list_remove l x = Raise ValueError.
Proof.
  induction l as [|y l IH]; intros H; cbn [list_remove]; [reflexivity|].
  destruct (Py.text_eqb y x) eqn:E.
  - apply text_eqb_eq in E. subst. exfalso. apply H. left. reflexivity.
  - rewrite IH by (intros Q; apply H; right; exact Q). reflexivity.
Qed.

(** The first occurrence of a name in a list. *)
Lemma In_first (x : text) (l : list text) :
  In x l -> exists pre post, l = pre ++ x :: post /\ ~ In x pre.
Proof.
  induction l as [|y l IH]; intros H; [destruct H|].
  destruct (Py.text_eqb y x) eqn:E.
  - apply text_eqb_eq in E. subst. exists [], l. split; [reflexivity|].
    intros [].
  - apply text_eqb_neq in E. destruct H as [H | H]; [contradiction|].
    destruct (IH H) as [pre [post [-> N]]].
    exists (y :: pre), post. split; [reflexivity|].
    intros [Q | Q]; [contradiction | exact (N Q)].
Qed.

Lemma without_absent (x : text) (l : list text) :
  ~ In x l -> without x l = l.
Proof.
  unfold without. induction l as [|y l IH]; intros H; [reflexivity|].
  cbn [filter]. destruct (Py.text_eqb y x) eqn:E.
  - apply text_eqb_eq in E. subst. exfalso. apply H. left. reflexivity.
  - cbn [negb]. rewrite IH by (intros Q; apply H; right; exact Q).
    reflexivity.
Qed.

Lemma without_app (x : text) (a b : list text) :
  without x (a ++ b) = without x a ++ without x b.
Proof. unfold without. apply filter_app. Qed.

Lemma without_hit (x : text) (l : list text) :
  without x (x :: l) = without x l.
Proof. unfold without. cbn [filter]. rewrite text_eqb_refl. reflexivity. Qed.

Lemma without_not_In (x : text) (l : list text) : ~ In x (without x l).
Proof.
  unfold without. intros H. apply filter_In in H as [_ H].
  rewrite text_eqb_refl in H. discriminate.
Qed.

(** The loop that removes a name takes it out wherever it stands, in as
    many turns as the name occurs. *)
Lemma remove_while_without (x : text) (fuel : nat) :
  forall l,
  (List.length l <= fuel)%nat ->
  remove_while fuel l x = Some (Ok (without x l)).
Proof.
  induction fuel as [|fuel IH]; intros l Hl.
  - destruct l; [reflexivity | cbn in Hl; lia].
  - cbn [remove_while]. destruct (elem x l) eqn:E.
    + apply elem_In in E. destruct (In_first x l E) as [pre [post [-> N]]].
      rewrite (list_remove_app x pre post N).
      rewrite IH by (rewrite length_app in *; cbn [List.length] in Hl; lia).
      rewrite !without_app, without_hit. reflexivity.
    + apply elem_not_In in E. rewrite (without_absent x l E). reflexivity.
Qed.

Lemma remove_while_absent (x : text) (fuel : nat) (l : list text) :
  ~ In x l -> remove_while fuel l x = Some (Ok l).
Proof.
  intros H. apply elem_not_In in H.
  destruct fuel; cbn [remove_while]; rewrite H; reflexivity.
Qed.

Lemma expand_format_marker (fuel : nat) (pre post : list text) :
  ~ In ("FMT" : text) pre ->
  (List.length (pre ++ xdef ++ post) <= fuel)%nat ->
  expand_format fuel (pre ++ ("FMT" : text) :: post)
  = Some (Ok (pre ++ xdef ++ without "FMT" post)).
Proof.
  intros N Hf. unfold expand_format.
  assert (E : elem "FMT" (pre ++ ("FMT" : text) :: post) = true)
    by (apply elem_In, in_elt).
  rewrite E, (list_index_app "FMT" pre post N). cbn [bind].
  rewrite firstn_app, firstn_all, Nat.sub_diag. cbn [firstn].
  rewrite app_nil_r.
  assert (S : skipn (List.length pre + 1) (pre ++ ("FMT" : text) :: post)
              = post).
  { change (pre ++ ("FMT" : text) :: post)
      with (pre ++ [("FMT" : text)] ++ post).
    rewrite app_assoc.
    replace (List.length pre + 1)%nat
      with (List.length (pre ++ [("FMT" : text)]))
      by (rewrite length_app; reflexivity).
    rewrite skipn_app, skipn_all, Nat.sub_diag. reflexivity. }
  rewrite S. rewrite (remove_while_without "FMT" fuel _ Hf).
  rewrite !without_app, (without_absent "FMT" pre N).
  change (without "FMT" xdef) with xdef.
  assert (J : elem "jobid" (map lower (pre ++ xdef ++ without "FMT" post))
              = true).
  { rewrite !map_app, !elem_app.
    change (elem "jobid" (map lower xdef)) with true.
    rewrite orb_true_r. reflexivity. }
  rewrite J. reflexivity.
Qed.

Lemma expand_format_no_marker (fuel : nat) (format : list text) :
  ~ In ("FMT" : text) format ->
  expand_format fuel format
  = Some (Ok (if negb (elem "jobid" (map lower format))
              then format ++ ["JobID" : text] else format)).
Proof.
  intros N. unfold expand_format.
  rewrite (proj2 (elem_not_In "FMT" format) N).
  rewrite (remove_while_absent "FMT" fuel format N). reflexivity.
Qed.

(** X20. The marker [FMT]: its first occurrence is replaced by the default
    columns, every other occurrence is taken out, the other names stay
    where they are, and [JobID] is not added, since the default columns
    hold it. *)
Theorem expand_format_FMT (fuel : nat) (pre post : list text) :
  ~ In ("FMT" : text) pre ->
  (List.length (pre ++ xdef ++ post) <= fuel)%nat ->
  expand_format fuel (pre ++ ("FMT" : text) :: post)
  = Some (Ok (pre ++ xdef ++ without "FMT" post)).
Proof. exact (expand_format_marker fuel pre post). Qed.

Lemma expand_format_FMT_witness :
  expand_format 20 (["State" : text] ++ ("FMT" : text)
                      :: ["FMT" : text; "End" : text])
  = Some (Ok (["State" : text] ++ xdef
              ++ without "FMT" ["FMT" : text; "End" : text])).
Proof.
  apply (expand_format_FMT 20 ["State" : text] ["FMT" : text; "End" : text]).
  - cbn. intuition discriminate.
  - cbn. lia.
Defined.

Lemma In_without (x y : text) (l : list text) :
  y <> x -> In y l -> In y (without x l).
Proof.
  intros N H. unfold without. apply filter_In. split; [exact H|].
  apply negb_true_iff, text_eqb_neq. exact N.
Qed.

(** X21. With fuel for every name, the names asked for are always worked
    out, without exception: no marker is left among them, one of them
    reads [jobid] in lower case, every name given other than the marker is
    among them, and names given without the marker and with such a name
    are left as they are. *)
Theorem expand_format_result (fuel : nat) (format : list text) :
  (List.length format + List.length xdef <= fuel)%nat ->
  exists out,
    expand_format fuel format = Some (Ok out)
    /\ ~ In ("FMT" : text) out
    /\ elem "jobid" (map lower out) = true
    /\ (forall x : text, x <> ("FMT" : text) -> In x format -> In x out)
    /\ (~ In ("FMT" : text) format ->
        elem "jobid" (map lower format) = true -> out = format).
Proof.
  intros Hf. destruct (elem "FMT" format) eqn:E.
  - apply elem_In in E. destruct (In_first "FMT" format E)
      as [pre [post [-> N]]].
    exists (pre ++ xdef ++ without "FMT" post).
    split; [|split; [|split; [|split]]].
    + apply expand_format_marker; [exact N|].
      rewrite !length_app in *. cbn [List.length] in *. lia.
    + intros H. apply in_app_or in H as [H | H]; [exact (N H)|].
      apply in_app_or in H as [H | H].
      * cbn in H. intuition discriminate.
      * exact (without_not_In _ _ H).
    + rewrite !map_app, !elem_app.
      change (elem "jobid" (map lower xdef)) with true.
      rewrite orb_true_r. reflexivity.
    + intros x Hx H. apply in_app_or in H as [H | [H | H]].
      * apply in_or_app. left. exact H.
      * symmetry in H. contradiction.
      * apply in_or_app. right. apply in_or_app. right.
        apply In_without; assumption.
    + intros Q. exfalso. apply Q. apply in_elt.
  - apply elem_not_In in E. rewrite (expand_format_no_marker fuel format E).
    destruct (elem "jobid" (map lower format)) eqn:J; cbn [negb].
    + exists format. repeat split; auto.
    + exists (format ++ ["JobID" : text]).
      split; [reflexivity|]. split; [|split; [|split]].
      * intros H. apply in_app_or in H as [H | [H | []]];
          [exact (E H) | discriminate].
      * rewrite map_app, elem_app. rewrite orb_true_r. reflexivity.
      * intros x _ H. apply in_or_app. left. exact H.
      * intros _ Q. discriminate.
Qed.

Lemma expand_format_result_witness :
  exists out,
    expand_format 20 ["State" : text; "FMT" : text] = Some (Ok out)
    /\ ~ In ("FMT" : text) out
    /\ elem "jobid" (map lower out) = true
    /\ (forall x : text, x <> ("FMT" : text) ->
        In x ["State" : text; "FMT" : text] -> In x out)
    /\ (~ In ("FMT" : text) ["State" : text; "FMT" : text] ->
        elem "jobid" (map lower ["State" : text; "FMT" : text]) = true ->
        out = ["State" : text; "FMT" : text]).
Proof.
  apply (expand_format_result 20 ["State" : text; "FMT" : text]).
  cbn. lia.
Defined.

Lemma lower_not_S (c : ascii) : Py.lower c <> "S"%char.
Proof.
  destruct c as [[] [] [] [] [] [] [] []]; vm_compute; discriminate.
Qed.

Lemma elem_lower_Submit (l : list text) :
  elem "Submit" (map lower l) = false.
Proof.
  apply elem_not_In. intros H. apply in_map_iff in H as [x [E _]].
  destruct x as [|c x]; [discriminate|].
  unfold lower in E. cbn [map] in E. injection E as E _.
  exact (lower_not_S c E).
Qed.

(** X22. The column [StateSince] is recognised in any case but removed in
    this spelling only: names among which one reads [statesince] in lower
    case and none is [StateSince] raise [ValueError]. *)
Theorem sacct_fields_case (format : list text) :
  elem "statesince" (map lower format) = true ->
  ~ In ("StateSince" : text) format ->
  sacct_fields format = Raise ValueError.
Proof.
  intros H N. unfold sacct_fields. rewrite H.
  rewrite (list_remove_absent "StateSince" format N). reflexivity.
Qed.

Lemma sacct_fields_case_witness :
  sacct_fields ["JobID" : text; "statesince" : text] = Raise ValueError.
Proof.
  apply (sacct_fields_case ["JobID" : text; "statesince" : text]).
  - reflexivity.
  - cbn. intuition discriminate.
Defined.

(** X23. For names with [StateSince], [sacct] is asked for the names but
    the first [StateSince], then for [Start] and [End] where no name
    reads so in lower case, and then for [Submit], in every case: the
    test for it compares the names in lower case with [Submit]. *)
Theorem sacct_fields_statesince (pre post : list text) :
  ~ In ("StateSince" : text) pre ->
  exists added,
    sacct_fields (pre ++ ("StateSince" : text) :: post)
    = Ok ((pre ++ post) ++ added ++ ["Submit" : text])
    /\ incl added ["Start" : text; "End" : text]
    /\ elem "start" (map lower ((pre ++ post) ++ added)) = true
    /\ elem "end" (map lower ((pre ++ post) ++ added)) = true.
Proof.
  intros N. unfold sacct_fields.
  assert (E : elem "statesince"
                (map lower (pre ++ ("StateSince" : text) :: post)) = true).
  { rewrite map_app, elem_app. cbn [map].
    change (elem "statesince" (lower "StateSince" :: map lower post))
      with true.
    apply orb_true_r. }
  rewrite E, (list_remove_app "StateSince" pre post N). cbn [bind].
  rewrite !elem_lower_Submit. cbn [negb].
  set (l := pre ++ post).
  destruct (elem "start" (map lower l)) eqn:S;
    destruct (elem "end" (map lower l)) eqn:D; cbn [negb].
  - rewrite D. cbn [negb]. exists []. rewrite app_nil_r.
    repeat split; [intros x [] | exact S | exact D].
  - rewrite D. cbn [negb]. exists ["End" : text]. rewrite <- app_assoc.
    repeat split.
    + intros x [<- | []]. right. left. reflexivity.
    + rewrite map_app, elem_app, S. reflexivity.
    + rewrite map_app, elem_app. apply orb_true_r.
  - rewrite map_app, elem_app, D. cbn [orb negb].
    exists ["Start" : text]. rewrite <- app_assoc.
    repeat split.
    + intros x [<- | []]. left. reflexivity.
    + rewrite map_app, elem_app. apply orb_true_r.
    + rewrite map_app, elem_app, D. reflexivity.
  - rewrite map_app, elem_app, D. cbn [orb negb map].
    change (elem "end" [lower "Start"]) with false. cbn [negb].
    exists ["Start" : text; "End" : text].
    rewrite <- !app_assoc. repeat split.
    + intros x H. exact H.
    + rewrite map_app, elem_app. apply orb_true_r.
    + rewrite map_app, elem_app. apply orb_true_r.
Qed.

Lemma sacct_fields_statesince_witness :
  exists added,
    sacct_fields (["JobID" : text; "Submit" : text]
                  ++ ("StateSince" : text) :: ["start" : text])
    = Ok ((["JobID" : text; "Submit" : text] ++ ["start" : text])
          ++ added ++ ["Submit" : text])
    /\ incl added ["Start" : text; "End" : text]
    /\ elem "start"
         (map lower ((["JobID" : text; "Submit" : text] ++ ["start" : text])
                     ++ added)) = true
    /\ elem "end"
         (map lower ((["JobID" : text; "Submit" : text] ++ ["start" : text])
                     ++ added)) = true.
Proof.
  apply (sacct_fields_statesince ["JobID" : text; "Submit" : text]
           ["start" : text]).
  cbn. intuition discriminate.
Defined.

Lemma char_eqb_sym (a b : ascii) : Py.char_eqb a b = Py.char_eqb b a.
Proof.
  destruct (Py.char_eqb a b) eqn:E, (Py.char_eqb b a) eqn:F;
    try reflexivity.
  - apply char_eqb_eq in E. subst. rewrite char_eqb_refl in F. discriminate.
  - apply char_eqb_eq in F. subst. rewrite char_eqb_refl in E. discriminate.
Qed.

Lemma sub_percent_dropping (w : text) :
  Py.mem_char "010" w = false -> sub_percent_from true w = [].
Proof.
  unfold Py.mem_char. induction w as [|c w IH]; [reflexivity|].
  cbn [existsb sub_percent_from]. intros H.
  apply orb_false_iff in H as [Hc H].
  rewrite (char_eqb_sym c "010"), Hc. apply IH. exact H.
Qed.

Lemma sub_percent_keeps (name rest : text) :
  Py.mem_char "%" name = false ->
  sub_percent_from false (name ++ rest)
  = name ++ sub_percent_from false rest.
Proof.
  unfold Py.mem_char. induction name as [|c name IH]; [reflexivity|].
  cbn [existsb app sub_percent_from]. intros H.
  apply orb_false_iff in H as [Hc H].
  rewrite (char_eqb_sym c "%"), Hc, (IH H).
  destruct (Py.char_eqb c "010"); reflexivity.
Qed.

(** X24. The name printed for a column: a name without percent sign is
    printed as it is, and of a name with a width, on one line, what stands
    before the first percent sign. *)
Theorem sub_percent_width (name w : text) :
  Py.mem_char "%" name = false ->
  Py.mem_char "010" w = false ->
  sub_percent name = name
  /\ sub_percent (name ++ "%"%char :: w) = name.
Proof.
  intros Hn Hw. unfold sub_percent. split.
  - rewrite <- (app_nil_r name) at 1.
    rewrite (sub_percent_keeps name [] Hn). apply app_nil_r.
  - rewrite (sub_percent_keeps name _ Hn). cbn [sub_percent_from].
    change (Py.char_eqb "%" "010") with false. cbv beta iota.
    change (Py.char_eqb "%" "%") with true. cbv beta iota.
    rewrite (sub_percent_dropping w Hw). apply app_nil_r.
Qed.

Lemma sub_percent_width_witness :
  sub_percent "JobName" = "JobName"
  /\ sub_percent ("JobName" ++ "%"%char :: "50") = "JobName".
Proof.
  apply (sub_percent_width "JobName" "50"); reflexivity.
Defined.

(** ** The reader *)

Lemma lookup_In_values (k : text) (r : record) (v : value) :
  lookup k r = Some v -> In v (values r).
Proof.
  unfold values. induction r as [|[k0 v0] r IH]; [discriminate|].
  cbn [lookup map snd]. destruct (Py.text_eqb k0 k).
  - intros [= <-]. left. reflexivity.
  - intros H. right. exact (IH H).
Qed.

Lemma lookup_setitem (r : record) (k k' : text) (v : value) :
  lookup k' (setitem r k v)
  = if Py.text_eqb k k' then Some v else lookup k' r.
Proof.
  destruct (Py.text_eqb k k') eqn:E.
  - apply text_eqb_eq in E. subst. apply lookup_setitem_eq.
  - apply text_eqb_neq in E. apply lookup_setitem_neq. congruence.
Qed.

(** One memory column normalized: the column holds an integer or the
    empty string, the other columns are as they were. *)
Lemma normalize_column_lookup (col : text) (line line' : record) :
  normalize_column col line = Ok line' ->
  (forall k, k <> col -> lookup k line' = lookup k line)
  /\ (forall v, lookup col line' = Some v ->
      match v with Int _ => True | Str s => s = [] end).
Proof.
  unfold normalize_column, has_key, getitem.
  destruct (lookup col line) as [v|] eqn:L.
  - cbn [bind]. destruct v as [x|z]; [|discriminate].
    destruct (normalizeMem x) as [m|e] eqn:N; [|discriminate].
    cbn [bind]. intros [= <-]. split.
    + intros k Hk. apply lookup_setitem_neq. exact Hk.
    + intros v. rewrite lookup_setitem_eq. intros [= <-].
      destruct m as [s|z]; [|exact I].
      exact (proj1 (normalizeMem_Str_blank x s N)).
  - intros [= <-]. split; [reflexivity|]. intros v Hv. congruence.
Qed.

Lemma memory_column_iff (k : text) :
  memory_column k = true <-> k = ("MaxRSS" : text) \/ k = ("ReqMem" : text).
Proof.
  unfold memory_column. rewrite orb_true_iff, !text_eqb_eq. reflexivity.
Qed.

(** The record from which the cells are taken. *)
Lemma read_line_normalized (printablefmt : list text) (line out : record) :
  forallb is_str (values line) = true ->
  read_line printablefmt line = Ok out ->
  exists line',
    outline_of printablefmt line' [] = Ok out
    /\ forall k v, lookup k line' = Some v -> normalized k v.
Proof.
  intros Hs. unfold read_line.
  destruct (normalize_column "MaxRSS" line) as [l1|e] eqn:E1; [|discriminate].
  cbn [bind].
  destruct (normalize_column "ReqMem" l1) as [l2|e] eqn:E2; [|discriminate].
  cbn [bind].
  destruct (normalize_column_lookup _ _ _ E1) as [A1 B1].
  destruct (normalize_column_lookup _ _ _ E2) as [A2 B2].
  assert (N2 : forall k v, lookup k l2 = Some v -> normalized k v).
  { intros k v Hv.
    destruct (Py.text_eqb k "ReqMem") eqn:Q2.
    - apply text_eqb_eq in Q2. subst k. specialize (B2 v Hv).
      destruct v; [intros _; exact B2 | reflexivity].
    - apply text_eqb_neq in Q2. rewrite (A2 k Q2) in Hv.
      destruct (Py.text_eqb k "MaxRSS") eqn:Q1.
      + apply text_eqb_eq in Q1. subst k. specialize (B1 v Hv).
        destruct v; [intros _; exact B1 | reflexivity].
      + apply text_eqb_neq in Q1. rewrite (A1 k Q1) in Hv.
        apply lookup_In_values in Hv.
        rewrite forallb_forall in Hs. specialize (Hs v Hv).
        destruct v as [s|z]; [|discriminate].
        intros M. apply memory_column_iff in M as [M | M]; contradiction. }
  destruct (elem "StateSince" printablefmt).
  - destruct (getitem l2 "Submit") as [submit|e]; [|discriminate].
    destruct (getitem l2 "Start") as [start|e]; [|discriminate].
    destruct (getitem l2 "End") as [end_|e]; [|discriminate].
    cbn [bind]. intros H. eexists. split; [exact H|].
    intros k v. rewrite lookup_setitem.
    destruct (Py.text_eqb "StateSince" k) eqn:Q.
    + apply text_eqb_eq in Q. subst k. intros [= <-]. discriminate.
    + apply N2.
  - cbn [bind]. intros H. exists l2. split; [exact H | exact N2].
Qed.

Lemma outline_of_lookup (line : record) (printablefmt : list text) :
  forall outline out,
  outline_of printablefmt line outline = Ok out ->
  forall k,
  lookup k out
  = if elem k printablefmt then option_map placeholder (lookup k line)
    else lookup k outline.
Proof.
  induction printablefmt as [|key rest IH]; intros outline out.
  - cbn [outline_of]. intros [= <-] k. reflexivity.
  - cbn [outline_of]. unfold getitem.
    destruct (lookup key line) as [v|] eqn:L; [|discriminate].
    cbn [bind]. intros H k. rewrite (IH _ _ H k).
    unfold elem. cbn [existsb]. fold (elem k rest).
    destruct (elem k rest); [rewrite orb_true_r; reflexivity|].
    rewrite orb_false_r, lookup_setitem.
    destruct (Py.text_eqb key k) eqn:Q; [|reflexivity].
    apply text_eqb_eq in Q. subst k. rewrite L. reflexivity.
Qed.

Lemma lookup_not_column (k : text) (r : record) :
  ~ In k (columns r) -> lookup k r = None.
Proof.
  intros H. apply has_key_false. rewrite has_key_columns.
  destruct (existsb _ _) eqn:E; [|reflexivity].
  apply existsb_exists in E as [c [Hc Q]]. apply text_eqb_eq in Q.
  subst. contradiction.
Qed.

Lemma outline_of_columns (line : record) (printablefmt : list text) :
  forall outline out,
  NoDup (columns outline ++ printablefmt) ->
  outline_of printablefmt line outline = Ok out ->
  columns out = columns outline ++ printablefmt.
Proof.
  induction printablefmt as [|key rest IH]; intros outline out Hn.
  - cbn [outline_of]. intros [= <-]. symmetry. apply app_nil_r.
  - cbn [outline_of].
    destruct (getitem line key) as [v|e]; [|discriminate]. cbn [bind].
    assert (F : lookup key outline = None).
    { apply lookup_not_column. apply NoDup_remove_2 in Hn.
      intros Q. apply Hn. apply in_or_app. left. exact Q. }
    rewrite (setitem_fresh outline key _ F). intros H.
    assert (C : columns (outline ++ [(key, placeholder v)])
                = columns outline ++ [key])
      by (unfold columns; rewrite map_app; reflexivity).
    rewrite (IH _ _ (eq_ind_r (fun c => NoDup (c ++ rest))
                       (eq_ind_r (fun l => NoDup l) Hn
                          (eq_sym (app_assoc _ [key] rest))) C) H).
    rewrite C, <- app_assoc. reflexivity.
Qed.

Lemma placeholder_not_blank (v : value) :
  Py.strip (str (placeholder v)) <> [].
Proof.
  unfold placeholder.
  destruct (Py.text_eqb (Py.strip (str v)) "") eqn:E.
  - vm_compute. discriminate.
  - apply text_eqb_neq in E. exact E.
Qed.

(** X25. The record that the reader makes of a line of [sacct], for
    distinct column names: its columns are the names to print, in their
    order. *)
Theorem read_line_columns (printablefmt : list text) (line out : record) :
  NoDup printablefmt ->
  read_line printablefmt line = Ok out ->
  columns out = printablefmt.
Proof.
  intros Hn. unfold read_line.
  destruct (normalize_column "MaxRSS" line) as [l1|e]; [|discriminate].
  cbn [bind].
  destruct (normalize_column "ReqMem" l1) as [l2|e]; [|discriminate].
  cbn [bind].
  match goal with
  | |- (l <- ?m;; _) = _ -> _ => destruct m as [l3|e]
  end; [|discriminate].
  cbn [bind]. apply (outline_of_columns l3 printablefmt [] out Hn).
Qed.

Lemma read_line_columns_witness :
  columns [("JobID" : text, Str "1"); ("MaxRSS" : text, Int 2);
           ("State" : text, Str ".")]
  = ["JobID" : text; "MaxRSS" : text; "State" : text].
Proof.
  apply (read_line_columns ["JobID" : text; "MaxRSS" : text; "State" : text]
           [("JobID" : text, Str "1"); ("State" : text, Str " ");
            ("MaxRSS" : text, Str "2M")]).
  - repeat constructor; simpl; intuition discriminate.
  - reflexivity.
Defined.

Lemma read_line_cell (printablefmt : list text) (line out : record)
  (k : text) (v : value) :
  forallb is_str (values line) = true ->
  read_line printablefmt line = Ok out ->
  lookup k out = Some v ->
  Py.strip (str v) <> []
  /\ (is_str v = false -> memory_column k = true)
  /\ (memory_column k = true -> v = Str "." \/ is_str v = false).
Proof.
  intros Hs Hr Hv.
  destruct (read_line_normalized printablefmt line out Hs Hr)
    as [line' [Ho Nz]].
  rewrite (outline_of_lookup line' printablefmt [] out Ho k) in Hv.
  destruct (elem k printablefmt); [|discriminate].
  destruct (lookup k line') as [v0|] eqn:L; [|discriminate].
  cbn [option_map] in Hv. injection Hv as <-.
  specialize (Nz k v0 L). split; [apply placeholder_not_blank|].
  unfold placeholder.
  destruct (Py.text_eqb (Py.strip (str v0)) "") eqn:E.
  - split; [discriminate | auto].
  - destruct v0 as [s|z]; cbn [normalized] in Nz.
    + split; [discriminate|]. intros M. rewrite (Nz M) in E. discriminate.
    + split; [intros _; exact Nz | auto].
Qed.

(** X26. The cells that the reader makes of a line of strings: no cell is
    blank, the memory columns hold an integer or the placeholder [.],
    and no other column holds an integer. *)
Theorem read_line_cells (printablefmt : list text) (line out : record)
  (k : text) (v : value) :
  forallb is_str (values line) = true ->
  read_line printablefmt line = Ok out ->
  lookup k out = Some v ->
  Py.strip (str v) <> []
  /\ (is_str v = false -> memory_column k = true)
  /\ (memory_column k = true -> v = Str "." \/ is_str v = false).
Proof.
  exact (read_line_cell printablefmt line out k v).
Qed.

Lemma read_line_cells_witness :
  Py.strip (str (Int 2)) <> []
  /\ (is_str (Int 2) = false -> memory_column "MaxRSS" = true)
  /\ (memory_column "MaxRSS" = true
      -> Int 2 = Str "." \/ is_str (Int 2) = false).
Proof.
  apply (read_line_cells ["JobID" : text; "MaxRSS" : text; "State" : text]
           [("JobID" : text, Str "1"); ("State" : text, Str " ");
            ("MaxRSS" : text, Str "2M")]
           [("JobID" : text, Str "1"); ("MaxRSS" : text, Int 2);
            ("State" : text, Str ".")]
           "MaxRSS" (Int 2)); reflexivity.
Defined.

(** X27. The column [StateSince] of a line of strings: the reader takes the
    times of the columns [Submit], [Start] and [End], which the
    normalization of the memory columns has left alone, and shows
    [get_state_time] of them, whatever [sacct] gave under the name
    [StateSince]; when none of the three parses it shows the placeholder
    [.]. *)
Theorem read_line_statesince (printablefmt : list text) (line out : record) :
  forallb is_str (values line) = true ->
  In ("StateSince" : text) printablefmt ->
  read_line printablefmt line = Ok out ->
  exists submit start end_,
    lookup "Submit" line = Some (Str submit)
    /\ lookup "Start" line = Some (Str start)
    /\ lookup "End" line = Some (Str end_)
    /\ lookup "StateSince" out
       = Some (placeholder (Str (get_state_time [submit; start; end_])))
    /\ (filter parses [submit; start; end_] = [] ->
        lookup "StateSince" out = Some (Str ".")).
Proof.
  intros Hs Hin. unfold read_line.
  destruct (normalize_column "MaxRSS" line) as [l1|e] eqn:E1; [|discriminate].
  cbn [bind].
  destruct (normalize_column "ReqMem" l1) as [l2|e] eqn:E2; [|discriminate].
  cbn [bind].
  destruct (normalize_column_lookup _ _ _ E1) as [A1 _].
  destruct (normalize_column_lookup _ _ _ E2) as [A2 _].
  assert (K : forall k v, k <> ("MaxRSS" : text) -> k <> ("ReqMem" : text) ->
              getitem l2 k = Ok v ->
              exists s, v = Str s /\ lookup k line = Some (Str s)).
  { intros k v H1 H2. unfold getitem. rewrite (A2 k H2), (A1 k H1).
    destruct (lookup k line) as [v0|] eqn:L; [|discriminate].
    intros [= <-]. apply lookup_In_values in L.
    rewrite forallb_forall in Hs. specialize (Hs v0 L).
    destruct v0 as [s|z]; [eauto | discriminate]. }
  rewrite (proj2 (elem_In "StateSince" printablefmt) Hin).
  destruct (getitem l2 "Submit") as [v1|e] eqn:G1; [|discriminate].
  destruct (getitem l2 "Start") as [v2|e] eqn:G2; [|discriminate].
  destruct (getitem l2 "End") as [v3|e] eqn:G3; [|discriminate].
  cbn [bind].
  destruct (K "Submit" v1) as [submit [-> L1]];
    [discriminate | discriminate | exact G1 |].
  destruct (K "Start" v2) as [start [-> L2]];
    [discriminate | discriminate | exact G2 |].
  destruct (K "End" v3) as [end_ [-> L3]];
    [discriminate | discriminate | exact G3 |].
  intros Ho. exists submit, start, end_.
  split; [exact L1|]. split; [exact L2|]. split; [exact L3|].
  assert (V : lookup "StateSince" out
              = Some (placeholder (Str (get_state_time [submit; start; end_])))).
  { rewrite (outline_of_lookup _ printablefmt [] out Ho "StateSince").
    rewrite (proj2 (elem_In "StateSince" printablefmt) Hin).
    rewrite lookup_setitem_eq. reflexivity. }
  split; [exact V|]. intros F. rewrite V. unfold get_state_time. rewrite F.
  reflexivity.
Qed.

Lemma read_line_statesince_witness :
  exists submit start end_,
    lookup "Submit"
      [("JobID" : text, Str "1"); ("Submit" : text, Str "2024-05-01T09:00:00");
       ("Start" : text, Str "2024-05-01T10:00:00");
       ("End" : text, Str "Unknown")] = Some (Str submit)
    /\ lookup "Start"
      [("JobID" : text, Str "1"); ("Submit" : text, Str "2024-05-01T09:00:00");
       ("Start" : text, Str "2024-05-01T10:00:00");
       ("End" : text, Str "Unknown")] = Some (Str start)
    /\ lookup "End"
      [("JobID" : text, Str "1"); ("Submit" : text, Str "2024-05-01T09:00:00");
       ("Start" : text, Str "2024-05-01T10:00:00");
       ("End" : text, Str "Unknown")] = Some (Str end_)
    /\ lookup "StateSince"
         [("JobID" : text, Str "1");
          ("StateSince" : text, Str "2024-05-01T10:00:00")]
       = Some (placeholder (Str (get_state_time [submit; start; end_])))
    /\ (filter parses [submit; start; end_] = [] ->
        lookup "StateSince"
          [("JobID" : text, Str "1");
           ("StateSince" : text, Str "2024-05-01T10:00:00")]
        = Some (Str ".")).
Proof.
  apply (read_line_statesince ["JobID" : text; "StateSince" : text]
    [("JobID" : text, Str "1"); ("Submit" : text, Str "2024-05-01T09:00:00");
     ("Start" : text, Str "2024-05-01T10:00:00");
     ("End" : text, Str "Unknown")]
    [("JobID" : text, Str "1");
     ("StateSince" : text, Str "2024-05-01T10:00:00")]).
  - reflexivity.
  - right. left. reflexivity.
  - reflexivity.
Defined.

(** ** The program *)

Lemma pad_cells_total (col_widths : list nat) :
  forall line : list value,
  List.length line = List.length col_widths ->
  exists t, pad_cells line col_widths = Ok t.
Proof.
  induction col_widths as [|w ws IH]; intros l Hl.
  - destruct l; [|discriminate]. exists []. reflexivity.
  - destruct l as [|x l]; [discriminate|].
    destruct (IH l) as [t E]; [injection Hl; auto|].
    rewrite pad_cells_cons, E. cbn [bind]. eauto.
Qed.

Lemma tabulate_total (line : list value) (col_widths : list nat)
  (tsv no_color : bool) :
  List.length line = List.length col_widths ->
  exists t, tabulate line col_widths tsv no_color = Ok t.
Proof.
  intros H. unfold tabulate. destruct tsv; [eauto|].
  apply pad_cells_total. destruct no_color; cbn [negb]; [exact H|].
  unfold colorize. rewrite length_map. exact H.
Qed.

Lemma print_rows_total (col_widths : list nat) (tsv no_color : bool)
  (rows : list record) :
  Forall (fun r : record => List.length r = List.length col_widths) rows ->
  exists ts, print_rows col_widths tsv no_color rows = (ts, Ok tt)
             /\ List.length ts = List.length rows.
Proof.
  intros H. induction H as [|r rows Hr _ [ts [E L]]].
  - exists []. split; reflexivity.
  - destruct (tabulate_total (values r) col_widths tsv no_color) as [t Et];
      [unfold values; rewrite length_map; exact Hr|].
    exists (t :: ts). cbn [print_rows]. rewrite Et, E.
    split; [reflexivity | cbn [List.length]; lia].
Qed.

(** A table whose rows have the cells of the header is printed. *)
Lemma print_table_total (printablefmt : list text) (sacct_mrg : list record)
  (tsv no_color : bool) :
  NoDup printablefmt ->
  Forall (fun r : record => List.length r = List.length printablefmt)
         sacct_mrg ->
  exists top ts,
    print_table printablefmt sacct_mrg tsv no_color
    = (top :: ts ++ [top], Ok tt)
    /\ List.length ts = List.length sacct_mrg.
Proof.
  intros Hn Hr.
  pose proof (header_record_nodup printablefmt Hn) as Hh.
  assert (Hl : List.length (header_record printablefmt)
               = List.length printablefmt)
    by (rewrite Hh; apply length_map).
  assert (Hd : Forall (fun r : record => List.length r
                                         = List.length printablefmt)
                      (header_record printablefmt :: sacct_mrg))
    by (constructor; assumption).
  assert (Gw : exists ws, getColumnWidths sacct_mrg printablefmt 2 no_color
                          = Ok ws
                          /\ List.length ws = List.length printablefmt).
  { unfold getColumnWidths.
    assert (E : measure_lines printablefmt no_color
                  (header_record printablefmt :: sacct_mrg) []
                = measure_lines printablefmt true
                    (header_record printablefmt :: sacct_mrg) [])
      by (destruct no_color; [reflexivity | apply measure_lines_color]).
    rewrite E.
    rewrite (measure_lines_start printablefmt _ sacct_mrg Hl).
    rewrite (measure_lines_widen printablefmt _ _ Hd (repeat_length _ _)).
    eexists. split; [reflexivity|]. rewrite length_map.
    apply (length_fold_widen printablefmt _ _ Hd (repeat_length _ _)). }
  destruct Gw as [ws [Gw Lw]]. unfold print_table. rewrite Gw.
  destruct (tabulate_total (map Str printablefmt) ws tsv no_color)
    as [top Et]; [rewrite length_map; congruence|].
  destruct (print_rows_total ws tsv no_color sacct_mrg) as [ts [Es Ls]].
  { apply (Forall_impl _ (P := fun r : record =>
                                 List.length r = List.length printablefmt));
      [intros r Q; congruence | exact Hr]. }
  exists top, ts. rewrite Et, Es. split; [reflexivity | exact Ls].
Qed.

Lemma mapM_Forall {A B : Type} (f : A -> result B) (P : B -> Prop)
  (l : list A) :
  (forall x y, In x l -> f x = Ok y -> P y) ->
  forall ys, mapM f l = Ok ys -> Forall P ys.
Proof.
  induction l as [|x l IH]; intros H ys; cbn [mapM].
  - intros [= <-]. constructor.
  - destruct (f x) as [y|e] eqn:E; [|discriminate]. cbn [bind].
    destruct (mapM f l) as [zs|e]; [|discriminate]. cbn [bind].
    intros [= <-]. constructor.
    + apply (H x y); [left; reflexivity | exact E].
    + apply IH; [|reflexivity]. intros a b Ha. apply H. right. exact Ha.
Qed.

Lemma no_int_lookup (cols : list text) (o r : record) :
  (forall k, In k cols -> lookup k o = lookup k r) ->
  no_int cols r = true -> no_int cols o = true.
Proof.
  unfold no_int. rewrite !forallb_forall. intros H N c Hc.
  rewrite (H c Hc). apply N. exact Hc.
Qed.

(** The records that the reader makes of lines of strings. *)
Lemma reader_records (printablefmt : list text)
  (lines sacct_out : list record) :
  NoDup printablefmt ->
  Forall (fun line => forallb is_str (values line) = true) lines ->
  reader printablefmt lines = Ok sacct_out ->
  Forall (read_record printablefmt) sacct_out.
Proof.
  intros Hn Hs. unfold reader. apply mapM_Forall.
  intros line out Hin E. rewrite Forall_forall in Hs. specialize (Hs _ Hin).
  split.
  - unfold read_line in E.
    destruct (normalize_column "MaxRSS" line) as [l1|e]; [|discriminate].
    cbn [bind] in E.
    destruct (normalize_column "ReqMem" l1) as [l2|e]; [|discriminate].
    cbn [bind] in E.
    match type of E with
    | (l <- ?m;; _) = _ => destruct m as [l3|e]
    end; [|discriminate].
    cbn [bind] in E. exact (outline_of_columns l3 printablefmt [] out Hn E).
  - unfold no_int. apply forallb_forall. intros c Hc.
    destruct (lookup c out) as [[s|z]|] eqn:L; try reflexivity.
    destruct (read_line_cell printablefmt line out c (Int z) Hs E L)
      as [_ [M _]].
    specialize (M eq_refl).
    cbn in Hc. destruct Hc as [<- | [<- | [<- | [<- | []]]]]; discriminate.
Qed.

Lemma merge_records (printablefmt : list text) (fromId : option Z)
  (sacct_out out sacct_mrg : list record) :
  Forall (read_record printablefmt) sacct_out ->
  merge fromId sacct_out = (out, Ok sacct_mrg) ->
  out = [] /\ Forall (read_record printablefmt) sacct_mrg.
Proof.
  intros Hr. unfold merge.
  destruct (merge_loop fromId (MergeState None []) sacct_out)
    as [o [st|e]] eqn:E; [|discriminate].
  intros [= <- <-].
  assert (Inv0 : merge_inv [] (MergeState None []))
    by (split; [intros j; discriminate | constructor]).
  destruct (merge_loop_inv fromId sacct_out [] _ _ _ Inv0 E) as [-> Inv].
  split; [reflexivity|]. cbn [app] in Inv.
  apply merge_inv_flush in Inv.
  apply (Forall_impl _ (P := fun o => is_job o /\ exists r, In r sacct_out
                                                  /\ same_but_rss o r));
    [|exact Inv].
  intros o [_ [r [Hin [C L]]]].
  rewrite Forall_forall in Hr. destruct (Hr r Hin) as [Cr Nr].
  split; [congruence|].
  apply (no_int_lookup date_columns o r); [|exact Nr].
  intros k Hk. apply L. intros ->.
  cbn in Hk. destruct Hk as [Q | [Q | [Q | [Q | []]]]]; discriminate.
Qed.

(** An aligned row of [tabulate], for cells without escape characters. *)
Lemma pad_cells_aligned (col_widths : list nat) :
  forall cells : list value,
  List.length cells = List.length col_widths ->
  forallb (fun v => esc_free (str v)) cells = true ->
  pad_cells cells col_widths = Ok (aligned_row true col_widths cells)
  /\ pad_cells (colorize cells) col_widths
     = Ok (aligned_row false col_widths cells).
Proof.
  induction col_widths as [|w ws IH]; intros cells Hl He.
  - destruct cells; [|discriminate]. split; reflexivity.
  - destruct cells as [|x cells]; [discriminate|].
    cbn [forallb] in He. apply andb_true_iff in He as [Hx He].
    destruct (IH cells) as [E1 E2]; [injection Hl; auto | exact He |].
    change (colorize (x :: cells)) with (colorize_one x :: colorize cells).
    rewrite !pad_cells_cons, E1, E2. cbn [bind].
    unfold aligned_row. cbn [combine map List.concat fst snd].
    destruct (length_colorized x Hx) as [L1 L2].
    rewrite L1, (strip_ansi_plain _ Hx), Nat.sub_diag, Nat.add_0_r.
    unfold ljust. split; [reflexivity|].
    do 4 f_equal. lia.
Qed.

Lemma tabulate_aligned (cells : list value) (col_widths : list nat)
  (no_color : bool) :
  List.length cells = List.length col_widths ->
  forallb (fun v => esc_free (str v)) cells = true ->
  tabulate cells col_widths false no_color
  = Ok (aligned_row no_color col_widths cells).
Proof.
  intros Hl He. destruct (pad_cells_aligned col_widths cells Hl He) as [E1 E2].
  unfold tabulate. destruct no_color; cbn [negb]; assumption.
Qed.

Lemma print_rows_aligned_rows (col_widths : list nat) (no_color : bool)
  (rows : list record) :
  Forall (fun r : record => List.length r = List.length col_widths) rows ->
  forallb (fun r => forallb (fun v => esc_free (str v)) (values r)) rows
  = true ->
  print_rows col_widths false no_color rows
  = (map (fun r => aligned_row no_color col_widths (values r)) rows, Ok tt).
Proof.
  intros H. induction H as [|r rows Hr _ IH]; intros He; [reflexivity|].
  cbn [forallb] in He. apply andb_true_iff in He as [H1 H2].
  cbn [print_rows map].
  rewrite (tabulate_aligned (values r) col_widths no_color);
    [|unfold values; rewrite length_map; exact Hr | exact H1].
  rewrite (IH H2). reflexivity.
Qed.

(** The aligned table of rows that have the cells of the header, without
    escape characters: the widths and the lines. *)
Lemma print_table_aligned_lines (printablefmt : list text)
  (rows : list record) (no_color : bool) :
  NoDup printablefmt ->
  Forall (fun r : record => List.length r = List.length printablefmt) rows ->
  forallb esc_free printablefmt = true ->
  forallb (fun r => forallb (fun v => esc_free (str v)) (values r)) rows
  = true ->
  exists col_widths,
    List.length col_widths = List.length printablefmt
    /\ (forall i h,
          nth_error printablefmt i = Some h ->
          nth_error col_widths i
          = Some (list_max
                    (map (shown_length i h)
                         (map Str printablefmt :: map values rows))
                  + 2)%nat)
    /\ print_table printablefmt rows false no_color
       = (aligned_row no_color col_widths (map Str printablefmt)
            :: map (fun r => aligned_row no_color col_widths (values r)) rows
            ++ [aligned_row no_color col_widths (map Str printablefmt)],
          Ok tt).
Proof.
  intros Hn Hr Hh Hc.
  destruct (getColumnWidths_shown rows printablefmt 2 no_color Hn Hr Hh Hc)
    as [ws [E [L F]]].
  exists ws. split; [exact L|]. split; [exact F|].
  unfold print_table. rewrite E.
  rewrite (tabulate_aligned (map Str printablefmt) ws no_color);
    [|rewrite length_map; congruence | apply esc_free_header; exact Hh].
  rewrite (print_rows_aligned_rows ws no_color rows);
    [reflexivity | | exact Hc].
  apply (Forall_impl _ (P := fun r : record =>
                               List.length r = List.length printablefmt));
    [intros r Q; congruence | exact Hr].
Qed.

(** The tab-separated table of rows that have the cells of the header. *)
Lemma print_table_tsv_lines (printablefmt : list text)
  (sacct_mrg : list record) (no_color : bool) :
  NoDup printablefmt ->
  Forall (fun r : record => List.length r = List.length printablefmt)
         sacct_mrg ->
  print_table printablefmt sacct_mrg true no_color
  = (Py.join tab printablefmt
       :: map (fun r => Py.join tab (map str (values r))) sacct_mrg
       ++ [Py.join tab printablefmt], Ok tt).
Proof.
  intros Hn Hr.
  destruct (print_table_total printablefmt sacct_mrg true no_color Hn Hr)
    as [top [ts [E _]]].
  unfold print_table in *.
  destruct (getColumnWidths sacct_mrg printablefmt 2 no_color) as [ws|e];
    [|discriminate].
  cbn [tabulate] in *. rewrite print_rows_tsv.
  rewrite map_map. cbn [str]. rewrite map_id. reflexivity.
Qed.

(** X28. The program from the lines read to the table, for distinct column
    names and lines of strings: when the reader, the merger and the sorter
    end without exception, so does the program.  The date simplification
    and the printing cannot fail, and the error stream holds the warnings
    of the sorter.  Nothing but the table is printed: the header line, one
    line for each merged job, in the order of the sorter, and the header
    line again.  The rows printed are the sorted records but for the date
    columns.  In tab-separated mode the lines are the names, and the cells
    of each row, joined by tabs.  In aligned mode, when no name and no cell
    holds an escape character, every cell, colored or not, is followed by
    blanks up to the width of its column, which is 2 more than the longest
    text shown in the column. *)
Theorem main_prints_table (today : date) (fromId : option Z)
  (sort : list text) (tsv no_color iso_date : bool)
  (printablefmt : list text) (lines sacct_out out sacct_mrg srt : list record)
  (err : list text) :
  NoDup printablefmt ->
  Forall (fun line => forallb is_str (values line) = true) lines ->
  reader printablefmt lines = Ok sacct_out ->
  merge fromId sacct_out = (out, Ok sacct_mrg) ->
  sorter sort sacct_mrg = Ok (srt, err) ->
  exists rows,
    simplify_dates today tsv iso_date no_color srt = Ok (rows, tsv || no_color)
    /\ Permutation sacct_mrg srt
    /\ Forall2 (same_but_columns date_columns) rows srt
    /\ (tsv || iso_date = true -> rows = srt)
    /\ (exists top ts,
          main today fromId sort tsv no_color iso_date printablefmt lines
          = (map Line (top :: ts ++ [top]), Ok err)
          /\ List.length ts = List.length sacct_mrg)
    /\ (tsv = true ->
        main today fromId sort tsv no_color iso_date printablefmt lines
        = (map Line
             (Py.join tab printablefmt
                :: map (fun r => Py.join tab (map str (values r))) rows
                ++ [Py.join tab printablefmt]), Ok err))
    /\ (tsv = false ->
        forallb esc_free printablefmt = true ->
        forallb (fun r => forallb (fun v => esc_free (str v)) (values r)) rows
        = true ->
        exists col_widths,
          List.length col_widths = List.length printablefmt
          /\ (forall i h,
                nth_error printablefmt i = Some h ->
                nth_error col_widths i
                = Some (list_max
                          (map (shown_length i h)
                               (map Str printablefmt :: map values rows))
                        + 2)%nat)
          /\ main today fromId sort tsv no_color iso_date printablefmt lines
             = (map Line
                  (aligned_row no_color col_widths (map Str printablefmt)
                     :: map (fun r => aligned_row no_color col_widths
                                        (values r)) rows
                     ++ [aligned_row no_color col_widths
                           (map Str printablefmt)]), Ok err)).
Proof.
  intros Hn Hs Er Em Eo.
  pose proof (reader_records printablefmt lines sacct_out Hn Hs Er) as R1.
  destruct (merge_records printablefmt fromId sacct_out out sacct_mrg R1 Em)
    as [-> R2].
  assert (P : Permutation sacct_mrg srt)
    by exact (sort_loop_perm (rev sort) (sacct_mrg, []) (srt, err) Eo).
  assert (R3 : Forall (read_record printablefmt) srt).
  { rewrite Forall_forall in *. intros r Hin. apply R2.
    apply (Permutation_in _ (Permutation_sym P) Hin). }
  assert (N3 : forallb (no_int date_columns) srt = true).
  { apply forallb_forall. intros r Hin. rewrite Forall_forall in R3.
    exact (proj2 (R3 r Hin)). }
  destruct (simplify_dates_rows today tsv iso_date no_color srt N3)
    as [d [Ed [Fd Fe]]].
  assert (R4 : Forall (fun r : record =>
                         List.length r = List.length printablefmt) d).
  { clear -Fd R3. induction Fd as [|o r d srt [C _] Fd IH]; [constructor|].
    inversion R3 as [|? ? Hr R3']; subst. destruct Hr as [Cr _].
    constructor; [|exact (IH R3')].
    rewrite <- (length_map fst o). change (map fst o) with (columns o).
    rewrite C, Cr. reflexivity. }
  assert (Main : forall ts,
            print_table printablefmt d tsv (tsv || no_color) = (ts, Ok tt) ->
            main today fromId sort tsv no_color iso_date printablefmt lines
            = (map Line ts, Ok err)).
  { intros ts Ep. unfold main. rewrite Er, Em, Eo, Ed, Ep. reflexivity. }
  exists d. split; [exact Ed|]. split; [exact P|]. split; [exact Fd|].
  split; [exact Fe|]. split; [|split].
  - destruct (print_table_total printablefmt d tsv (tsv || no_color) Hn R4)
      as [top [ts [Ep Lp]]].
    exists top, ts. split; [exact (Main _ Ep)|].
    rewrite Lp. rewrite (Forall2_length Fd).
    symmetry. apply Permutation_length. exact P.
  - intros ->. apply Main.
    apply (print_table_tsv_lines printablefmt d _ Hn R4).
  - intros -> Hh Hc.
    destruct (print_table_aligned_lines printablefmt d no_color Hn R4 Hh Hc)
      as [ws [L [F Ep]]].
    exists ws. split; [exact L|]. split; [exact F|].
    apply Main. exact Ep.
Qed.

Lemma main_prints_table_witness :
  main (Date 2024 5 1) None ["JobID" : text] false true false
    ["JobID" : text; "MaxRSS" : text; "State" : text]
    [[("JobID" : text, Str "2"); ("State" : text, Str "RUNNING");
      ("MaxRSS" : text, Str "")];
     [("JobID" : text, Str "1"); ("State" : text, Str "COMPLETED");
      ("MaxRSS" : text, Str "")];
     [("JobID" : text, Str "1.batch"); ("State" : text, Str "COMPLETED");
      ("MaxRSS" : text, Str "2M")]]
  = (map Line ["JobID  MaxRSS  State      " : text;
               "1      2       COMPLETED  " : text;
               "2      .       RUNNING    " : text;
               "JobID  MaxRSS  State      " : text], Ok []).
Proof.
  destruct (main_prints_table (Date 2024 5 1) None ["JobID" : text]
           false true false
           ["JobID" : text; "MaxRSS" : text; "State" : text]
           [[("JobID" : text, Str "2"); ("State" : text, Str "RUNNING");
             ("MaxRSS" : text, Str "")];
            [("JobID" : text, Str "1"); ("State" : text, Str "COMPLETED");
             ("MaxRSS" : text, Str "")];
            [("JobID" : text, Str "1.batch");
             ("State" : text, Str "COMPLETED"); ("MaxRSS" : text, Str "2M")]]
           [[("JobID" : text, Str "2"); ("MaxRSS" : text, Str ".");
             ("State" : text, Str "RUNNING")];
            [("JobID" : text, Str "1"); ("MaxRSS" : text, Str ".");
             ("State" : text, Str "COMPLETED")];
            [("JobID" : text, Str "1.batch"); ("MaxRSS" : text, Int 2);
             ("State" : text, Str "COMPLETED")]]
           []
           [[("JobID" : text, Str "2"); ("MaxRSS" : text, Str ".");
             ("State" : text, Str "RUNNING")];
            [("JobID" : text, Str "1"); ("MaxRSS" : text, Int 2);
             ("State" : text, Str "COMPLETED")]]
           [[("JobID" : text, Str "1"); ("MaxRSS" : text, Int 2);
             ("State" : text, Str "COMPLETED")];
            [("JobID" : text, Str "2"); ("MaxRSS" : text, Str ".");
             ("State" : text, Str "RUNNING")]]
           [])
    as [rows [Ed [_ [_ [_ [[top [ts [E _]]] _]]]]]].
  - repeat constructor; simpl; intuition discriminate.
  - repeat constructor.
  - vm_compute. reflexivity.
  - vm_compute. reflexivity.
  - vm_compute. reflexivity.
  - rewrite E. clear Ed. revert E. vm_compute. intros E.
    injection E as -> ->. reflexivity.
Defined.
